(** * Repair-shop records: identifiers, phone lifecycle, vendor billing

    A shallow embedding of the browser script of the service application
    (the file that defines [loadRecords], [saveRecords], the [generate*ID]
    functions, [updatePhoneStatus] and [saveVendorBill]).

    Conventions of the embedding.
    - JavaScript strings are [string], the bytes of their UTF-8 form (the
      texts of the script, such as the check mark of its dialogs, are written
      that way); [undefined]/[null] fields are [option].  Comparison,
      concatenation, cutting at a hyphen, [trim] and the white space of
      [parseInt] are those of the script on every text.  [slice], [length] and
      [padStart] count bytes, and the change of letter case maps the letters
      a to z: on ASCII text they are the operations of the script, and the
      statements that apply them to a text from outside say that it is ASCII
      ([Text.isAscii]).
    - The integers handled by [parseInt] and the id generators are [Z]
      ([None] is [NaN]).  The script holds them in doubles, which are exact
      up to 2^53 ([Js.maxSafe] is the last integer before it); the numbers
      of phone and bill ids are lengths of lists, as are those of vendor ids
      in a store numbered in sequence, and the statements about the numbers
      read from stored service and laptop ids carry that bound.
    - Money amounts are IEEE-754 doubles: [spec_float] at precision 53 with
      the operations of [SpecFloat], so that rounding behaves as in the
      engine.
    - The working set [cachedRecords], the global
      [window.selectedPhonesForBilling] and the observable effects (calls of
      [alert], calls of [saveRecords]) are fields of the state [app].
    - What the script reads from the page (form fields, table rows, the hidden
      selection input) is an explicit argument of the function that reads
      it. *)

From Stdlib Require Import ZArith List String Ascii Lia Bool.
From Stdlib Require Import Floats.SpecFloat.
From Stdlib Require Import DecimalString DecimalPos.
From stdpp Require Import base list strings.

Open Scope string_scope.
Open Scope list_scope.
Open Scope Z_scope.

(** ** Strings *)

Module Js.

(** [s.slice(n)] for a non-negative [n]. *)
Definition slice_from (n : nat) (s : string) : string :=
  String.substring n (String.length s - n) s.

(** [s.slice(0, n)]. *)
Definition slice_to (n : nat) (s : string) : string :=
  String.substring 0 n s.

Fixpoint repeat_char (c : ascii) (n : nat) : string :=
  match n with
  | O => EmptyString
  | S k => String c (repeat_char c k)
  end.

(** [s.padStart(width, '0')]. *)
Definition padStart0 (width : nat) (s : string) : string :=
  repeat_char "0"%char (width - String.length s) +:+ s.

(** The white space and line terminator characters of ECMAScript, which
    [parseInt] and [trim] skip, by their UTF-8 forms.  One byte: U+0009 to
    U+000D and U+0020. *)
Definition is_space (c : ascii) : bool :=
  let n := nat_of_ascii c in
  (Nat.eqb n 32 || (Nat.leb 9 n && Nat.leb n 13))%bool.

(** Two bytes: U+00A0 (C2 A0). *)
Definition is_space2 (c1 c2 : ascii) : bool :=
  (Nat.eqb (nat_of_ascii c1) 194 && Nat.eqb (nat_of_ascii c2) 160)%bool.

(** Three bytes: U+1680 (E1 9A 80), U+2000 to U+200A (E2 80 80 to 8A),
    U+2028 and U+2029 (E2 80 A8, A9), U+202F (E2 80 AF), U+205F (E2 81 9F),
    U+3000 (E3 80 80) and U+FEFF (EF BB BF). *)
Definition is_space3 (c1 c2 c3 : ascii) : bool :=
  let a := nat_of_ascii c1 in
  let b := nat_of_ascii c2 in
  let c := nat_of_ascii c3 in
  ((Nat.eqb a 225 && Nat.eqb b 154 && Nat.eqb c 128) ||
   (Nat.eqb a 226 && Nat.eqb b 128 &&
      ((Nat.leb 128 c && Nat.leb c 138) || Nat.eqb c 168 || Nat.eqb c 169 || Nat.eqb c 175)) ||
   (Nat.eqb a 226 && Nat.eqb b 129 && Nat.eqb c 159) ||
   (Nat.eqb a 227 && Nat.eqb b 128 && Nat.eqb c 128) ||
   (Nat.eqb a 239 && Nat.eqb b 187 && Nat.eqb c 191))%bool.

(** The text without the white space it starts with. *)
Fixpoint skip_space (s : string) : string :=
  match s with
  | String c1 rest1 =>
      if is_space c1 then skip_space rest1
      else if Nat.ltb (nat_of_ascii c1) 128 then s
      else
        match rest1 with
        | String c2 rest2 =>
            if is_space2 c1 c2 then skip_space rest2
            else
              match rest2 with
              | String c3 rest3 => if is_space3 c1 c2 c3 then skip_space rest3 else s
              | EmptyString => s
              end
        | EmptyString => s
        end
  | EmptyString => s
  end.

Definition digit_value (radix : Z) (c : ascii) : option Z :=
  let n := Z.of_nat (nat_of_ascii c) in
  let v := if ((48 <=? n) && (n <=? 57))%bool then n - 48
           else if ((97 <=? n) && (n <=? 122))%bool then n - 87
           else if ((65 <=? n) && (n <=? 90))%bool then n - 55
           else 36 in
  if v <? radix then Some v else None.

(** The longest prefix of digits, read in [radix]; [acc] is [None] until a
    first digit has been seen. *)
Fixpoint read_digits (radix : Z) (acc : option Z) (s : string) : option Z :=
  match s with
  | String c rest =>
      match digit_value radix c with
      | Some v => read_digits radix (Some (radix * default 0 acc + v)) rest
      | None => acc
      end
  | EmptyString => acc
  end.

(** [parseInt(s)] without a radix argument: leading white space, an
    optional sign, an optional [0x] prefix, then digits up to the first
    character that is not one.  [None] is [NaN]. *)
Definition parseInt (s : string) : option Z :=
  let s1 := skip_space s in
  let '(negative, s2) :=
    match s1 with
    | String "-"%char rest => (true, rest)
    | String "+"%char rest => (false, rest)
    | _ => (false, s1)
    end in
  let '(radix, s3) :=
    match s2 with
    | String "0"%char (String "x"%char rest) => (16, rest)
    | String "0"%char (String "X"%char rest) => (16, rest)
    | _ => (10, s2)
    end in
  match read_digits radix None s3 with
  | Some n => Some (if negative : bool then - n else n)
  | None => None
  end.

(** The largest integer [n] for which the doubles hold both [n] and
    [n + 1] exactly ([Number.MAX_SAFE_INTEGER]): up to it the integer
    arithmetic below is the arithmetic of the script. *)
Definition maxSafe : Z := 2 ^ 53 - 1.

(** [String(n)] / [n.toString()] on an integer-valued number. *)
Definition numToString (n : option Z) : string :=
  match n with
  | Some z => NilZero.string_of_int (Z.to_int z)
  | None => "NaN"
  end.

(** [a || b] on strings that may be undefined: the empty string is falsy. *)
Definition strOr (a : option string) (b : string) : string :=
  match a with
  | Some s => if decide (s = "") then b else s
  | None => b
  end.

(** [findIndex]: position of the first element satisfying [f]; [None]
    stands for -1. *)
Fixpoint findIndex {A} (f : A -> bool) (l : list A) : option nat :=
  match l with
  | [] => None
  | x :: rest => if f x then Some O else option_map S (findIndex f rest)
  end.

(** [find]: the first element satisfying [f]. *)
Fixpoint find {A} (f : A -> bool) (l : list A) : option A :=
  match l with
  | [] => None
  | x :: rest => if f x then Some x else find f rest
  end.

(** [l.includes(x)] on strings. *)
Definition includes (l : list string) (x : string) : bool :=
  bool_decide (x ∈ l).

End Js.

(** ** Numbers

    A JavaScript number that holds an amount is a binary64 float.  The
    arithmetic is the one of [SpecFloat]; [toFixed(2)] is computed on the
    exact value of the double, as ECMAScript prescribes. *)

Module Num.

Definition number := spec_float.

Definition prec : Z := 53.
Definition emax : Z := 1024.

Definition add : number -> number -> number := SFadd prec emax.
Definition mul : number -> number -> number := SFmul prec emax.
Definition div : number -> number -> number := SFdiv prec emax.

Definition zero : number := S754_zero false.

(** The double nearest to an integer (exact below 2^53). *)
Definition ofZ (z : Z) : number := binary_normalize prec emax z 0 false.

(** The double nearest to [p / q], with sign [s]: what [parseFloat] returns
    on a decimal numeral whose value is that fraction. *)
Definition ofRatio (s : bool) (p q : positive) : number :=
  div (S754_finite s p 0) (S754_finite false q 0).

(** The double written [n / 10^k] in decimal notation. *)
Definition ofDecimal (n : Z) (k : nat) : number :=
  match n with
  | Z0 => zero
  | Zpos p => ofRatio false p (Z.to_pos (10 ^ Z.of_nat k))
  | Zneg p => ofRatio true p (Z.to_pos (10 ^ Z.of_nat k))
  end.

(** Truthiness of a number: [NaN], [0] and [-0] are falsy. *)
Definition truthy (x : number) : bool :=
  match x with
  | S754_nan | S754_zero _ => false
  | _ => true
  end.

(** [x || d]. *)
Definition orElse (x d : number) : number := if truthy x then x else d.

(** [m * 2^e >= 10^21]. *)
Definition atLeast1e21 (m : positive) (e : Z) : bool :=
  if 0 <=? e then 10 ^ 21 <=? Zpos m * 2 ^ e
  else 10 ^ 21 * 2 ^ (- e) <=? Zpos m.

(** The integer [n] for which [n / 100] is closest to [m * 2^e]; of two
    equally close ones the larger. *)
Definition hundredths (m : positive) (e : Z) : Z :=
  if 0 <=? e then Zpos m * 2 ^ e * 100
  else (2 * (Zpos m * 100) + 2 ^ (- e)) / (2 * 2 ^ (- e)).

(** [parseFloat(x.toFixed(2))]: the number read back from the text that
    [toFixed(2)] produces.  From 10^21 on [toFixed] prints the shortest
    round-tripping numeral, which reads back as [x]; [NaN] and the
    infinities print as their names and read back as themselves; the sign
    of a negative number is printed even when every digit is zero. *)
Definition toFixed2 (x : number) : number :=
  match x with
  | S754_finite s m e =>
      if atLeast1e21 m e then x
      else match hundredths m e with
           | Zpos n => ofRatio s n 100
           | _ => S754_zero s
           end
  | S754_zero _ => zero
  | _ => x
  end.

(** Numeric equality [===] on numbers ([NaN] differs from itself, the two
    zeros are equal). *)
Definition eqb (x y : number) : bool := SFeqb x y.

End Num.

Abbreviation number := Num.number.

(** ** Records of the store *)

(** One intake item of a vendor. *)
Record phone := mkPhone {
  phone_id : string;
  date_received : string;
  brand : string;
  model : string;
  issue : string;
  received_by : string;
  status : string;
  completed : bool;
  billed : bool;
  bill_id : option string
}.

(** One line of a bill. *)
Record lineItem := mkLineItem {
  li_item : string;
  li_breakout : string;
  li_price : number;
  li_quantity : number;
  li_total : number
}.

(** One invoice of a vendor. *)
Record vendorBill := mkVendorBill {
  vb_bill_id : string;
  vb_bill_number : string;
  vb_date : string;
  vb_phone_ids : list string;
  vb_items : list lineItem;
  vb_subtotal : number;
  vb_tax : number;
  vb_grand_total : number;
  vb_saved_at : option string;
  vb_updated_at : option string
}.

(** An object of the [records] array.  The three families share one
    array and are told apart by [record_type]; the fields a family does not
    have are [None].  [r_phones] is the [phones] array of a vendor record,
    which every handler that writes a vendor record gives it; it is empty for
    the other records.  The other fields are kept in [r_other], by name, as
    text (an array of texts as its elements joined by commas); the [bill]
    object of a service or laptop record is not represented. *)
Record record := mkRecord {
  r_record_type : option string;
  r_service_id : option string;
  r_laptop_id : option string;
  r_vendor_id : option string;
  r_phones : list phone;
  r_bills : option (list vendorBill);
  r_other : list (string * string)
}.

Definition is_vendor (r : record) : bool :=
  bool_decide (r_record_type r = Some "vendor").
Definition is_laptop (r : record) : bool :=
  bool_decide (r_record_type r = Some "laptop").
Definition has_vendor_id (vendorId : string) (r : record) : bool :=
  bool_decide (r_vendor_id r = Some vendorId).

(** ** Identifier generation

    The numbers are integers here and doubles in the script: the two agree
    while the numbers read and the successor taken are at most
    [Js.maxSafe + 1]. *)

Definition generateServiceID (records : list record) : string :=
  let base := "SRV" in
  match last records with
  | None => base +:+ "001"
  | Some r =>
      let lastID := Js.strOr (r_service_id r) (base +:+ "000") in
      let num := (fun n => n + 1) <$> Js.parseInt (Js.slice_from 3 lastID) in
      base +:+ Js.padStart0 3 (Js.numToString num)
  end.

Definition generateVendorID (records : list record) : string :=
  let base := "VND" in
  let vendorRecords := List.filter is_vendor records in
  match last vendorRecords with
  | None => base +:+ "001"
  | Some r =>
      let lastID := Js.strOr (r_vendor_id r) (base +:+ "000") in
      let num := (fun n => n + 1) <$> Js.parseInt (Js.slice_from 3 lastID) in
      base +:+ Js.padStart0 3 (Js.numToString num)
  end.

Definition generatePhoneID (vendorId : string) (phoneNumber : Z) : string :=
  vendorId +:+ "-P" +:+ Js.padStart0 3 (Js.numToString (Some phoneNumber)).

Definition generateBillID (vendorId : string) (billNumber : Z) : string :=
  vendorId +:+ "-B" +:+ Js.padStart0 3 (Js.numToString (Some billNumber)).

(** The numeric suffix of a laptop record, as the loop body reads it. *)
Definition laptopSuffix (r : record) : option Z :=
  Js.parseInt (Js.slice_from 3 (Js.strOr (r_laptop_id r) "")).

(** One turn of the [forEach] that looks for the highest number. *)
Definition laptopMaxStep (maxNum : Z) (r : record) : Z :=
  match laptopSuffix r with
  | Some num => if maxNum <? num then num else maxNum
  | None => maxNum
  end.

Definition generateLaptopID (records : list record) : string :=
  let base := "LAP" in
  let laptopRecords := List.filter is_laptop records in
  match laptopRecords with
  | [] => base +:+ "001"
  | _ =>
      let maxNum := fold_left laptopMaxStep laptopRecords 0 in
      base +:+ Js.padStart0 3 (Js.numToString (Some (maxNum + 1)))
  end.

(** ** Application state and effects *)

(** The effects a handler has on the outside: a dialog, or a call of
    [saveRecords] with the array it was given (which also starts the
    background write to the durable store). *)
Inductive event :=
  | Alert (msg : string)
  | SaveRecords (records : list record).

(** [window.selectedPhonesForBilling] when it is not [null]. *)
Record selection := mkSelection {
  sel_vendorId : string;
  sel_phoneIds : list string;
  sel_editingBillId : option string
}.

Record app := mkApp {
  cachedRecords : list record;
  selectedPhonesForBilling : option selection;
  events : list event
}.

(** [loadRecords] returns a copy of the array, not of the objects in it:
    a handler that changes a field of a loaded object changes the cached
    object.  Every handler below that does so ends with
    [saveRecords(records)] on that same array, whose elements are the
    changed objects, so the cache after the handler is the array built
    here with [<[i:=r]>] and [alter]. *)
Definition loadRecords (st : app) : list record := cachedRecords st.

Definition log (e : event) (st : app) : app :=
  mkApp (cachedRecords st) (selectedPhonesForBilling st) (events st ++ [e]).

Definition alert (msg : string) (st : app) : app := log (Alert msg) st.

Definition saveRecords (records : list record) (st : app) : app :=
  log (SaveRecords records)
      (mkApp records (selectedPhonesForBilling st) (events st)).

Definition setSelection (s : option selection) (st : app) : app :=
  mkApp (cachedRecords st) s (events st).

Definition with_phones (ps : list phone) (r : record) : record :=
  mkRecord (r_record_type r) (r_service_id r) (r_laptop_id r) (r_vendor_id r)
           ps (r_bills r) (r_other r).

Definition with_bills (bs : list vendorBill) (r : record) : record :=
  mkRecord (r_record_type r) (r_service_id r) (r_laptop_id r) (r_vendor_id r)
           (r_phones r) (Some bs) (r_other r).

(** A scalar field of a record, as it prints inside a template string. *)
Definition field (name : string) (r : record) : string :=
  match Js.find (fun kv => bool_decide (kv.1 = name)) (r_other r) with
  | Some kv => kv.2
  | None => "undefined"
  end.

Definition nl : string := String (ascii_of_nat 10) EmptyString.

(** ** Start-up data and service intake *)

(** The two records [initializeSampleData] puts into an empty store; the
    [bill] object and the two empty image fields of the service record and
    the time stamps are left out. *)
Definition sampleIndividualRecord : record :=
  {| r_record_type := Some "service"; r_service_id := Some "SRV001";
     r_laptop_id := None; r_vendor_id := None; r_phones := []; r_bills := None;
     r_other := [("date", "2025-10-24"); ("customer_name", "Rajesh Kumar");
                 ("mobile_number", "9876543210"); ("address", "123 Main Street, Mumbai");
                 ("mobile_brand", "Samsung"); ("model", "Galaxy S21");
                 ("imei1", "123456789012345"); ("imei2", "543210987654321");
                 ("issue", "Display broken"); ("service_type", "Display");
                 ("mobile_condition", "ON"); ("accessories", "SIM Tray,Back Cover");
                 ("received_by", "Avinash"); ("estimated_delivery", "2025-10-26")] |}.

Definition sampleVendorRecord : record :=
  {| r_record_type := Some "vendor"; r_service_id := None; r_laptop_id := None;
     r_vendor_id := Some "VND001";
     r_phones :=
       [mkPhone "VND001-P001" "2025-10-25" "Samsung" "Galaxy S21" "Display broken"
                "Avinash" "Billed" true true (Some "VND001-B001");
        mkPhone "VND001-P002" "2025-10-25" "Apple" "iPhone 13" "Battery issue"
                "Avinash" "Billed" true true (Some "VND001-B001");
        mkPhone "VND001-P003" "2025-10-26" "Vivo" "V21" "Charging port"
                "Aryan" "Ready" true false None;
        mkPhone "VND001-P004" "2025-10-26" "Oppo" "F19" "Screen replacement"
                "Aryan" "In Repair" false false None;
        mkPhone "VND001-P005" "2025-10-26" "Realme" "8" "Water damage"
                "Sameer" "Received" false false None];
     r_bills :=
       Some [mkVendorBill "VND001-B001" "VND001-B001" "2025-10-27"
               ["VND001-P001"; "VND001-P002"]
               [mkLineItem "Display (Samsung)" "Original" (Num.ofZ 1300) (Num.ofZ 1) (Num.ofZ 1300);
                mkLineItem "Battery (Apple)" "Compatible" (Num.ofZ 900) (Num.ofZ 1) (Num.ofZ 900)]
               (Num.ofZ 2200) Num.zero (Num.ofZ 2200) None None];
     r_other := [("vendor_name", "ABC Mobile Shop"); ("mobile_number", "9988776655");
                 ("created_date", "2025-10-25")] |}.

Definition sampleData : list record := [sampleIndividualRecord; sampleVendorRecord].

(** [initializeSampleData]: an empty store receives the two sample
    records. *)
Definition initializeSampleData (st : app) : app :=
  match loadRecords st with
  | [] => saveRecords sampleData st
  | _ => st
  end.

(** The submit handler of the service form.  [dbReady] is the global flag of
    that name; [fields] are the fields of the new record other than its id and
    type, by name, as text. *)
Definition serviceFormSubmit (dbReady : bool) (fields : list (string * string))
    (st : app) : app :=
  if dbReady then
    let records := loadRecords st in
    let newServiceId := generateServiceID records in
    let record :=
      {| r_record_type := Some "service"; r_service_id := Some newServiceId;
         r_laptop_id := None; r_vendor_id := None; r_phones := []; r_bills := None;
         r_other := fields |} in
    let st1 := saveRecords (records ++ [record]) st in
    alert ("✓ Service submitted successfully!" +:+ nl +:+ nl +:+ "Service ID: "
           +:+ newServiceId +:+ nl +:+ nl +:+ "Please note this ID for billing.") st1
  else alert "Please wait, database is initializing..." st.

(** ** Adding a phone to a vendor *)

Module AddPhone.

(** The fields of the add-phone form; brand, model and issue are the
    values after [trim()]. *)
Record form := mkForm {
  phoneDate : string;
  phoneBrand : string;
  phoneModel : string;
  phoneIssue : string;
  phoneReceivedBy : string
}.

Definition newPhone (phoneId : string) (f : form) : phone :=
  {| phone_id := phoneId;
     date_received := phoneDate f;
     brand := phoneBrand f;
     model := phoneModel f;
     issue := phoneIssue f;
     received_by := phoneReceivedBy f;
     status := "Received";
     completed := false;
     billed := false;
     bill_id := None |}.

(** The submit handler of the add-phone form; [vendorId] is the value of
    the vendor drop-down. *)
Definition submit (vendorId : string) (f : form) (st : app) : app :=
  let records := loadRecords st in
  match Js.findIndex (has_vendor_id vendorId) records with
  | None => alert "Please select a vendor" st
  | Some vendorIndex =>
      match records !! vendorIndex with
      | None => st
      | Some vendor =>
          let phoneNumber := Z.of_nat (length (r_phones vendor)) + 1 in
          let phoneId := generatePhoneID vendorId phoneNumber in
          let phone := newPhone phoneId f in
          let vendor' := with_phones (r_phones vendor ++ [phone]) vendor in
          let st1 := saveRecords (<[vendorIndex := vendor']> records) st in
          alert ("✓ Phone added to " +:+ field "vendor_name" vendor +:+ "!"
                 +:+ nl +:+ nl +:+ "Phone ID: " +:+ phoneId +:+ nl
                 +:+ brand phone +:+ " " +:+ model phone) st1
      end
  end.

End AddPhone.

(** ** Phone lifecycle *)

Definition setStatus (newStatus : string) (p : phone) : phone :=
  {| phone_id := phone_id p;
     date_received := date_received p;
     brand := brand p;
     model := model p;
     issue := issue p;
     received_by := received_by p;
     status := newStatus;
     completed := bool_decide (newStatus = "Ready");
     billed := billed p;
     bill_id := bill_id p |}.

Definition has_phone_id (phoneId : string) (p : phone) : bool :=
  bool_decide (phone_id p = phoneId).

(** The [for ... of] loop of [updatePhoneStatus]: the first vendor record
    that has a phone with the id gets that phone changed, and the loop
    stops.  [None]: no record had one. *)
Fixpoint updatePhoneStatusLoop (phoneId newStatus : string)
    (records : list record) : option (list record) :=
  match records with
  | [] => None
  | r :: rest =>
      match (if is_vendor r then Js.findIndex (has_phone_id phoneId) (r_phones r)
             else None) with
      | Some j => Some (with_phones (alter (setStatus newStatus) j (r_phones r)) r :: rest)
      | None => cons r <$> updatePhoneStatusLoop phoneId newStatus rest
      end
  end.

Definition updatePhoneStatus (phoneId newStatus : string) (st : app) : app :=
  match updatePhoneStatusLoop phoneId newStatus (loadRecords st) with
  | Some records' => saveRecords records' st
  | None => st
  end.

(** *** What the vendor details view offers *)

(** The values of the status selector rendered for a phone; a phone whose
    status is Billed gets a badge and no selector. *)
Definition statusSelectOptions (p : phone) : list string :=
  if decide (status p = "Billed") then []
  else ["Received"; "In Repair"; "Ready"].

(** The [disabled] attribute of the phone's check box. *)
Definition checkboxDisabled (p : phone) : bool :=
  bool_decide (status p = "Billed").

(** The [checked] attribute the check box is rendered with. *)
Definition checkboxChecked (p : phone) : bool :=
  completed p && negb (billed p).

(** [createBillForCheckedPhones]: [checked] lists the [data-phone-id] of
    the check boxes that are checked when the button is pressed. *)
Definition createBillForCheckedPhones (vendorId : string)
    (checked : list string) (st : app) : app :=
  match Js.findIndex (has_vendor_id vendorId) (loadRecords st) with
  | None => st
  | Some _ =>
      match checked with
      | [] => alert "Please select at least one phone to bill" st
      | _ => setSelection (Some (mkSelection vendorId checked None)) st
      end
  end.

(** ** The billing form *)

Module Form.

(** One [.item-row] of the items table, by what the script reads from it:
    [row_price] is [parseFloat] of the price field, [row_qty] is [parseInt]
    of the quantity field ([None] for [NaN]), [row_total] is [parseFloat]
    of the text of the total cell. *)
Record itemRow := mkRow {
  row_desc : string;
  row_breakout : string;
  row_price : number;
  row_qty : option Z;
  row_total : number
}.

(** The billing page: the item rows, [parseFloat] of the tax field and of
    the three total spans, and the parsed value of the hidden
    [selectedPhoneIds] input ([None] when the element is missing or its
    value is empty). *)
Record page := mkPage {
  rows : list itemRow;
  taxPercent : number;
  subtotalText : number;
  taxAmountText : number;
  grandTotalText : number;
  selectedPhoneIdsInput : option (list string)
}.

Definition ofInt (n : option Z) : number :=
  match n with
  | Some z => Num.ofZ z
  | None => S754_nan
  end.

(** [parseFloat(price.value) || 0]. *)
Definition priceOf (r : itemRow) : number := Num.orElse (row_price r) Num.zero.

(** [parseInt(qty.value) || 1]. *)
Definition qtyOf (r : itemRow) : number := Num.orElse (ofInt (row_qty r)) (Num.ofZ 1).

(** [parseFloat(total.textContent) || 0]. *)
Definition totalOf (r : itemRow) : number := Num.orElse (row_total r) Num.zero.

(** The local [total] of [updateItemTotal]. *)
Definition itemTotal (r : itemRow) : number := Num.mul (priceOf r) (qtyOf r).

Definition showTotal (r : itemRow) : itemRow :=
  mkRow (row_desc r) (row_breakout r) (row_price r) (row_qty r)
        (Num.toFixed2 (itemTotal r)).

(** The three locals of [updateBillTotals]. *)
Definition sumTotals (rs : list itemRow) : number :=
  fold_left (fun subtotal r => Num.add subtotal (totalOf r)) rs Num.zero.

Definition taxOf (subtotal taxPercent : number) : number :=
  Num.div (Num.mul subtotal (Num.orElse taxPercent Num.zero)) (Num.ofZ 100).

Definition updateBillTotals (pg : page) : page :=
  let subtotal := sumTotals (rows pg) in
  let taxAmount := taxOf subtotal (taxPercent pg) in
  let grandTotal := Num.add subtotal taxAmount in
  mkPage (rows pg) (taxPercent pg)
         (Num.toFixed2 subtotal) (Num.toFixed2 taxAmount) (Num.toFixed2 grandTotal)
         (selectedPhoneIdsInput pg).

(** [updateItemTotal(input)] for an input of the row at position [i]. *)
Definition updateItemTotal (i : nat) (pg : page) : page :=
  updateBillTotals
    (mkPage (alter showTotal i (rows pg)) (taxPercent pg)
            (subtotalText pg) (taxAmountText pg) (grandTotalText pg)
            (selectedPhoneIdsInput pg)).

(** The phone ids that [displayVendorBillingForm] writes into the hidden
    input. *)
Definition formSelection (vendor : record) (sel : option selection) : list string :=
  let selectedPhoneIds :=
    match sel with
    | Some s => if decide (Some (sel_vendorId s) = r_vendor_id vendor)
                then sel_phoneIds s else []
    | None => []
    end in
  match selectedPhoneIds with
  | [] => phone_id <$> List.filter (fun p => negb (billed p)) (r_phones vendor)
  | _ => selectedPhoneIds
  end.

(** The page as [displayVendorBillingForm] leaves it: one empty row, tax 0,
    totals refreshed by [attachItemEventListeners]. *)
Definition displayVendorBillingForm (vendor : record) (sel : option selection) : page :=
  updateBillTotals
    (mkPage [mkRow "" "" Num.zero (Some 1) Num.zero] Num.zero
            Num.zero Num.zero Num.zero
            (Some (formSelection vendor sel))).

End Form.

(** ** Saving and editing vendor bills *)

Definition has_bill_id (billId : string) (b : vendorBill) : bool :=
  bool_decide (vb_bill_id b = billId).

Definition collectItem (r : Form.itemRow) : lineItem :=
  {| li_item := Form.row_desc r;
     li_breakout := Form.row_breakout r;
     li_price := Form.priceOf r;
     li_quantity := Form.qtyOf r;
     li_total := Form.totalOf r |}.

(** The five assignments of the edit branch. *)
Definition replaceItems (items : list lineItem) (subtotal tax grandTotal : number)
    (now : string) (b : vendorBill) : vendorBill :=
  {| vb_bill_id := vb_bill_id b;
     vb_bill_number := vb_bill_number b;
     vb_date := vb_date b;
     vb_phone_ids := vb_phone_ids b;
     vb_items := items;
     vb_subtotal := subtotal;
     vb_tax := tax;
     vb_grand_total := grandTotal;
     vb_saved_at := vb_saved_at b;
     vb_updated_at := Some now |}.

(** The body of the [forEach] that marks the phones of a new bill. *)
Definition markBilled (selectedPhoneIds : list string) (billId : string)
    (p : phone) : phone :=
  if Js.includes selectedPhoneIds (phone_id p) then
    {| phone_id := phone_id p;
       date_received := date_received p;
       brand := brand p;
       model := model p;
       issue := issue p;
       received_by := received_by p;
       status := "Billed";
       completed := completed p;
       billed := true;
       bill_id := Some billId |}
  else p.

(** [window.selectedPhonesForBilling && ....editingBillId], when truthy. *)
Definition editingBillId (st : app) : option string :=
  match selectedPhonesForBilling st with
  | Some s =>
      match sel_editingBillId s with
      | Some b => if decide (b = "") then None else Some b
      | None => None
      end
  | None => None
  end.

(** The phone ids [saveVendorBill] works with: the parsed value of the
    hidden input, or every unbilled phone of the vendor when there is no
    such value. *)
Definition selectedIdsOf (pg : Form.page) (vendor : record) : list string :=
  match Form.selectedPhoneIdsInput pg with
  | Some ids => ids
  | None => phone_id <$> List.filter (fun p => negb (billed p)) (r_phones vendor)
  end.

(** The part of [saveVendorBill] from the comment "Create new bill" on. *)
Definition createBill (now : string) (vendorId : string) (vendorIndex : nat)
    (vendor : record) (bills : list vendorBill) (selectedPhoneIds : list string)
    (items : list lineItem) (subtotal tax grandTotal : number)
    (records : list record) (st : app) : app :=
  let billNumber := Z.of_nat (length bills) + 1 in
  let billId := generateBillID vendorId billNumber in
  let newBill :=
    {| vb_bill_id := billId;
       vb_bill_number := billId;
       vb_date := Js.slice_to 10 now;
       vb_phone_ids := selectedPhoneIds;
       vb_items := items;
       vb_subtotal := subtotal;
       vb_tax := tax;
       vb_grand_total := grandTotal;
       vb_saved_at := Some now;
       vb_updated_at := None |} in
  let vendor' :=
    with_phones (markBilled selectedPhoneIds billId <$> r_phones vendor)
                (with_bills (bills ++ [newBill]) vendor) in
  let st1 := saveRecords (<[vendorIndex := vendor']> records) st in
  let st2 := setSelection None st1 in
  alert ("✓ Bill " +:+ billId +:+ " created successfully for "
         +:+ Js.numToString (Some (Z.of_nat (length selectedPhoneIds)))
         +:+ " phone(s)!") st2.

(** [saveVendorBill(vendorId, isPartial)]; [now] is the reading of the
    clock, [pg] the billing page at the time of the call. *)
Definition saveVendorBill (now : string) (pg : Form.page) (vendorId : string)
    (isPartial : bool) (st : app) : app :=
  let records := loadRecords st in
  match Js.findIndex (has_vendor_id vendorId) records with
  | None => alert "Vendor record not found" st
  | Some vendorIndex =>
      match records !! vendorIndex with
      | None => st
      | Some vendor =>
          match selectedIdsOf pg vendor with
          | [] => alert "No phones selected for billing" st
          | selectedPhoneIds =>
              let items := collectItem <$> Form.rows pg in
              let subtotal := Form.subtotalText pg in
              let tax := Form.taxAmountText pg in
              let grandTotal := Form.grandTotalText pg in
              let bills := default [] (r_bills vendor) in
              let create :=
                createBill now vendorId vendorIndex vendor bills selectedPhoneIds
                           items subtotal tax grandTotal records st in
              match editingBillId st with
              | Some billId =>
                  match Js.findIndex (has_bill_id billId) bills with
                  | Some existingBillIndex =>
                      let bills' :=
                        alter (replaceItems items subtotal tax grandTotal now)
                              existingBillIndex bills in
                      let vendor' := with_bills bills' vendor in
                      let st1 := saveRecords (<[vendorIndex := vendor']> records) st in
                      let st2 := setSelection None st1 in
                      alert ("✓ Bill " +:+ billId +:+ " updated successfully!") st2
                  | None => create
                  end
              | None => create
              end
          end
      end
  end.

(** [editVendorBill(vendorId, billId)] up to the point where it hands over
    to the billing form. *)
Definition editVendorBill (vendorId billId : string) (st : app) : app :=
  match Js.find (has_vendor_id vendorId) (loadRecords st) with
  | None => alert "Vendor or bills not found" st
  | Some vendor =>
      match r_bills vendor with
      | None => alert "Vendor or bills not found" st
      | Some bills =>
          match Js.find (has_bill_id billId) bills with
          | None => alert "Bill not found" st
          | Some bill =>
              setSelection (Some (mkSelection vendorId (vb_phone_ids bill) (Some billId))) st
          end
      end
  end.

(** ** Warranty end date

    [new Date("YYYY-MM-DD")] is midnight UTC of that day; [getMonth] and
    [setMonth] work on local time and [toISOString] prints UTC.  The host
    time zone is taken to be UTC or a zone east of it whose offset from UTC
    is the same on the two days (a zone without daylight saving, as the
    shop's): the local calendar date of the instant is then the UTC date
    both before and after [setMonth], and the instant is represented by that
    date.  A day of the
    month that the target month does not have carries over into the
    following month, as [setMonth] does. *)

Module Warranty.

Record date := mkDate { year : Z; month : Z; day : Z }.

Definition isLeap (y : Z) : bool :=
  (y mod 4 =? 0) && (negb (y mod 100 =? 0) || (y mod 400 =? 0)).

Definition daysInMonth (y m : Z) : Z :=
  if m =? 2 then (if isLeap y then 29 else 28)
  else if (m =? 4) || (m =? 6) || (m =? 9) || (m =? 11) then 30
  else 31.

Definition validb (d : date) : bool :=
  (1 <=? month d) && (month d <=? 12) &&
  (1 <=? day d) && (day d <=? daysInMonth (year d) (month d)).

(** A run of decimal digits, or [None]. *)
Fixpoint digits (acc : Z) (s : string) : option Z :=
  match s with
  | EmptyString => Some acc
  | String c rest =>
      let n := Z.of_nat (nat_of_ascii c) in
      if (48 <=? n) && (n <=? 57) then digits (10 * acc + (n - 48)) rest else None
  end.

(** The date-only form [YYYY-MM-DD] that a date field holds.  [None]: the
    string is not of that form or names no day of the calendar; the script
    then ends in the exception of [toISOString] on an invalid date, or in
    behaviour that differs between engines. *)
Definition parse (s : string) : option date :=
  if decide (String.length s = 10%nat /\
             String.substring 4 1 s = "-" /\ String.substring 7 1 s = "-") then
    y ← digits 0 (String.substring 0 4 s);
    m ← digits 0 (String.substring 5 2 s);
    d ← digits 0 (String.substring 8 2 s);
    (if validb (mkDate y m d) then Some (mkDate y m d) else None)
  else None.

Definition pad (width : nat) (n : Z) : string :=
  Js.padStart0 width (Js.numToString (Some n)).

(** [toISOString()] of midnight UTC of a day. *)
Definition toISOString (d : date) : string :=
  (if (0 <=? year d) && (year d <=? 9999) then pad 4 (year d)
   else (if year d <? 0 then "-" else "+") +:+ pad 6 (Z.abs (year d)))
  +:+ "-" +:+ pad 2 (month d) +:+ "-" +:+ pad 2 (day d) +:+ "T00:00:00.000Z".

(** [date.setMonth(date.getMonth() + months)]. *)
Definition addMonths (months : Z) (d : date) : date :=
  let m0 := month d - 1 + months in
  let y := year d + m0 / 12 in
  let m := m0 mod 12 + 1 in
  if day d <=? daysInMonth y m then mkDate y m (day d)
  else if m =? 12 then mkDate (y + 1) 1 (day d - daysInMonth y m)
  else mkDate y (m + 1) (day d - daysInMonth y m).

(** The same operation by the day numbers of ECMAScript ([DayFromYear],
    [MakeDay], [YearFromTime], [MonthFromTime], [DateFromTime]), for days from
    1970 on; it serves as a cross-check of [addMonths]. *)
Definition dayFromYear (y : Z) : Z :=
  365 * (y - 1970) + (y - 1969) / 4 - (y - 1901) / 100 + (y - 1601) / 400.

Definition daysBeforeMonth (leap : bool) (m : Z) : Z :=
  let l := if leap then 1 else 0 in
  match m with
  | 1 => 0 | 2 => 31 | 3 => 59 + l | 4 => 90 + l | 5 => 120 + l
  | 6 => 151 + l | 7 => 181 + l | 8 => 212 + l | 9 => 243 + l
  | 10 => 273 + l | 11 => 304 + l | _ => 334 + l
  end.

Definition makeDay (y m0 dt : Z) : Z :=
  let ym := y + m0 / 12 in
  dayFromYear ym + daysBeforeMonth (isLeap ym) (m0 mod 12 + 1) + dt - 1.

Fixpoint yearDown (fuel : nat) (t y : Z) : Z :=
  match fuel with
  | O => y
  | S k => if dayFromYear y <=? t then y else yearDown k t (y - 1)
  end.

Definition yearFromDay (t : Z) : Z := yearDown 4 t (1970 + t / 365 + 1).

Fixpoint monthDown (fuel : nat) (leap : bool) (dayInYear m : Z) : Z :=
  match fuel with
  | O => m
  | S k => if daysBeforeMonth leap m <=? dayInYear then m
           else monthDown k leap dayInYear (m - 1)
  end.

Definition dateFromDay (t : Z) : date :=
  let y := yearFromDay t in
  let leap := isLeap y in
  let dayInYear := t - dayFromYear y in
  let m := monthDown 11 leap dayInYear 12 in
  mkDate y m (dayInYear - daysBeforeMonth leap m + 1).

Definition addMonthsByDays (months : Z) (d : date) : date :=
  dateFromDay (makeDay (year d) (month d - 1 + months) (day d)).

Definition dateEqb (a b : date) : bool :=
  (year a =? year b) && (month a =? month b) && (day a =? day b).

(** The days of the calendar from the year [y0], for [n] years. *)
Definition calendar (y0 : Z) (n : nat) : list date :=
  List.filter validb
    (y ← seqZ y0 (Z.of_nat n); m ← seqZ 1 12; d ← seqZ 1 31; [mkDate y m d]).

(** [warranty === '6' || warranty === '6 months' ? 6 : 3]. *)
Definition monthsOf (warranty : string) : Z :=
  if decide (warranty = "6" \/ warranty = "6 months") then 6 else 3.

Definition endDate (from : date) (warranty : string) : date :=
  addMonths (monthsOf warranty) from.

Definition calculateWarrantyEndDate (fromDate warranty : string) : option string :=
  from ← parse fromDate;
  Some (Js.slice_to 10 (toISOString (endDate from warranty))).

End Warranty.

(** ** Vocabulary of the statements *)

(** The position of the bill that a save in edit mode replaces, if any. *)
Definition editTarget (st : app) (bills : list vendorBill) : option nat :=
  editingBillId st ≫= fun billId => Js.findIndex (has_bill_id billId) bills.

(** The bill id that a creation for [vendorId] gets when the vendor has
    [n] bills. *)
Definition nextBillId (vendorId : string) (n : nat) : string :=
  vendorId +:+ "-B" +:+ Js.padStart0 3 (Js.numToString (Some (Z.of_nat n + 1))).


Definition isSave (e : event) : bool :=
  match e with SaveRecords _ => true | Alert _ => false end.

(** The [saveRecords] calls among the events a handler added. *)
Definition savesSince (before after : app) : list event :=
  List.filter isSave (drop (length (events before)) (events after)).


(** A handler call was blocked: the working set is what it was and
    [saveRecords] was not called. *)
Definition rejected (before after : app) : Prop :=
  cachedRecords after = cachedRecords before /\ savesSince before after = [].

(** [ids] names a phone of [vendor] that is already billed. *)
Definition namesBilledPhone (vendor : record) (ids : list string) : Prop :=
  exists p, p ∈ r_phones vendor /\ phone_id p ∈ ids /\ billed p = true.

(** *** Decimal numerals *)

Definition isDigit (c : ascii) : bool :=
  let n := nat_of_ascii c in (Nat.leb 48 n && Nat.leb n 57)%bool.

Fixpoint decimalb (s : string) : bool :=
  match s with
  | EmptyString => true
  | String c rest => isDigit c && decimalb rest
  end.

(** The value of a run of decimal digits that follows the value [acc]. *)
Fixpoint uintValue (d : Decimal.uint) (acc : Z) : Z :=
  match d with
  | Decimal.Nil => acc
  | Decimal.D0 l => uintValue l (10 * acc)
  | Decimal.D1 l => uintValue l (10 * acc + 1)
  | Decimal.D2 l => uintValue l (10 * acc + 2)
  | Decimal.D3 l => uintValue l (10 * acc + 3)
  | Decimal.D4 l => uintValue l (10 * acc + 4)
  | Decimal.D5 l => uintValue l (10 * acc + 5)
  | Decimal.D6 l => uintValue l (10 * acc + 6)
  | Decimal.D7 l => uintValue l (10 * acc + 7)
  | Decimal.D8 l => uintValue l (10 * acc + 8)
  | Decimal.D9 l => uintValue l (10 * acc + 9)
  end.

(** *** Phones and bills of a vendor *)

Definition billsOf (r : record) : list vendorBill := default [] (r_bills r).

(** The bills of [r] whose phone-id list contains [id]. *)
Definition billsNaming (id : string) (r : record) : list vendorBill :=
  List.filter (fun b => Js.includes (vb_phone_ids b) id) (billsOf r).

(** The phone at position [j] of the record at position [i]. *)
Definition phoneAt (i j : nat) (records : list record) : option phone :=
  records !! i ≫= fun r => r_phones r !! j.

(** The position of the phone that [updatePhoneStatus] changes: the first
    phone with the id in the first vendor record that has one. *)
Fixpoint statusTarget (phoneId : string) (records : list record) : option (nat * nat) :=
  match records with
  | [] => None
  | r :: rest =>
      match (if is_vendor r then Js.findIndex (has_phone_id phoneId) (r_phones r)
             else None) with
      | Some j => Some (O, j)
      | None => (fun ij => (S ij.1, ij.2)) <$> statusTarget phoneId rest
      end
  end.

(** *** Sequences of operations *)

(** Every id of [ids] is the id of a phone of [vendor], and no phone of
    [vendor] with that id is billed. *)
Definition offeredb (vendor : record) (ids : list string) : bool :=
  forallb (fun id =>
             existsb (has_phone_id id) (r_phones vendor) &&
             forallb (fun p => implb (has_phone_id id p) (negb (billed p))) (r_phones vendor))
          ids.

(** The calls that change the store or the selection. *)
Inductive action :=
  | Save (now : string) (pg : Form.page) (vendorId : string) (isPartial : bool)
  | SetStatus (phoneId newStatus : string)
  | EditBill (vendorId billId : string)
  | CheckPhones (vendorId : string) (checked : list string)
  | AddPhone (vendorId : string) (f : AddPhone.form).

Definition perform (a : action) (st : app) : app :=
  match a with
  | Save now pg vendorId isPartial => saveVendorBill now pg vendorId isPartial st
  | SetStatus phoneId newStatus => updatePhoneStatus phoneId newStatus st
  | EditBill vendorId billId => editVendorBill vendorId billId st
  | CheckPhones vendorId checked => createBillForCheckedPhones vendorId checked st
  | AddPhone vendorId f => AddPhone.submit vendorId f st
  end.

(** The id that the add-phone handler gives the next phone of [vendor]. *)
Definition nextPhoneId (vendorId : string) (vendor : record) : string :=
  generatePhoneID vendorId (Z.of_nat (length (r_phones vendor)) + 1).

(** No bill of [r] names [id]. *)
Definition unnamedb (id : string) (r : record) : bool :=
  forallb (fun b => negb (Js.includes (vb_phone_ids b) id)) (billsOf r).

(** A save is permitted when it replaces an existing bill, or when the phone
    ids it works with name unbilled phones of the vendor it is for.  Adding a
    phone is permitted when no bill of the vendor names the id the phone gets
    (which is so in every store whose phone ids came from the add-phone
    handler, see [addPhone_permitted]).  The other calls are always
    permitted. *)
Definition permitted (a : action) (st : app) : bool :=
  match a with
  | Save now pg vendorId isPartial =>
      match Js.findIndex (has_vendor_id vendorId) (cachedRecords st) with
      | Some i =>
          match cachedRecords st !! i with
          | Some vendor =>
              match editTarget st (billsOf vendor) with
              | Some _ => true
              | None => offeredb vendor (selectedIdsOf pg vendor)
              end
          | None => true
          end
      | None => true
      end
  | AddPhone vendorId f =>
      match Js.findIndex (has_vendor_id vendorId) (cachedRecords st) with
      | Some i =>
          match cachedRecords st !! i with
          | Some vendor => unnamedb (nextPhoneId vendorId vendor) vendor
          | None => true
          end
      | None => true
      end
  | _ => true
  end.

(** A status call is one the vendor view can make when its value is among
    those the status selector of the phone it changes offers. *)
Definition viewAllows (a : action) (st : app) : bool :=
  match a with
  | SetStatus phoneId newStatus =>
      match statusTarget phoneId (cachedRecords st) with
      | Some (i, j) =>
          match phoneAt i j (cachedRecords st) with
          | Some p => bool_decide (newStatus ∈ statusSelectOptions p)
          | None => true
          end
      | None => true
      end
  | _ => true
  end.

(** [a] is a save that creates a bill for the record at position [i], with
    a selection that contains [id]. *)
Definition createsBillNaming (a : action) (st : app) (i : nat) (id : string) : Prop :=
  exists now pg vendorId isPartial vendor,
    a = Save now pg vendorId isPartial /\
    Js.findIndex (has_vendor_id vendorId) (cachedRecords st) = Some i /\
    cachedRecords st !! i = Some vendor /\
    editTarget st (billsOf vendor) = None /\
    id ∈ selectedIdsOf pg vendor.

(** The state after a sequence of permitted calls; [None] when a call of the
    sequence is not permitted in the state it is made in. *)
Fixpoint runPermitted (actions : list action) (st : app) : option app :=
  match actions with
  | [] => Some st
  | a :: rest => if permitted a st then runPermitted rest (perform a st) else None
  end.

(** No two of the lists share an element. *)
Fixpoint pairwiseDisjointb (ls : list (list string)) : bool :=
  match ls with
  | [] => true
  | l :: rest =>
      forallb (fun id => forallb (fun l' => negb (Js.includes l' id)) rest) l &&
      pairwiseDisjointb rest
  end.

(** The bills of [r] are disjoint and a phone of [r] is billed exactly when
    one bill names it. *)
Definition billedOnceb (r : record) : bool :=
  pairwiseDisjointb (vb_phone_ids <$> billsOf r) &&
  forallb (fun p => eqb (billed p) (Nat.eqb (length (billsNaming (phone_id p) r)) 1))
          (r_phones r).

Definition storeBilledOnce (st : app) : bool := forallb billedOnceb (cachedRecords st).

(** The same two conditions as propositions, on the lists of phone ids of
    the bills. *)
Definition timesNamed (id : string) (ls : list (list string)) : nat :=
  length (List.filter (fun l => Js.includes l id) ls).

Fixpoint pairwiseDisjoint (ls : list (list string)) : Prop :=
  match ls with
  | [] => True
  | l :: rest => (forall id l', id ∈ l -> l' ∈ rest -> id ∉ l') /\ pairwiseDisjoint rest
  end.

(** The phone ids of [r] are the ones the add-phone handler generates, in
    order, and the bills of [r] name phones of [r] only. *)
Definition phonesInOrder (r : record) : Prop :=
  forall j p, r_phones r !! j = Some p ->
    exists vendorId, r_vendor_id r = Some vendorId /\
                     phone_id p = generatePhoneID vendorId (Z.of_nat j + 1).

Definition billsNameOwnPhones (r : record) : Prop :=
  forall b id, b ∈ billsOf r -> id ∈ vb_phone_ids b ->
    exists p, p ∈ r_phones r /\ phone_id p = id.

Definition generated (r : record) : Prop := phonesInOrder r /\ billsNameOwnPhones r.

Definition billedOnce (r : record) : Prop :=
  pairwiseDisjoint (vb_phone_ids <$> billsOf r) /\
  forall p, p ∈ r_phones r ->
    (billed p = true <-> timesNamed (phone_id p) (vb_phone_ids <$> billsOf r) = 1%nat).

(** "[d] plus exactly [n] calendar months": the same day of the month, [n]
    months later, the year advancing with every twelfth month. *)
Definition monthsLater (n : Z) (d : Warranty.date) : Warranty.date :=
  Warranty.mkDate (Warranty.year d + (Warranty.month d - 1 + n) / 12)
                  ((Warranty.month d - 1 + n) mod 12 + 1)
                  (Warranty.day d).

(** The line-item rule in the words of the specification: a negative
    price is raised to 0, a quantity of zero or less (or none) to 1, and the
    total is their product. *)
Definition floorPrice (price : number) : number :=
  if SFltb price Num.zero then Num.zero else price.

Definition floorQty (qty : option Z) : number :=
  match qty with
  | Some z => if z <=? 0 then Num.ofZ 1 else Num.ofZ z
  | None => Num.ofZ 1
  end.

Definition clampedTotal (price : number) (qty : option Z) : number :=
  Num.mul (floorPrice price) (floorQty qty).

(** The sum of the totals of stored line items, added up in order from 0. *)
Definition sumItems (items : list lineItem) : number :=
  fold_left (fun acc it => Num.add acc (li_total it)) items Num.zero.

(** The two equations the specification asks of a stored bill, read with
    the numeric equality of the language. *)
Definition billConsistent (b : vendorBill) : bool :=
  Num.eqb (vb_grand_total b) (Num.add (vb_subtotal b) (vb_tax b)) &&
  Num.eqb (vb_subtotal b) (sumItems (vb_items b)).

(** The bill appended last to the record at position [i]. *)
Definition lastBill (i : nat) (st : app) : option vendorBill :=
  cachedRecords st !! i ≫= fun v => last (default [] (r_bills v)).

(** ** Sample values used in the worked examples *)

Module Sample.

Definition phoneOf (id st : string) (done isBilled : bool) (bill : option string) : phone :=
  {| phone_id := id; date_received := "2025-10-25"; brand := "Vivo"; model := "V21";
     issue := "Charging port"; received_by := "Aryan"; status := st;
     completed := done; billed := isBilled; bill_id := bill |}.

Definition vendorOf (id : string) (ps : list phone) (bs : list vendorBill) : record :=
  {| r_record_type := Some "vendor"; r_service_id := None; r_laptop_id := None;
     r_vendor_id := Some id; r_phones := ps; r_bills := Some bs;
     r_other := [("vendor_name", "ABC Mobile Shop"); ("mobile_number", "9988776655")] |}.

Definition serviceOf (id : string) : record :=
  {| r_record_type := Some "service"; r_service_id := Some id; r_laptop_id := None;
     r_vendor_id := None; r_phones := []; r_bills := None;
     r_other := [("customer_name", "Rajesh Kumar")] |}.

Definition laptopOf (id : string) : record :=
  {| r_record_type := Some "laptop"; r_service_id := None; r_laptop_id := Some id;
     r_vendor_id := None; r_phones := []; r_bills := None; r_other := [] |}.

Definition appOf (records : list record) : app := mkApp records None [].

(** Vendor VND001 with three phones, all Received. *)
Definition threePhones : record :=
  vendorOf "VND001"
    [phoneOf "VND001-P001" "Received" false false None;
     phoneOf "VND001-P002" "Received" false false None;
     phoneOf "VND001-P003" "Received" false false None] [].

Definition phoneForm : AddPhone.form :=
  AddPhone.mkForm "2025-10-26" "Oppo" "F19" "Screen replacement" "Aryan".

(** A billing page with one row (price, quantity) whose totals have been
    refreshed, a tax percentage, and a hidden selection. *)
Definition pageOf (price : number) (qty : Z) (tax : number) (ids : option (list string)) : Form.page :=
  Form.updateItemTotal 0
    (Form.mkPage [Form.mkRow "Service Charge" "All Phones" price (Some qty) Num.zero]
                 tax Num.zero Num.zero Num.zero ids).

(** Typing a price into the row at position [i]: the field changes and its
    input event runs [updateItemTotal]. *)
Definition typePrice (i : nat) (price : number) (pg : Form.page) : Form.page :=
  Form.updateItemTotal i
    (Form.mkPage
       (alter (fun r => Form.mkRow (Form.row_desc r) (Form.row_breakout r) price
                                   (Form.row_qty r) (Form.row_total r)) i (Form.rows pg))
       (Form.taxPercent pg) (Form.subtotalText pg) (Form.taxAmountText pg)
       (Form.grandTotalText pg) (Form.selectedPhoneIdsInput pg)).

Definition now : string := "2025-10-27T09:30:00.000Z".

End Sample.

Module Scenario.

(** The store of the billing scenario: vendor VND001 with phones P001 to
    P003, all Received. *)
Definition start : app := Sample.appOf [Sample.threePhones].

(** The billing page for P001 and P002 with one item of 1300 and tax 0. *)
Definition page : Form.page :=
  Sample.pageOf (Num.ofZ 1300) 1 Num.zero (Some ["VND001-P001"; "VND001-P002"]).

Definition billed1 : app := saveVendorBill Sample.now page "VND001" true start.

(** The same page saved a second time. *)
Definition billed2 : app := saveVendorBill Sample.now page "VND001" true billed1.

Definition vendorAfter (st : app) : option record := cachedRecords st !! 0%nat.

(** The first start of the application on an empty store, followed by the
    intake of a service. *)
Definition firstStart : app := initializeSampleData (Sample.appOf []).

Definition firstIntake : app :=
  serviceFormSubmit true [("customer_name", "Anita Rao"); ("mobile_brand", "Nokia")] firstStart.

(** A status call for the unbilled P003 with the value Billed, and one that
    reopens the billed P001. *)
Definition forcedBilled : app := updatePhoneStatus "VND001-P003" "Billed" start.
Definition reopened : app := updatePhoneStatus "VND001-P001" "Received" billed1.

(** A bill for P003 with one item of price 1, quantity 1, and tax 0.5
    percent. *)
Definition pageHalfPercent : Form.page :=
  Sample.pageOf (Num.ofZ 1) 1 (Num.ofDecimal 5 1) (Some ["VND001-P003"]).

Definition billedHalfPercent : app :=
  saveVendorBill Sample.now pageHalfPercent "VND001" true start.

(** A bill for P003 with one item of price -5 and quantity 2. *)
Definition pageNegative : Form.page :=
  Sample.pageOf (Num.ofZ (-5)) 2 Num.zero (Some ["VND001-P003"]).

Definition billedNegative : app :=
  saveVendorBill Sample.now pageNegative "VND001" true start.

(** A second vendor, VND002, whose only phone is billed in VND002-B001. *)
Definition vendor2 : record :=
  Sample.vendorOf "VND002"
    [Sample.phoneOf "VND002-P001" "Billed" true true (Some "VND002-B001")]
    [mkVendorBill "VND002-B001" "VND002-B001" "2025-10-27" ["VND002-P001"]
       [mkLineItem "Display" "Original" (Num.ofZ 1300) (Num.ofZ 1) (Num.ofZ 1300)]
       (Num.ofZ 1300) Num.zero (Num.ofZ 1300) (Some Sample.now) None].

Definition twoVendors : app := Sample.appOf [Sample.threePhones; vendor2].

(** The bill of VND002 is opened for editing and left; then the billing form
    of VND001 is displayed, a price of 500 is typed into its row, and the
    form is saved. *)
Definition staleEdit : app := editVendorBill "VND002" "VND002-B001" twoVendors.

Definition pageVND001 : Form.page :=
  Sample.typePrice 0 (Num.ofZ 500)
    (Form.displayVendorBillingForm Sample.threePhones (selectedPhonesForBilling staleEdit)).

Definition afterStaleEdit : app := saveVendorBill Sample.now pageVND001 "VND001" true staleEdit.

(** The billing page for P003 with one item of 500. *)
Definition pageP3 : Form.page :=
  Sample.pageOf (Num.ofZ 500) 1 Num.zero (Some ["VND001-P003"]).

(** The vendor record and its bills after the first bill. *)
Definition vendor1 : record := default Sample.threePhones (vendorAfter billed1).
Definition bills1 : list vendorBill := default [] (r_bills vendor1).

(** The first bill opened for editing, and saved with a new item. *)
Definition editing : app := editVendorBill "VND001" "VND001-B001" billed1.

Definition pageEdit : Form.page :=
  Sample.pageOf (Num.ofZ 900) 2 Num.zero (Some ["VND001-P001"; "VND001-P002"]).

Definition edited : app := saveVendorBill Sample.now pageEdit "VND001" true editing.

(** Bill P001 and P002, mark P003 Ready, open the bill for editing and
    save it, add a fourth phone, then bill P003. *)
Definition actions : list action :=
  [Save Sample.now page "VND001" true;
   SetStatus "VND001-P003" "Ready";
   EditBill "VND001" "VND001-B001";
   Save Sample.now pageEdit "VND001" true;
   AddPhone "VND001" Sample.phoneForm;
   Save Sample.now pageP3 "VND001" true].

Definition finished : app := default start (runPermitted actions start).

Definition vendorFinished : record := default Sample.threePhones (vendorAfter finished).

End Scenario.

(** * The other handlers of the script

    The definitions below embed the functions around the ones above: the
    forms that create vendors and laptop jobs, the search of the billing
    tab, the item rows of a billing form, the automatic filling of date
    fields and the filters of the record list. *)

(** ** Text operations of the forms and views *)

Module Text.

(** A text of ASCII characters only. *)
Fixpoint isAscii (s : string) : bool :=
  match s with
  | EmptyString => true
  | String c rest => Nat.ltb (nat_of_ascii c) 128 && isAscii rest
  end.

(** U+00A0, the no-break space. *)
Definition nbsp : string := String (ascii_of_nat 194) (String (ascii_of_nat 160) EmptyString).

(** [s.trimEnd()]: the text up to the white space it ends with, which is
    where what remains is white space only.  (No white space character
    starts with a byte that continues another character, so the cut falls
    between two characters.) *)
Fixpoint trimEnd (s : string) : string :=
  match s with
  | EmptyString => EmptyString
  | String c rest =>
      match Js.skip_space s with
      | EmptyString => EmptyString
      | String _ _ => String c (trimEnd rest)
      end
  end.

(** [s.trim()]. *)
Definition trim (s : string) : string := trimEnd (Js.skip_space s).

Definition upper (c : ascii) : ascii :=
  let n := nat_of_ascii c in
  if (Nat.leb 97 n && Nat.leb n 122)%bool then ascii_of_nat (n - 32) else c.

Definition lower (c : ascii) : ascii :=
  let n := nat_of_ascii c in
  if (Nat.leb 65 n && Nat.leb n 90)%bool then ascii_of_nat (n + 32) else c.

Fixpoint mapChars (f : ascii -> ascii) (s : string) : string :=
  match s with
  | EmptyString => EmptyString
  | String c rest => String (f c) (mapChars f rest)
  end.

(** [s.toUpperCase()] and [s.toLowerCase()] on ASCII text: the letters a
    to z and A to Z are mapped, every other byte is kept.  (On a text with
    other letters the script maps those as well.) *)
Definition toUpperCase : string -> string := mapChars upper.
Definition toLowerCase : string -> string := mapChars lower.

Fixpoint startsWith (p s : string) : bool :=
  match p, s with
  | EmptyString, _ => true
  | String a p', String b s' => Ascii.eqb a b && startsWith p' s'
  | String _ _, EmptyString => false
  end.

(** [s.includes(part)] on strings. *)
Fixpoint includes (s part : string) : bool :=
  startsWith part s ||
  match s with
  | EmptyString => false
  | String _ rest => includes rest part
  end.

(** [s.split(sep)] for a separator of one character: the pieces between
    the separators, at least one. *)
Fixpoint split (sep : ascii) (s : string) : list string :=
  match s with
  | EmptyString => [EmptyString]
  | String c rest =>
      if Ascii.eqb c sep then EmptyString :: split sep rest
      else match split sep rest with
           | piece :: pieces => String c piece :: pieces
           | [] => [String c EmptyString]
           end
  end.

End Text.

(** A field of a record that is kept by name; [None] is [undefined]. *)
Definition prop (name : string) (r : record) : option string :=
  snd <$> Js.find (fun kv => bool_decide (kv.1 = name)) (r_other r).

(** Truthiness of a string that may be [undefined]. *)
Definition truthyStr (s : option string) : bool :=
  match s with
  | Some t => negb (bool_decide (t = ""))
  | None => false
  end.

(** ** Creating a vendor *)

(** The submit handler of the create-vendor form.  [today] and [now] are the
    two readings of the clock, as [toISOString] prints them; the name and the
    number are the values of the two fields. *)
Definition createVendorFormSubmit (dbReady : bool) (today now : string)
    (newVendorName newVendorMobile : string) (st : app) : app :=
  if dbReady then
    let records := loadRecords st in
    let newVendorId := generateVendorID records in
    let vendor_name := Text.trim newVendorName in
    let mobile_number := Text.trim newVendorMobile in
    let vendorRecord :=
      {| r_record_type := Some "vendor"; r_service_id := None; r_laptop_id := None;
         r_vendor_id := Some newVendorId; r_phones := []; r_bills := Some [];
         r_other := [("vendor_name", vendor_name); ("mobile_number", mobile_number);
                     ("created_date", Js.slice_to 10 today); ("timestamp", now)] |} in
    let st1 := saveRecords (records ++ [vendorRecord]) st in
    alert ("✓ Vendor " +:+ newVendorId +:+ " created!" +:+ nl +:+ nl
           +:+ "Vendor: " +:+ vendor_name +:+ nl +:+ "Mobile: " +:+ mobile_number
           +:+ nl +:+ nl +:+ "Now you can add phones to this vendor.") st1
  else alert "Please wait, database is initializing..." st.

(** The values of the options that [updateVendorDropdown] puts into the
    vendor selector, after the empty first one; an option whose vendor has no
    id carries the text of [undefined]. *)
Definition updateVendorDropdown (st : app) : list string :=
  "" :: ((fun vendor => default "undefined" (r_vendor_id vendor))
           <$> List.filter is_vendor (loadRecords st)).

(** ** Laptop intake *)

Module LaptopForm.

(** The fields of the laptop form and the values of the accessory boxes
    that are checked. *)
Record form := mkForm {
  laptopDate : string;
  laptopContact : string;
  laptopBrand : string;
  laptopModel : string;
  laptopCondition : string;
  laptopAccessories : list string;
  laptopIssue : string;
  laptopReceivedBy : string
}.

(** An array of strings as it prints: its elements joined by commas. *)
Fixpoint joinComma (l : list string) : string :=
  match l with
  | [] => ""
  | [x] => x
  | x :: rest => x +:+ "," +:+ joinComma rest
  end.

(** The submit handler of the laptop form.  The text fields of the new
    record go to [r_other] by name.  Two fields of the source object are not
    text: [accessories], the array of the checked values, is kept joined by
    commas, and [bill: null] has no entry (none of the functions modelled here
    reads the [bill] of a laptop record). *)
Definition submit (dbReady : bool) (now : string) (f : form) (st : app) : app :=
  if dbReady then
    let records := loadRecords st in
    let laptopId := generateLaptopID records in
    let contact_number := Text.trim (laptopContact f) in
    let laptop_brand := Text.trim (laptopBrand f) in
    let model := Text.trim (laptopModel f) in
    let laptopData :=
      {| r_record_type := Some "laptop"; r_service_id := None;
         r_laptop_id := Some laptopId; r_vendor_id := None; r_phones := []; r_bills := None;
         r_other := [("date", laptopDate f); ("contact_number", contact_number);
                     ("laptop_brand", laptop_brand); ("model", model);
                     ("condition", laptopCondition f);
                     ("accessories", joinComma (laptopAccessories f));
                     ("issue", Text.trim (laptopIssue f));
                     ("received_by", Text.trim (laptopReceivedBy f));
                     ("timestamp", now)] |} in
    let st1 := saveRecords (records ++ [laptopData]) st in
    alert ("✓ Laptop Service " +:+ laptopId +:+ " created successfully!" +:+ nl +:+ nl
           +:+ "Contact: " +:+ contact_number +:+ nl
           +:+ "Laptop: " +:+ laptop_brand +:+ " " +:+ model +:+ nl +:+ nl
           +:+ "Please note this ID for billing.") st1
  else alert "Please wait, database is initializing..." st.

(** The id the handler then writes into the [laptopServiceId] field. *)
Definition nextIdShown (st : app) : string := generateLaptopID (loadRecords st).

End LaptopForm.

(** ** Sequences of handler calls *)

(** The calls of the script that write to the store. *)
Inductive command :=
  | Act (a : action)
  | CreateVendor (dbReady : bool) (today now name mobile : string)
  | ServiceIntake (dbReady : bool) (fields : list (string * string))
  | LaptopIntake (dbReady : bool) (now : string) (f : LaptopForm.form)
  | StartUp.

Definition execute (c : command) (st : app) : app :=
  match c with
  | Act a => perform a st
  | CreateVendor dbReady today now name mobile =>
      createVendorFormSubmit dbReady today now name mobile st
  | ServiceIntake dbReady fields => serviceFormSubmit dbReady fields st
  | LaptopIntake dbReady now f => LaptopForm.submit dbReady now f st
  | StartUp => initializeSampleData st
  end.

Definition run (cs : list command) (st : app) : app :=
  fold_left (fun s c => execute c s) cs st.

(** *** What a call can do to the store *)

(** The four ways in which a handler changes a record of the store.  [ok]
    is what is known of a change of status: of the phone it changes and of
    the new status. *)
Inductive recordStep (ok : phone -> string -> Prop) : record -> record -> Prop :=
  | step_addPhone (r : record) (vendorId : string) (f : AddPhone.form) :
      r_vendor_id r = Some vendorId ->
      recordStep ok r
        (with_phones (r_phones r ++ [AddPhone.newPhone (nextPhoneId vendorId r) f]) r)
  | step_status (r : record) (j : nat) (newStatus : string) (p : phone) :
      r_phones r !! j = Some p -> ok p newStatus ->
      recordStep ok r (with_phones (alter (setStatus newStatus) j (r_phones r)) r)
  | step_create (r : record) (vendorId : string) (ids : list string) (b : vendorBill) :
      r_vendor_id r = Some vendorId ->
      ids <> [] ->
      vb_bill_id b = nextBillId vendorId (length (billsOf r)) ->
      vb_phone_ids b = ids ->
      recordStep ok r (with_phones (markBilled ids (vb_bill_id b) <$> r_phones r)
                                   (with_bills (billsOf r ++ [b]) r))
  | step_edit (r : record) (k : nat) (items : list lineItem)
      (subtotal tax grandTotal : number) (now : string) :
      recordStep ok r (with_bills (alter (replaceItems items subtotal tax grandTotal now) k
                                         (billsOf r)) r).

(** A record an intake handler appends. *)
Inductive intakeRecord (records : list record) : record -> Prop :=
  | intake_vendor (other : list (string * string)) :
      intakeRecord records
        {| r_record_type := Some "vendor"; r_service_id := None; r_laptop_id := None;
           r_vendor_id := Some (generateVendorID records); r_phones := [];
           r_bills := Some []; r_other := other |}
  | intake_service (other : list (string * string)) :
      intakeRecord records
        {| r_record_type := Some "service";
           r_service_id := Some (generateServiceID records);
           r_laptop_id := None; r_vendor_id := None; r_phones := []; r_bills := None;
           r_other := other |}
  | intake_laptop (other : list (string * string)) :
      intakeRecord records
        {| r_record_type := Some "laptop"; r_service_id := None;
           r_laptop_id := Some (generateLaptopID records); r_vendor_id := None;
           r_phones := []; r_bills := None; r_other := other |}.

(** One call seen from the store: nothing, one record changed in place, one
    record appended, or the sample data put into the empty store. *)
Inductive storeStep (ok : phone -> string -> Prop) : list record -> list record -> Prop :=
  | store_same (records : list record) : storeStep ok records records
  | store_change (records : list record) (i : nat) (r r' : record) :
      records !! i = Some r -> recordStep ok r r' ->
      storeStep ok records (<[i := r']> records)
  | store_append (records : list record) (r : record) :
      intakeRecord records r -> storeStep ok records (records ++ [r])
  | store_sample : storeStep ok [] sampleData.

(** What a call of [updatePhoneStatus] made as the action [a] in the state
    [st] is known to do: [p] is the phone it finds and [s] the status it
    sets. *)
Definition statusCall (a : action) (st : app) (p : phone) (s : string) : Prop :=
  exists phoneId i j,
    a = SetStatus phoneId s /\
    statusTarget phoneId (cachedRecords st) = Some (i, j) /\
    phoneAt i j (cachedRecords st) = Some p.

(** A change of status the status selector of the phone offers. *)
Definition offeredStatus (p : phone) (s : string) : Prop := s ∈ statusSelectOptions p.

(** A call the pages of the script can make: a status call is one whose
    value the selector of the phone offers. *)
Definition viewCan (c : command) (st : app) : bool :=
  match c with
  | Act a => viewAllows a st
  | _ => true
  end.

(** The state after a sequence of calls the pages can make; [None] when a
    call of the sequence is not one of them in the state it is made in. *)
Fixpoint viewRun (cs : list command) (st : app) : option app :=
  match cs with
  | [] => Some st
  | c :: rest => if viewCan c st then viewRun rest (execute c st) else None
  end.

(** *** Vendor ids *)

(** The id of the vendor created as number [k], counting from 0. *)
Definition vendorIdOf (k : nat) : string :=
  "VND" +:+ Js.padStart0 3 (Js.numToString (Some (Z.of_nat k + 1))).

(** The ids of the vendor records, in the order of the store. *)
Definition vendorIds (records : list record) : list (option string) :=
  r_vendor_id <$> List.filter is_vendor records.

(** The vendor records carry the ids VND001, VND002, ... in the order of
    the store, and no other record carries a vendor id. *)
Definition vendorsNumbered (records : list record) : Prop :=
  vendorIds records = (fun k => Some (vendorIdOf k)) <$> seq 0 (length (vendorIds records)) /\
  forallb (fun r => is_vendor r || bool_decide (r_vendor_id r = None)) records = true.

(** *** Laptop ids *)

(** The ids of the laptop records that have one. *)
Definition laptopIds (records : list record) : list string :=
  omap r_laptop_id (List.filter is_laptop records).

(** The ids of the laptop records are ASCII texts, and the numbers the
    generator reads from them are at most [bound]. *)
Definition laptopIdsBelow (bound : Z) (records : list record) : bool :=
  forallb (fun r =>
             negb (is_laptop r) ||
             (Text.isAscii (default "" (r_laptop_id r)) &&
              match laptopSuffix r with
              | Some n => n <=? bound
              | None => true
              end))
          records.

(** *** Service ids *)

(** A text of the form SRV001, SRV002, ... *)
Definition serviceIdOf (n : Z) : string :=
  "SRV" +:+ Js.padStart0 3 (Js.numToString (Some n)).

(** Every service id of the store is the text of a number from 1 to
    [bound]. *)
Definition serviceIdsBelow (bound : Z) (records : list record) : Prop :=
  Forall (fun r => match r_service_id r with
                   | Some id => exists n, 1 <= n <= bound /\ id = serviceIdOf n
                   | None => True
                   end) records.

(** *** Phones and bills along a sequence of calls *)

(** For every phone of the record that is not billed, [completed] says
    whether the status is Ready. *)
Definition readyMarked (r : record) : bool :=
  forallb (fun p => billed p || eqb (completed p) (bool_decide (status p = "Ready")))
          (r_phones r).

(** The bills of a record that has a vendor id carry the bill ids of that
    vendor in sequence, in the order of the list. *)
Definition billsInOrder (r : record) : Prop :=
  forall vendorId, r_vendor_id r = Some vendorId ->
    vb_bill_id <$> billsOf r = nextBillId vendorId <$> seq 0 (length (billsOf r)).

(** What identifies a bill: its id, the phones it covers and its date. *)
Definition billKey (b : vendorBill) : string * list string * string :=
  (vb_bill_id b, vb_phone_ids b, vb_date b).

(** [r'] is a later state of the record [r]: the same type and ids, the
    phones of [r] in their places followed by the ones added since, and the
    bills of [r] in their places, each covering the phones it covered,
    followed by the ones added since. *)
Definition keeps (r r' : record) : Prop :=
  r_record_type r' = r_record_type r /\ r_service_id r' = r_service_id r /\
  r_laptop_id r' = r_laptop_id r /\ r_vendor_id r' = r_vendor_id r /\
  (phone_id <$> r_phones r) `prefix_of` (phone_id <$> r_phones r') /\
  (billKey <$> billsOf r) `prefix_of` (billKey <$> billsOf r').

(** ** The search of the billing tab *)

(** The test of [records.find] in [searchAndLoadRecord]: ids are compared
    with the search text in upper case, contact numbers with the text as it
    is; a record without a type counts as a service record. *)
Definition searchMatches (searchValue : string) (r : record) : bool :=
  let wanted := Text.toUpperCase searchValue in
  if bool_decide (r_record_type r = Some "service") || negb (truthyStr (r_record_type r)) then
    bool_decide (r_service_id r = Some wanted) ||
    bool_decide (prop "mobile_number" r = Some searchValue)
  else if is_laptop r then
    bool_decide (r_laptop_id r = Some wanted) ||
    bool_decide (prop "contact_number" r = Some searchValue)
  else if is_vendor r then
    bool_decide (r_vendor_id r = Some wanted) ||
    bool_decide (prop "mobile_number" r = Some searchValue)
  else false.

(** What a search does to the display area of the billing tab: it puts
    there the vendor billing form (with its page), the billing form of a
    laptop or of a service record, or the note that nothing was found; or the
    drawing of the form ends in a [TypeError] and the area keeps what it
    held. *)
Inductive billingView :=
  | VendorBillingForm (vendor : record) (pg : Form.page)
  | LaptopBillingForm (laptop : record)
  | ServiceBillingForm (rec : record)
  | NotFoundNote
  | DrawingError.

(** The form that is opened for a record that was found.  The form of a
    service record calls [record.service_type.join] and reads
    [record.accessories.length], the form of a laptop record reads
    [laptop.accessories.length]; on a record without the field they raise. *)
Definition openBillingForm (found : record) (st : app) : billingView :=
  if is_vendor found then
    VendorBillingForm found (Form.displayVendorBillingForm found (selectedPhonesForBilling st))
  else if is_laptop found then
    match prop "accessories" found with
    | Some _ => LaptopBillingForm found
    | None => DrawingError
    end
  else
    match prop "service_type" found, prop "accessories" found with
    | Some _, Some _ => ServiceBillingForm found
    | _, _ => DrawingError
    end.

(** [searchAndLoadRecord()]; [typed] is the value of the search field.  The
    first component is what the call does to the display area, [None] when it
    returns without touching it. *)
Definition searchAndLoadRecord (typed : string) (st : app) : option billingView * app :=
  let searchValue := Text.trim typed in
  if decide (searchValue = "") then
    (None, alert "Please enter a Service ID, Laptop ID, Vendor ID, or Contact Number" st)
  else
    match Js.find (searchMatches searchValue) (loadRecords st) with
    | None => (Some NotFoundNote, alert "Record not found" st)
    | Some found => (Some (openBillingForm found st), st)
    end.

(** The id under which the search looks for a record of its family. *)
Definition searchId (r : record) : option string :=
  if bool_decide (r_record_type r = Some "service") || negb (truthyStr (r_record_type r)) then
    r_service_id r
  else if is_laptop r then r_laptop_id r
  else if is_vendor r then r_vendor_id r
  else None.

(** [createBillForCheckedPhones] with the timer it sets: the selection is
    stored, then the search field is given the vendor id and the search
    runs. *)
Definition checkedPhonesFlow (vendorId : string) (checked : list string) (st : app)
    : option billingView * app :=
  let st1 := createBillForCheckedPhones vendorId checked st in
  match Js.findIndex (has_vendor_id vendorId) (loadRecords st), checked with
  | Some _, _ :: _ => searchAndLoadRecord vendorId st1
  | _, _ => (None, st1)
  end.

(** ** The item rows of a billing form *)

Module Rows.

Definition withRows (rs : list Form.itemRow) (pg : Form.page) : Form.page :=
  Form.mkPage rs (Form.taxPercent pg) (Form.subtotalText pg) (Form.taxAmountText pg)
              (Form.grandTotalText pg) (Form.selectedPhoneIdsInput pg).

(** The row that [addItemRow] creates: empty texts, price 0, quantity 1,
    total 0. *)
Definition newRow : Form.itemRow := Form.mkRow "" "" Num.zero (Some 1) Num.zero.

(** [addItemRow()]: the row is appended and [attachItemEventListeners]
    refreshes the totals. *)
Definition addItemRow (pg : Form.page) : Form.page :=
  Form.updateBillTotals (withRows (Form.rows pg ++ [newRow]) pg).

(** [removeItemRow(btn)] for the button of the row at position [i]. *)
Definition removeItemRow (i : nat) (pg : Form.page) (st : app) : Form.page * app :=
  if (1 <? length (Form.rows pg))%nat then
    (Form.updateBillTotals (withRows (delete i (Form.rows pg)) pg), st)
  else (pg, alert "At least one item is required" st).

Definition setDesc (text : string) (r : Form.itemRow) : Form.itemRow :=
  Form.mkRow text (Form.row_breakout r) (Form.row_price r) (Form.row_qty r) (Form.row_total r).

Definition setBreakout (text : string) (r : Form.itemRow) : Form.itemRow :=
  Form.mkRow (Form.row_desc r) text (Form.row_price r) (Form.row_qty r) (Form.row_total r).

Definition setPrice (price : number) (r : Form.itemRow) : Form.itemRow :=
  Form.mkRow (Form.row_desc r) (Form.row_breakout r) price (Form.row_qty r) (Form.row_total r).

Definition setQty (qty : option Z) (r : Form.itemRow) : Form.itemRow :=
  Form.mkRow (Form.row_desc r) (Form.row_breakout r) (Form.row_price r) qty (Form.row_total r).

(** What the user can do on the form.  Typing into a description or a
    breakout field runs no handler; typing into a price or a quantity field
    runs [updateItemTotal] on that row; typing into the tax field runs
    [updateBillTotals].  The values are the ones [parseFloat] and [parseInt]
    read from the field afterwards. *)
Inductive edit :=
  | TypeDesc (i : nat) (text : string)
  | TypeBreakout (i : nat) (text : string)
  | TypePrice (i : nat) (price : number)
  | TypeQty (i : nat) (qty : option Z)
  | TypeTax (taxPercent : number)
  | AddRow
  | RemoveRow (i : nat).

Definition apply (e : edit) (ps : Form.page * app) : Form.page * app :=
  let '(pg, st) := ps in
  match e with
  | TypeDesc i text => (withRows (alter (setDesc text) i (Form.rows pg)) pg, st)
  | TypeBreakout i text => (withRows (alter (setBreakout text) i (Form.rows pg)) pg, st)
  | TypePrice i price =>
      (Form.updateItemTotal i (withRows (alter (setPrice price) i (Form.rows pg)) pg), st)
  | TypeQty i qty =>
      (Form.updateItemTotal i (withRows (alter (setQty qty) i (Form.rows pg)) pg), st)
  | TypeTax taxPercent =>
      (Form.updateBillTotals
         (Form.mkPage (Form.rows pg) taxPercent (Form.subtotalText pg) (Form.taxAmountText pg)
                      (Form.grandTotalText pg) (Form.selectedPhoneIdsInput pg)), st)
  | AddRow => (addItemRow pg, st)
  | RemoveRow i => removeItemRow i pg st
  end.

Definition applyAll (es : list edit) (ps : Form.page * app) : Form.page * app :=
  fold_left (fun s e => apply e s) es ps.

(** The three totals shown are the ones [updateBillTotals] computes from
    the rows and the tax field as they are. *)
Definition inSync (pg : Form.page) : Prop := Form.updateBillTotals pg = pg.

End Rows.

(** ** Filling the date fields *)

Module Dates.

(** An [input] of type [date] of the page, by what [fillAllDateFields]
    reads of it: its id (empty when it has none), its value, whether it has
    the attribute [data-no-autofill], and its classes. *)
Record input := mkInput {
  in_id : string;
  in_value : string;
  in_noAutofill : bool;
  in_classes : list string
}.

Definition setValue (v : string) (x : input) : input :=
  mkInput (in_id x) v (in_noAutofill x) (in_classes x).

(** The test that makes [fillAllDateFields] skip the input at position
    [index]. *)
Definition isFilterField (index : nat) (x : input) : bool :=
  let inputId :=
    if decide (in_id x = "") then "field-" +:+ Js.numToString (Some (Z.of_nat index))
    else in_id x in
  bool_decide (inputId = "filterFromDate") || bool_decide (inputId = "filterToDate") ||
  Text.includes inputId "filter" || in_noAutofill x ||
  Js.includes (in_classes x) "no-autofill" || Js.includes (in_classes x) "filter-date".

(** [fillAllDateFields()], with [today] the result of [getTodaysDate()]. *)
Definition fillAllDateFields (today : string) (inputs : list input) : list input :=
  imap (fun index x =>
          if isFilterField index x then x
          else if decide (in_value x = "") then setValue today x else x)
       inputs.

(** [getTodaysDate()]; [d] is the calendar date of the local clock
    ([getFullYear()], [getMonth() + 1], [getDate()]). *)
Definition getTodaysDate (d : Warranty.date) : string :=
  Js.numToString (Some (Warranty.year d)) +:+ "-" +:+ Warranty.pad 2 (Warranty.month d)
  +:+ "-" +:+ Warranty.pad 2 (Warranty.day d).

End Dates.

(** Calendar order of two dates. *)
Definition dateLt (a b : Warranty.date) : Prop :=
  Warranty.year a < Warranty.year b \/
  (Warranty.year a = Warranty.year b /\
   (Warranty.month a < Warranty.month b \/
    (Warranty.month a = Warranty.month b /\ Warranty.day a < Warranty.day b))).

(** ** The short phone number of the views *)


(** ** The list of all records *)

Section Listing.

(** [toTime text] is [new Date(text).getTime()]: the time value of the
    date a text denotes, [None] for [NaN]; the argument [None] is
    [undefined]. *)
Variable toTime : option string -> option Z.

(** The test of the date filter: [recordDate >= fromDate && recordDate <=
    toDate] on [Date] objects; a comparison with an invalid date is false. *)
Definition inRange (range : string * string) (r : record) : bool :=
  match toTime (prop "date" r), toTime (Some range.1), toTime (Some range.2) with
  | Some t, Some a, Some b => (a <=? t) && (t <=? b)
  | _, _, _ => false
  end.

(** The test of the record-type filter. *)
Definition byType (recordFilter : string) (r : record) : bool :=
  if decide (recordFilter = "individual") then
    bool_decide (r_record_type r = Some "service") || negb (truthyStr (r_record_type r))
  else if decide (recordFilter = "laptop") then is_laptop r
  else if decide (recordFilter = "vendor") then is_vendor r
  else true.

(** [field.toLowerCase().includes(filter.toLowerCase())] and
    [field.includes(filter)]; [None] is the [TypeError] raised when the field
    is [undefined]. *)
Definition lowerIncludes (field : option string) (filter : string) : option bool :=
  (fun s => Text.includes (Text.toLowerCase s) (Text.toLowerCase filter)) <$> field.

Definition plainIncludes (field : option string) (filter : string) : option bool :=
  (fun s => Text.includes s filter) <$> field.

(** The test of the search filter, by the family of the record. *)
Definition searchHit (filter : string) (rec : record) : option bool :=
  if is_vendor rec then
    a ← lowerIncludes (r_vendor_id rec) filter;
    b ← lowerIncludes (prop "vendor_name" rec) filter;
    c ← plainIncludes (prop "mobile_number" rec) filter;
    Some (a || b || c)
  else if is_laptop rec then
    a ← lowerIncludes (r_laptop_id rec) filter;
    b ← plainIncludes (prop "contact_number" rec) filter;
    c ← lowerIncludes (prop "laptop_brand" rec) filter;
    Some (a || b || c)
  else
    a ← lowerIncludes (r_service_id rec) filter;
    b ← lowerIncludes (prop "customer_name" rec) filter;
    c ← plainIncludes (prop "mobile_number" rec) filter;
    Some (a || b || c).

(** What the drawing of a list item does with the record besides
    printing its fields: it takes [rec.issue.length] of a laptop record and
    of a service record, and calls [rec.service_type.join] on a service
    record; a vendor record has its [phones].  [None] is the [TypeError]
    raised when the field is [undefined]. *)
Definition drawItem (rec : record) : option unit :=
  if is_laptop rec then
    _ ← prop "issue" rec; Some ()
  else if is_vendor rec then Some ()
  else
    _ ← prop "issue" rec;
    _ ← prop "service_type" rec;
    Some ().

(** [l.filter(f)] for a test that can raise. *)
Fixpoint filterRaising {A} (f : A -> option bool) (l : list A) : option (list A) :=
  match l with
  | [] => Some []
  | x :: rest =>
      keep ← f x;
      kept ← filterRaising f rest;
      Some (if keep : bool then x :: kept else kept)
  end.

(** [renderAllRecords(filter, recordFilter)]: the records whose items it
    puts into the list, from the top of the list down.  [None]: the call ends
    in a [TypeError], raised by the search test (the list is then as it was)
    or by the drawing of an item (the list then holds the items drawn before
    it).  [currentDateFilter] is the global of that name.  The summary line
    written by [updateSummaryWithFiltered] is not part of this value. *)
Definition renderAllRecords (filter recordFilter : string)
    (currentDateFilter : option (string * string)) (st : app) : option (list record) :=
  let records := loadRecords st in
  let dateFiltered :=
    match currentDateFilter with
    | Some range => List.filter (inRange range) records
    | None => records
    end in
  let filteredByType := List.filter (byType recordFilter) dateFiltered in
  filtered ← filterRaising (searchHit filter) filteredByType;
  _ ← mapM drawItem (reverse filtered);
  Some (reverse filtered).

(** [filterByDateRange()] up to the call of [renderAllRecords]: the new
    value of [currentDateFilter] and the state. *)
Definition filterByDateRange (fromDate toDate : string)
    (currentDateFilter : option (string * string)) (st : app)
    : option (string * string) * app :=
  if decide (fromDate = "" \/ toDate = "") then
    (currentDateFilter, alert "Please select both From and To dates" st)
  else
    let late :=
      match toTime (Some fromDate), toTime (Some toDate) with
      | Some a, Some b => b <? a
      | _, _ => false
      end in
    if late then (currentDateFilter, alert "From date cannot be after To date" st)
    else (Some (fromDate, toDate), st).

End Listing.

(** The time value of a text in date-field form, in days; any other text
    counts as no date here. *)
Definition dayNumber (text : option string) : option Z :=
  d ← text ≫= Warranty.parse;
  Some (Warranty.makeDay (Warranty.year d) (Warranty.month d - 1) (Warranty.day d)).

(** ** Loading the rows of a stored bill *)

(** The end of the timer of the edit functions: the rows of the form are
    replaced by rows built from the stored items ([rs] are those rows as the
    script reads them afterwards) and the totals are refreshed. *)
Definition loadRows (rs : list Form.itemRow) (pg : Form.page) : Form.page :=
  Form.updateBillTotals (Rows.withRows rs pg).

Definition isTypeTax (e : Rows.edit) : bool :=
  match e with Rows.TypeTax _ => true | _ => false end.

(** A number that is neither [NaN] nor infinite. *)
Definition isFinite (x : number) : bool :=
  match x with
  | S754_finite _ _ _ | S754_zero _ => true
  | _ => false
  end.

(** *** The bill a billed phone points to *)

(** Every billed phone of the record carries the id of a bill of the record
    that lists the phone. *)
Definition billPointersOk (r : record) : Prop :=
  forall p, p ∈ r_phones r -> billed p = true ->
    exists b, b ∈ billsOf r /\ bill_id p = Some (vb_bill_id b) /\
              phone_id p ∈ vb_phone_ids b.

(** *** The counters of the vendor views *)

(** The number of phones of the record with the status [s], as
    [renderRecentVendors] and [openVendorDetailsModal] count them. *)
Definition countStatus (s : string) (r : record) : nat :=
  length (List.filter (fun p => bool_decide (status p = s)) (r_phones r)).

(** Every phone of the record has one of the four statuses of the views, and
    it has the status Billed exactly when it is billed. *)
Definition statusesShown (r : record) : bool :=
  forallb (fun p =>
             bool_decide (status p ∈ ["Received"; "In Repair"; "Ready"; "Billed"]) &&
             eqb (bool_decide (status p = "Billed")) (billed p))
          (r_phones r).
(** * Properties *)

(** ** Searching arrays *)

Section Search.
Context {A : Type} (f : A -> bool).

Lemma findIndex_Some (l : list A) (i : nat) :
  Js.findIndex f l = Some i ->
  exists x, l !! i = Some x /\ f x = true /\
            forall j y, (j < i)%nat -> l !! j = Some y -> f y = false.
Proof.
  revert i. induction l as [|a l IH]; intros i H; simpl in H; [discriminate|].
  destruct (f a) eqn:Fa.
  - injection H as <-. exists a. repeat split; auto. intros j y Hj. lia.
  - destruct (Js.findIndex f l) as [k|] eqn:Fk; [|discriminate].
    simpl in H. injection H as <-.
    destruct (IH k eq_refl) as (x & Hx & Fx & Hlt).
    exists x. repeat split; auto.
    intros [|j] y Hj Hy; simpl in Hy.
    + congruence.
    + apply (Hlt j); [lia | assumption].
Qed.

Lemma findIndex_None (l : list A) :
  Js.findIndex f l = None -> forall x, x ∈ l -> f x = false.
Proof.
  induction l as [|a l IH]; intros H x Hx; [inversion Hx|].
  simpl in H. destruct (f a) eqn:Fa; [discriminate|].
  destruct (Js.findIndex f l) eqn:Fk; [discriminate|].
  apply elem_of_cons in Hx as [->|Hx]; auto.
Qed.

Lemma findIndex_lt (l : list A) (i : nat) :
  Js.findIndex f l = Some i -> (i < length l)%nat.
Proof.
  intros H. destruct (findIndex_Some l i H) as (x & Hx & _).
  eapply lookup_lt_Some; eauto.
Qed.

Lemma find_findIndex (l : list A) :
  Js.find f l = (Js.findIndex f l ≫= fun i => l !! i).
Proof.
  induction l as [|a l IH]; simpl; [reflexivity|].
  destruct (f a); [reflexivity|].
  rewrite IH. destruct (Js.findIndex f l); reflexivity.
Qed.
End Search.


(** ** Decimal numerals *)

Lemma decimalb_uint (d : Decimal.uint) : decimalb (NilEmpty.string_of_uint d) = true.
Proof. induction d; simpl; auto. Qed.

Lemma decimalb_zeros (k : nat) : decimalb (Js.repeat_char "0" k) = true.
Proof. induction k; simpl; auto. Qed.

Lemma decimalb_app (a b : string) : decimalb (a +:+ b) = (decimalb a && decimalb b)%bool.
Proof. induction a as [|c a IH]; simpl; [reflexivity|]. rewrite IH. apply andb_assoc. Qed.

Lemma parseInt_decimal (s : string) :
  decimalb s = true -> s <> "" -> Js.parseInt s = Js.read_digits 10 None s.
Proof.
  destruct s as [|c1 rest]; [congruence|]. intros H _. simpl in H.
  apply andb_prop in H as [H1 H2].
  destruct c1 as [[] [] [] [] [] [] [] []]; try discriminate H1; clear H1;
    try (unfold Js.parseInt; simpl; destruct (Js.read_digits _ _ rest); reflexivity).
  destruct rest as [|c2 rest]; [reflexivity|]. simpl in H2.
  apply andb_prop in H2 as [H1 H2].
  destruct c2 as [[] [] [] [] [] [] [] []]; try discriminate H1; clear H1;
    unfold Js.parseInt; simpl; destruct (Js.read_digits _ _ rest); reflexivity.
Qed.

Lemma read_digits_uint (d : Decimal.uint) (acc : Z) :
  Js.read_digits 10 (Some acc) (NilEmpty.string_of_uint d) = Some (uintValue d acc).
Proof.
  revert acc. induction d; intros acc; simpl; try reflexivity;
    unfold Js.digit_value; simpl; rewrite IHd;
    match goal with
    | |- context [Z.of_nat (nat_of_ascii ?c)] =>
        let v := eval vm_compute in (Z.of_nat (nat_of_ascii c)) in
        change (Z.of_nat (nat_of_ascii c)) with v
    end; f_equal; f_equal; lia.
Qed.

Lemma read_digits_uint_first (d : Decimal.uint) :
  d <> Decimal.Nil ->
  Js.read_digits 10 None (NilEmpty.string_of_uint d) = Some (uintValue d 0).
Proof.
  destruct d; intros H; [congruence| ..]; simpl;
    unfold Js.digit_value; simpl; rewrite read_digits_uint; reflexivity.
Qed.

Lemma read_digits_zeros (k : nat) (s : string) :
  Js.read_digits 10 (Some 0) (Js.repeat_char "0" k +:+ s) = Js.read_digits 10 (Some 0) s.
Proof. induction k; simpl; [reflexivity|]. unfold Js.digit_value. simpl. exact IHk. Qed.

Lemma uintValue_acc (d : Decimal.uint) (acc : positive) :
  Z.pos (Pos.of_uint_acc d acc) = uintValue d (Z.pos acc).
Proof.
  revert acc. induction d; intros acc; simpl; try reflexivity; rewrite IHd; f_equal; lia.
Qed.

Lemma uintValue_of_uint (d : Decimal.uint) : Z.of_N (Pos.of_uint d) = uintValue d 0.
Proof.
  induction d; simpl; try reflexivity; try exact IHd; rewrite uintValue_acc; reflexivity.
Qed.

Lemma uintValue_to_uint (p : positive) : uintValue (Pos.to_uint p) 0 = Z.pos p.
Proof. rewrite <- uintValue_of_uint, Unsigned.of_to. reflexivity. Qed.

Lemma numToString_pos (p : positive) :
  Js.numToString (Some (Z.pos p)) = NilEmpty.string_of_uint (Pos.to_uint p).
Proof.
  unfold Js.numToString. simpl. unfold NilZero.string_of_uint.
  pose proof (Unsigned.to_uint_nonnil p). destruct (Pos.to_uint p); congruence.
Qed.

Lemma read_digits_leading_zero (s : string) :
  Js.read_digits 10 None (String "0" s) = Js.read_digits 10 (Some 0) s.
Proof. reflexivity. Qed.

Lemma read_digits_padded (k : nat) (d : Decimal.uint) :
  d <> Decimal.Nil ->
  Js.read_digits 10 None (Js.repeat_char "0" k +:+ NilEmpty.string_of_uint d)
  = Some (uintValue d 0).
Proof.
  intros Hd. destruct k as [|k].
  - apply read_digits_uint_first. exact Hd.
  - change (Js.repeat_char "0" (S k) +:+ NilEmpty.string_of_uint d)
      with (String "0" (Js.repeat_char "0" k +:+ NilEmpty.string_of_uint d)).
    rewrite read_digits_leading_zero, read_digits_zeros. apply read_digits_uint.
Qed.

(** Reading back a padded non-negative number gives the number. *)
Lemma parseInt_padStart0 (width : nat) (n : Z) :
  0 <= n -> Js.parseInt (Js.padStart0 width (Js.numToString (Some n))) = Some n.
Proof.
  intros Hn. unfold Js.padStart0.
  set (k := (width - _)%nat). clearbody k.
  assert (Hs : exists d, d <> Decimal.Nil /\ uintValue d 0 = n /\
                         Js.numToString (Some n) = NilEmpty.string_of_uint d).
  { destruct n as [|p|p]; [| |lia].
    - exists (Decimal.D0 Decimal.Nil). repeat split. discriminate.
    - exists (Pos.to_uint p). split; [apply Unsigned.to_uint_nonnil|].
      split; [apply uintValue_to_uint | apply numToString_pos]. }
  destruct Hs as (d & Hd & Hv & ->).
  rewrite parseInt_decimal.
  - rewrite read_digits_padded by exact Hd. rewrite Hv. reflexivity.
  - rewrite decimalb_app, decimalb_zeros, decimalb_uint. reflexivity.
  - destruct k; [|discriminate]. destruct d; try discriminate. congruence.
Qed.

Lemma padStart0_injective (width : nat) (a b : Z) :
  0 <= a -> 0 <= b ->
  Js.padStart0 width (Js.numToString (Some a)) = Js.padStart0 width (Js.numToString (Some b)) ->
  a = b.
Proof.
  intros Ha Hb H. apply (f_equal Js.parseInt) in H.
  rewrite !parseInt_padStart0 in H by assumption. congruence.
Qed.

Lemma length_append (a b : string) :
  String.length (a +:+ b) = (String.length a + String.length b)%nat.
Proof. induction a as [|c a IH]; simpl; [reflexivity|]. rewrite IH. reflexivity. Qed.

Lemma length_repeat_char (c : ascii) (k : nat) : String.length (Js.repeat_char c k) = k.
Proof. induction k; simpl; auto. Qed.

Lemma padStart0_length (width : nat) (s : string) :
  String.length (Js.padStart0 width s) = Nat.max width (String.length s).
Proof. unfold Js.padStart0. rewrite length_append, length_repeat_char. lia. Qed.

Lemma padStart0_three_digits (n : Z) :
  0 <= n < 1000 -> String.length (Js.padStart0 3 (Js.numToString (Some n))) = 3%nat.
Proof.
  intros Hn.
  assert (H : forallb (fun k => Nat.eqb (String.length
                         (Js.padStart0 3 (Js.numToString (Some (Z.of_nat k))))) 3)
                      (seq 0 1000) = true) by (vm_compute; reflexivity).
  rewrite forallb_forall in H. specialize (H (Z.to_nat n)).
  rewrite Z2Nat.id in H by lia. apply Nat.eqb_eq, H, in_seq. lia.
Qed.

(** A number of an identifier, as printed: decimal digits, at least three
    (exactly three below 1000), that read back as the number. *)
Lemma padded_number (n : Z) :
  0 <= n ->
  let digits := Js.padStart0 3 (Js.numToString (Some n)) in
  decimalb digits = true /\
  (3 <= String.length digits)%nat /\
  (n < 1000 -> String.length digits = 3%nat) /\
  Js.parseInt digits = Some n.
Proof.
  intros Hn digits. split; [|split; [|split]].
  - unfold digits, Js.padStart0. rewrite decimalb_app, decimalb_zeros.
    apply andb_true_intro. split; [reflexivity|].
    destruct n as [|p|p]; [reflexivity| |lia].
    rewrite numToString_pos. apply decimalb_uint.
  - unfold digits. rewrite padStart0_length. lia.
  - intros Hlt. apply padStart0_three_digits. lia.
  - apply parseInt_padStart0. exact Hn.
Qed.

Lemma append_inj_l (a x y : string) : a +:+ x = a +:+ y -> x = y.
Proof. induction a as [|c a IH]; simpl; intros H; [exact H|]. injection H as H. auto. Qed.

Lemma nextBillId_digits (vendorId : string) (n : nat) :
  exists digits,
    nextBillId vendorId n = vendorId +:+ "-B" +:+ digits /\
    decimalb digits = true /\ (3 <= String.length digits)%nat /\
    Js.parseInt digits = Some (Z.of_nat n + 1).
Proof.
  destruct (padded_number (Z.of_nat n + 1) ltac:(lia)) as (Hdec & Hlen & _ & Hparse).
  eexists. split; [reflexivity|]. auto.
Qed.

Lemma nextBillId_inj (vendorId : string) (a b : nat) :
  nextBillId vendorId a = nextBillId vendorId b -> a = b.
Proof.
  unfold nextBillId. intros H. apply append_inj_l in H.
  change ("-B" +:+ ?s) with (String "-" (String "B" s)) in H.
  injection H as H. apply padStart0_injective in H; lia.
Qed.

(** ** Identifier generation *)

(** C4 at the failing input: with the two sample records in the store (a
    service SRV001 followed by a vendor), the next service id is SRV001
    again, not SRV002, and the first service intake after the first start
    stores a second record with that id; with records out of order the
    service and vendor generators continue from the last record, not from the
    highest number. *)
Theorem generateServiceID_repeats_id :
  cachedRecords Scenario.firstStart = sampleData /\
  generateServiceID sampleData = "SRV001" /\
  r_service_id <$> cachedRecords Scenario.firstIntake = [Some "SRV001"; None; Some "SRV001"] /\
  generateServiceID [Sample.serviceOf "SRV005"; Sample.serviceOf "SRV002"] = "SRV003" /\
  generateVendorID [Sample.vendorOf "VND005" [] []; Sample.vendorOf "VND002" [] []] = "VND003".
Proof. repeat split; reflexivity. Qed.

(** On an empty store each generator starts at 001. *)
Example generators_start_at_001 :
  generateServiceID [] = "SRV001" /\ generateVendorID [] = "VND001" /\
  generateLaptopID [] = "LAP001".
Proof. repeat split; reflexivity. Qed.

(** The laptop generator does take the maximum: the number it continues
    from bounds every suffix that parses, and is one of them or 0. *)
Lemma laptop_max_fold (l : list record) (m0 : Z) :
  let m := fold_left laptopMaxStep l m0 in
  m0 <= m /\
  (forall r n, r ∈ l -> laptopSuffix r = Some n -> n <= m) /\
  (m = m0 \/ exists r, r ∈ l /\ laptopSuffix r = Some m).
Proof.
  revert m0. induction l as [|a l IH]; intros m0; simpl.
  - split; [lia|]. split; [intros r n Hr; inversion Hr | left; reflexivity].
  - specialize (IH (laptopMaxStep m0 a)). simpl in IH. destruct IH as (Hle & Hub & Hex).
    assert (Hstep : m0 <= laptopMaxStep m0 a /\
                    (forall n, laptopSuffix a = Some n -> n <= laptopMaxStep m0 a) /\
                    (laptopMaxStep m0 a = m0 \/ laptopSuffix a = Some (laptopMaxStep m0 a))).
    { unfold laptopMaxStep. destruct (laptopSuffix a) as [k|].
      - destruct (m0 <? k) eqn:Hlt; [apply Z.ltb_lt in Hlt | apply Z.ltb_ge in Hlt].
        + split; [lia|]. split; [intros n [= <-]; lia | right; reflexivity].
        + split; [lia|]. split; [intros n [= <-]; lia | left; reflexivity].
      - split; [lia|]. split; [discriminate | left; reflexivity]. }
    destruct Hstep as (H1 & H2 & H3).
    split; [lia|]. split.
    + intros r n Hr Hn. apply elem_of_cons in Hr as [->|Hr].
      * specialize (H2 n Hn). lia.
      * eapply Hub; eauto.
    + destruct Hex as [Heq|(r & Hr & Hs)].
      * destruct H3 as [H3|H3].
        -- left. lia.
        -- right. exists a. split; [left|]. rewrite Heq. exact H3.
      * right. exists r. split; [right; exact Hr | exact Hs].
Qed.

Lemma generateLaptopID_max (records : list record) :
  let laptops := List.filter is_laptop records in
  exists m,
    generateLaptopID records = "LAP" +:+ Js.padStart0 3 (Js.numToString (Some (m + 1))) /\
    0 <= m /\
    (forall r n, r ∈ laptops -> laptopSuffix r = Some n -> n <= m) /\
    (m = 0 \/ exists r, r ∈ laptops /\ laptopSuffix r = Some m).
Proof.
  intros laptops.
  destruct (laptop_max_fold laptops 0) as (H0 & Hub & Hex).
  exists (fold_left laptopMaxStep laptops 0).
  split; [|auto].
  unfold generateLaptopID. fold laptops. destruct laptops; reflexivity.
Qed.

Example generateLaptopID_out_of_order :
  generateLaptopID [Sample.laptopOf "LAP005"; Sample.serviceOf "SRV001"; Sample.laptopOf "LAP002"]
  = "LAP006".
Proof. reflexivity. Qed.

(** ** Adding a phone *)

(** C10. A phone created by the add-phone handler starts as Received, not
    completed, not billed and without a bill id; its other fields are the
    values of the form.  Its id is the vendor id, then "-P", then the vendor's
    phone count plus one left-padded with zeros to three digits: decimal
    digits, at least three, that read back as that number.  The record stored
    at the position of the vendor found by the id has the phones of that
    vendor followed by the new phone, and its type, id, bills and other fields;
    the other records are the ones of the store. *)
Theorem addPhone_initial_state (vendorId : string) (f : AddPhone.form) (st : app) (i : nat) :
  Js.findIndex (has_vendor_id vendorId) (cachedRecords st) = Some i ->
  let st' := AddPhone.submit vendorId f st in
  exists vendor stored p,
    cachedRecords st !! i = Some vendor /\
    r_vendor_id vendor = Some vendorId /\
    cachedRecords st' !! i = Some stored /\
    r_phones stored = r_phones vendor ++ [p] /\
    r_record_type stored = r_record_type vendor /\
    r_vendor_id stored = Some vendorId /\
    r_bills stored = r_bills vendor /\
    r_other stored = r_other vendor /\
    stored = with_phones (r_phones vendor ++ [p]) vendor /\
    (forall k, k <> i -> cachedRecords st' !! k = cachedRecords st !! k) /\
    length (cachedRecords st') = length (cachedRecords st) /\
    status p = "Received" /\ completed p = false /\
    billed p = false /\ bill_id p = None /\
    date_received p = AddPhone.phoneDate f /\ brand p = AddPhone.phoneBrand f /\
    model p = AddPhone.phoneModel f /\ issue p = AddPhone.phoneIssue f /\
    received_by p = AddPhone.phoneReceivedBy f /\
    (exists digits,
       phone_id p = vendorId +:+ "-P" +:+ digits /\
       digits = Js.padStart0 3 (Js.numToString (Some (Z.of_nat (length (r_phones vendor)) + 1))) /\
       decimalb digits = true /\ (3 <= String.length digits)%nat /\
       Js.parseInt digits = Some (Z.of_nat (length (r_phones vendor)) + 1)).
Proof.
  intros Hi st'.
  destruct (findIndex_Some _ _ _ Hi) as (vendor & Hv & Hid & _).
  unfold has_vendor_id in Hid. apply bool_decide_eq_true in Hid.
  assert (Hlt : (i < length (cachedRecords st))%nat) by (eapply lookup_lt_Some; eauto).
  set (p := AddPhone.newPhone
              (generatePhoneID vendorId (Z.of_nat (length (r_phones vendor)) + 1)) f).
  assert (Hst : cachedRecords st'
                = <[i := with_phones (r_phones vendor ++ [p]) vendor]> (cachedRecords st)).
  { unfold st', AddPhone.submit, loadRecords. rewrite Hi, Hv. reflexivity. }
  exists vendor, (with_phones (r_phones vendor ++ [p]) vendor), p.
  split; [exact Hv|]. split; [exact Hid|].
  split; [rewrite Hst; apply list_lookup_insert_eq; exact Hlt|].
  split; [reflexivity|]. split; [reflexivity|]. split; [exact Hid|].
  split; [reflexivity|]. split; [reflexivity|]. split; [reflexivity|].
  split; [intros k Hk; rewrite Hst; apply list_lookup_insert_ne; congruence|].
  split; [rewrite Hst; apply length_insert|].
  do 9 (split; [reflexivity|]).
  destruct (padded_number (Z.of_nat (length (r_phones vendor)) + 1) ltac:(lia))
    as (Hdec & Hlen & _ & Hparse).
  eexists. split; [reflexivity|]. split; [reflexivity|]. auto.
Qed.

Lemma addPhone_initial_state_witness :
  let st := Sample.appOf [Sample.serviceOf "SRV001"; Sample.threePhones] in
  exists stored p,
    cachedRecords (AddPhone.submit "VND001" Sample.phoneForm st) !! 1%nat = Some stored /\
    r_phones stored = r_phones Sample.threePhones ++ [p] /\
    status p = "Received" /\ completed p = false /\ billed p = false /\ bill_id p = None /\
    phone_id p = "VND001-P004".
Proof.
  intros st.
  destruct (addPhone_initial_state "VND001" Sample.phoneForm st 1 eq_refl)
    as (vendor & stored & p & Hv & _ & Hs & Hp & _ & _ & _ & _ & _ & _ & _
        & H1 & H2 & H3 & H4 & _ & _ & _ & _ & _ & digits & Hid & Hd & _).
  injection Hv as <-.
  exists stored, p. repeat split; try assumption.
  rewrite Hid, Hd. reflexivity.
Defined.

Example addPhone_fourth_phone :
  (fun st => (phone_id <$> (cachedRecords st !! 1%nat ≫= fun v => last (r_phones v)),
              savesSince (Sample.appOf [Sample.serviceOf "SRV001"; Sample.threePhones]) st))
    (AddPhone.submit "VND001" Sample.phoneForm
       (Sample.appOf [Sample.serviceOf "SRV001"; Sample.threePhones]))
  = (Some "VND001-P004",
     [SaveRecords [Sample.serviceOf "SRV001";
                   with_phones (r_phones Sample.threePhones ++
                                [AddPhone.newPhone "VND001-P004" Sample.phoneForm])
                               Sample.threePhones]]).
Proof. reflexivity. Qed.

(** ** Saving a vendor bill: the shape of the result *)

Section SaveVendorBill.
Variables (now : string) (pg : Form.page) (vendorId : string) (isPartial : bool).
Variables (st : app) (i : nat) (vendor : record).
Hypothesis Hindex : Js.findIndex (has_vendor_id vendorId) (cachedRecords st) = Some i.
Hypothesis Hvendor : cachedRecords st !! i = Some vendor.

Let bills := default [] (r_bills vendor).
Let items := collectItem <$> Form.rows pg.

Lemma saveVendorBill_empty :
  selectedIdsOf pg vendor = [] ->
  saveVendorBill now pg vendorId isPartial st = alert "No phones selected for billing" st.
Proof.
  intros He. unfold saveVendorBill, loadRecords. rewrite Hindex, Hvendor, He. reflexivity.
Qed.

Lemma saveVendorBill_create :
  selectedIdsOf pg vendor <> [] ->
  editTarget st bills = None ->
  saveVendorBill now pg vendorId isPartial st
  = createBill now vendorId i vendor bills (selectedIdsOf pg vendor) items
               (Form.subtotalText pg) (Form.taxAmountText pg) (Form.grandTotalText pg)
               (cachedRecords st) st.
Proof.
  intros Hne Ht. unfold saveVendorBill, loadRecords. rewrite Hindex, Hvendor.
  destruct (selectedIdsOf pg vendor) as [|id ids] eqn:Hs; [congruence|].
  unfold editTarget in Ht. fold bills.
  destruct (editingBillId st) as [billId|]; [|reflexivity].
  simpl in Ht. rewrite Ht. reflexivity.
Qed.

Lemma saveVendorBill_edit (billId : string) (k : nat) :
  selectedIdsOf pg vendor <> [] ->
  editingBillId st = Some billId ->
  Js.findIndex (has_bill_id billId) bills = Some k ->
  saveVendorBill now pg vendorId isPartial st
  = alert ("✓ Bill " +:+ billId +:+ " updated successfully!")
      (setSelection None
         (saveRecords
            (<[i := with_bills
                      (alter (replaceItems items (Form.subtotalText pg) (Form.taxAmountText pg)
                                           (Form.grandTotalText pg) now) k bills)
                      vendor]> (cachedRecords st)) st)).
Proof.
  intros Hne He Hk. unfold saveVendorBill, loadRecords. rewrite Hindex, Hvendor.
  destruct (selectedIdsOf pg vendor) as [|id ids] eqn:Hs; [congruence|].
  rewrite He. fold bills. rewrite Hk. reflexivity.
Qed.
End SaveVendorBill.

Lemma saveVendorBill_no_vendor now pg vendorId isPartial st :
  Js.findIndex (has_vendor_id vendorId) (cachedRecords st) = None ->
  saveVendorBill now pg vendorId isPartial st = alert "Vendor record not found" st.
Proof. intros H. unfold saveVendorBill, loadRecords. rewrite H. reflexivity. Qed.

Lemma savesSince_log (st st' : app) (e : event) :
  savesSince st (log e st') = savesSince st st' ++ (if isSave e then [e] else [])
  \/ (length (events st') < length (events st))%nat.
Proof.
  destruct (decide (length (events st) <= length (events st'))%nat) as [Hle|Hgt]; [left|right; lia].
  unfold savesSince, log. simpl. rewrite drop_app_le by assumption.
  rewrite List.filter_app. simpl. destruct (isSave e); reflexivity.
Qed.

Lemma savesSince_same (st : app) : savesSince st st = [].
Proof. unfold savesSince. rewrite drop_all. reflexivity. Qed.

Lemma markBilled_id ids billId p : phone_id (markBilled ids billId p) = phone_id p.
Proof. unfold markBilled. destruct (Js.includes ids (phone_id p)); reflexivity. Qed.

Lemma includes_true (l : list string) (x : string) : Js.includes l x = true <-> x ∈ l.
Proof. unfold Js.includes. apply bool_decide_eq_true. Qed.

Lemma includes_false (l : list string) (x : string) : Js.includes l x = false <-> x ∉ l.
Proof. unfold Js.includes. apply bool_decide_eq_false. Qed.

(** ** Creating a vendor bill *)

(** C3. A creation for a vendor with a non-empty selection takes the next
    bill id of that vendor: the vendor id, then "-B", then the number of the
    vendor's bills plus one left-padded with zeros to three digits (decimal
    digits, at least three, that read back as that number).  No position
    before the new one gives that id, so the id is new among the vendor's
    bills when these carry the ids of their positions.  The creation appends
    one bill whose phone ids are the selection, marks every phone of the
    vendor whose id is selected as Billed, billed and belonging to the new
    bill, leaves the other phones and the other records as they were, and
    calls [saveRecords] once, with the resulting array. *)
Theorem saveVendorBill_creation (now : string) (pg : Form.page) (vendorId : string)
    (isPartial : bool) (st : app) (i : nat) (vendor : record) :
  Js.findIndex (has_vendor_id vendorId) (cachedRecords st) = Some i ->
  cachedRecords st !! i = Some vendor ->
  selectedIdsOf pg vendor <> [] ->
  editTarget st (default [] (r_bills vendor)) = None ->
  let ids := selectedIdsOf pg vendor in
  let bills := default [] (r_bills vendor) in
  let st' := saveVendorBill now pg vendorId isPartial st in
  exists vendor' newBill digits,
    cachedRecords st' !! i = Some vendor' /\
    (forall k, k <> i -> cachedRecords st' !! k = cachedRecords st !! k) /\
    length (cachedRecords st') = length (cachedRecords st) /\
    r_vendor_id vendor' = Some vendorId /\
    r_bills vendor' = Some (bills ++ [newBill]) /\
    vb_bill_id newBill = vendorId +:+ "-B" +:+ digits /\
    decimalb digits = true /\ (3 <= String.length digits)%nat /\
    Js.parseInt digits = Some (Z.of_nat (length bills) + 1) /\
    vb_bill_id newBill = nextBillId vendorId (length bills) /\
    (forall k, (k < length bills)%nat -> nextBillId vendorId k <> vb_bill_id newBill) /\
    ((forall k b, bills !! k = Some b -> vb_bill_id b = nextBillId vendorId k) ->
     forall b, b ∈ bills -> vb_bill_id b <> vb_bill_id newBill) /\
    vb_phone_ids newBill = ids /\
    length (r_phones vendor') = length (r_phones vendor) /\
    (forall j p, r_phones vendor !! j = Some p ->
       exists p', r_phones vendor' !! j = Some p' /\
         (phone_id p ∈ ids ->
            phone_id p' = phone_id p /\ status p' = "Billed" /\
            billed p' = true /\ bill_id p' = Some (vb_bill_id newBill)) /\
         (phone_id p ∉ ids -> p' = p)) /\
    savesSince st st' = [SaveRecords (cachedRecords st')].
Proof.
  intros Hi Hv Hne Ht ids bills st'.
  subst st'. rewrite (saveVendorBill_create now pg vendorId isPartial st i vendor Hi Hv Hne Ht).
  fold ids bills. unfold createBill.
  change (generateBillID vendorId (Z.of_nat (length bills) + 1))
    with (nextBillId vendorId (length bills)).
  set (billId := nextBillId vendorId (length bills)).
  set (newBill := mkVendorBill billId billId _ ids _ _ _ _ _ _).
  set (vendor' := with_phones _ _).
  assert (Hlt : (i < length (cachedRecords st))%nat) by (eapply lookup_lt_Some; eauto).
  destruct (nextBillId_digits vendorId (length bills)) as (digits & Hd & Hdec & Hlen & Hparse).
  assert (Hfresh : forall k, (k < length bills)%nat -> nextBillId vendorId k <> billId).
  { intros k Hk He. apply nextBillId_inj in He. lia. }
  exists vendor', newBill, digits. simpl.
  split; [apply list_lookup_insert_eq; exact Hlt|].
  split; [intros k Hk; apply list_lookup_insert_ne; congruence|].
  split; [apply length_insert|].
  split.
  { destruct (findIndex_Some _ _ _ Hi) as (x & Hx & Fx & _).
    rewrite Hv in Hx. injection Hx as <-.
    apply bool_decide_eq_true in Fx. exact Fx. }
  split; [reflexivity|].
  split; [exact Hd|].
  split; [exact Hdec|]. split; [exact Hlen|]. split; [exact Hparse|].
  split; [reflexivity|].
  split; [exact Hfresh|].
  split.
  { intros Hpos b Hb. apply list_elem_of_lookup_1 in Hb as (k & Hk).
    rewrite (Hpos k b Hk). apply Hfresh. eapply lookup_lt_Some; eauto. }
  split; [reflexivity|].
  split; [apply length_fmap|].
  split.
  { intros j p Hp. exists (markBilled ids billId p).
    split; [rewrite list_lookup_fmap, Hp; reflexivity|].
    unfold markBilled. split.
    - intros Hin. apply includes_true in Hin. rewrite Hin. simpl. auto.
    - intros Hnin. apply includes_false in Hnin. rewrite Hnin. reflexivity. }
  unfold savesSince, alert, log, setSelection, saveRecords, log. simpl.
  rewrite <- app_assoc. rewrite drop_app_length. reflexivity.
Qed.

Lemma saveVendorBill_creation_witness :
  exists vendor' newBill,
    cachedRecords Scenario.billed1 !! 0%nat = Some vendor' /\
    r_bills vendor' = Some [newBill] /\
    vb_bill_id newBill = "VND001-B001" /\
    vb_phone_ids newBill = ["VND001-P001"; "VND001-P002"] /\
    length (r_phones vendor') = 3%nat /\
    savesSince Scenario.start Scenario.billed1 = [SaveRecords (cachedRecords Scenario.billed1)].
Proof.
  destruct (saveVendorBill_creation Sample.now Scenario.page "VND001" true Scenario.start
              0 Sample.threePhones eq_refl eq_refl ltac:(discriminate) eq_refl)
    as (vendor' & newBill & digits & Hv & _ & _ & _ & Hb & _ & _ & _ & _ & Hid & _ & _
        & Hids & Hlen & _ & Hsave).
  exists vendor', newBill. repeat split; assumption.
Defined.

(** The scenario of the specification: billing P001 and P002 of VND001
    gives bill VND001-B001 with totals 1300 / 0 / 1300, marks both phones and
    leaves P003 Received and unbilled. *)
Example scenario_first_bill :
  (fun v => (r_phones v,
             (fun b => (vb_bill_id b, vb_phone_ids b, vb_subtotal b, vb_tax b, vb_grand_total b))
               <$> default [] (r_bills v)))
    <$> Scenario.vendorAfter Scenario.billed1
  = Some ([Sample.phoneOf "VND001-P001" "Billed" false true (Some "VND001-B001");
           Sample.phoneOf "VND001-P002" "Billed" false true (Some "VND001-B001");
           Sample.phoneOf "VND001-P003" "Received" false false None],
          [("VND001-B001", ["VND001-P001"; "VND001-P002"],
            Num.ofZ 1300, Num.zero, Num.ofZ 1300)]).
Proof. vm_compute. reflexivity. Qed.

(** ** Rejected saves *)

(** C2, as stated, fails: a selection that names phones which are already
    billed is not rejected.  Saving the page for P001 and P002 a second time
    changes the store and calls [saveRecords]. *)
Lemma saveVendorBill_accepts_billed_phone :
  exists vendor,
    Scenario.vendorAfter Scenario.billed1 = Some vendor /\
    namesBilledPhone vendor (selectedIdsOf Scenario.page vendor) /\
    ~ rejected Scenario.billed1 Scenario.billed2.
Proof.
  eexists. split; [reflexivity|]. split.
  - exists (Sample.phoneOf "VND001-P001" "Billed" false true (Some "VND001-B001")).
    split; [|split]; [| |reflexivity].
    + apply list_elem_of_lookup. exists 0%nat. reflexivity.
    + apply list_elem_of_lookup. exists 0%nat. reflexivity.
  - intros [Hsame _]. apply (f_equal (fun rs => length <$> (rs !! 0%nat ≫= r_bills))) in Hsame.
    vm_compute in Hsame. discriminate.
Qed.

(** C2, amended. When the list of phone ids the save works with is empty,
    the save is blocked: one dialog, the working set and the selection as
    they were, no call of [saveRecords]. *)
Theorem saveVendorBill_rejects_empty (now : string) (pg : Form.page) (vendorId : string)
    (isPartial : bool) (st : app) (i : nat) (vendor : record) :
  Js.findIndex (has_vendor_id vendorId) (cachedRecords st) = Some i ->
  cachedRecords st !! i = Some vendor ->
  selectedIdsOf pg vendor = [] ->
  let st' := saveVendorBill now pg vendorId isPartial st in
  rejected st st' /\
  selectedPhonesForBilling st' = selectedPhonesForBilling st /\
  events st' = events st ++ [Alert "No phones selected for billing"].
Proof.
  intros Hi Hv He st'. subst st'.
  rewrite (saveVendorBill_empty now pg vendorId isPartial st i vendor Hi Hv He).
  unfold rejected, savesSince, alert, log. simpl.
  rewrite drop_app_length. auto.
Qed.

Lemma saveVendorBill_rejects_empty_witness :
  rejected Scenario.start
    (saveVendorBill Sample.now (Sample.pageOf (Num.ofZ 1300) 1 Num.zero (Some []))
                    "VND001" true Scenario.start) /\
  selectedPhonesForBilling
    (saveVendorBill Sample.now (Sample.pageOf (Num.ofZ 1300) 1 Num.zero (Some []))
                    "VND001" true Scenario.start)
  = selectedPhonesForBilling Scenario.start /\
  events (saveVendorBill Sample.now (Sample.pageOf (Num.ofZ 1300) 1 Num.zero (Some []))
                         "VND001" true Scenario.start)
  = events Scenario.start ++ [Alert "No phones selected for billing"].
Proof.
  apply (saveVendorBill_rejects_empty Sample.now
           (Sample.pageOf (Num.ofZ 1300) 1 Num.zero (Some []))
           "VND001" true Scenario.start 0 Sample.threePhones);
    reflexivity.
Defined.

(** A save for a vendor id that no record has is blocked as well. *)
Lemma saveVendorBill_rejects_unknown_vendor now pg vendorId isPartial st :
  Js.findIndex (has_vendor_id vendorId) (cachedRecords st) = None ->
  rejected st (saveVendorBill now pg vendorId isPartial st).
Proof.
  intros H. rewrite saveVendorBill_no_vendor by assumption.
  unfold rejected, savesSince, alert, log. simpl.
  rewrite drop_app_length. auto.
Qed.

(** The selection the billing form proposes when nothing was picked for the
    vendor consists of ids of unbilled phones. *)
Lemma formSelection_default (vendor : record) (id : string) :
  id ∈ Form.formSelection vendor None ->
  exists p, p ∈ r_phones vendor /\ phone_id p = id /\ billed p = false.
Proof.
  unfold Form.formSelection. simpl.
  set (l := phone_id <$> _).
  assert (Hl : id ∈ l -> exists p, p ∈ r_phones vendor /\ phone_id p = id /\ billed p = false).
  { unfold l. intros Hin. apply list_elem_of_fmap in Hin as (p & -> & Hp).
    apply list_elem_of_In, List.filter_In in Hp as [Hp Hb].
    exists p. rewrite list_elem_of_In. repeat split; auto.
    destruct (billed p); [discriminate | reflexivity]. }
  destruct l; auto.
Qed.

(** ** Editing a vendor bill *)

(** C8, as stated, fails for [saveVendorBill]: when the editing id is not
    the id of a bill of the vendor being saved, the save is not blocked; it
    goes on to create a bill.  Here the bill of VND002 was opened for editing
    and the billing form of VND001 is saved: VND001 gets a new bill for its
    three phones. *)
Lemma saveVendorBill_unknown_edit_id_creates :
  editingBillId Scenario.staleEdit = Some "VND002-B001" /\
  (exists vendor,
     Scenario.vendorAfter Scenario.staleEdit = Some vendor /\
     r_vendor_id vendor = Some "VND001" /\
     forall b, b ∈ billsOf vendor -> vb_bill_id b <> "VND002-B001") /\
  ~ rejected Scenario.staleEdit Scenario.afterStaleEdit /\
  ((fun v => (fun b => (vb_bill_id b, vb_phone_ids b, vb_grand_total b)) <$> billsOf v)
     <$> Scenario.vendorAfter Scenario.afterStaleEdit)
  = Some [("VND001-B001", ["VND001-P001"; "VND001-P002"; "VND001-P003"], Num.ofZ 500)].
Proof.
  split; [reflexivity|]. split; [|split; [|vm_compute; reflexivity]].
  - eexists. split; [reflexivity|]. split; [reflexivity|]. intros b Hb.
    vm_compute in Hb. inversion Hb.
  - intros [Hsame _]. apply (f_equal (fun rs => length <$> (rs !! 0%nat ≫= r_bills))) in Hsame.
    vm_compute in Hsame. discriminate.
Qed.

(** C8, amended. The edit of a bill starts in [editVendorBill]: for an id
    that no bill of the vendor has, it shows "Bill not found" and changes
    nothing.  For the id of a bill it records the editing id, and the save
    that follows replaces the items, the three totals and the update time of
    that bill in place: the bill keeps its id, number, date, phone ids and
    creation time, the other bills, all phones and all other records are as
    before, and [saveRecords] is called once. *)
Theorem editBill_flow (now : string) (pg : Form.page) (vendorId billId : string)
    (st : app) (i : nat) (vendor : record) (bills : list vendorBill) :
  Js.findIndex (has_vendor_id vendorId) (cachedRecords st) = Some i ->
  cachedRecords st !! i = Some vendor ->
  r_bills vendor = Some bills ->
  let st1 := editVendorBill vendorId billId st in
  match Js.findIndex (has_bill_id billId) bills with
  | None => st1 = alert "Bill not found" st /\ rejected st st1
  | Some k =>
      cachedRecords st1 = cachedRecords st /\ events st1 = events st /\
      exists bill,
        bills !! k = Some bill /\
        selectedPhonesForBilling st1
          = Some (mkSelection vendorId (vb_phone_ids bill) (Some billId)) /\
        (billId <> "" -> selectedIdsOf pg vendor <> [] ->
         let st2 := saveVendorBill now pg vendorId true st1 in
         exists vendor' bills' bill',
           cachedRecords st2 !! i = Some vendor' /\
           (forall j, j <> i -> cachedRecords st2 !! j = cachedRecords st !! j) /\
           r_phones vendor' = r_phones vendor /\
           r_bills vendor' = Some bills' /\
           length bills' = length bills /\
           (forall j, j <> k -> bills' !! j = bills !! j) /\
           bills' !! k = Some bill' /\
           vb_bill_id bill' = vb_bill_id bill /\
           vb_bill_number bill' = vb_bill_number bill /\
           vb_date bill' = vb_date bill /\
           vb_phone_ids bill' = vb_phone_ids bill /\
           vb_saved_at bill' = vb_saved_at bill /\
           vb_items bill' = collectItem <$> Form.rows pg /\
           vb_subtotal bill' = Form.subtotalText pg /\
           vb_tax bill' = Form.taxAmountText pg /\
           vb_grand_total bill' = Form.grandTotalText pg /\
           vb_updated_at bill' = Some now /\
           savesSince st1 st2 = [SaveRecords (cachedRecords st2)])
  end.
Proof.
  intros Hi Hv Hb st1.
  assert (Hfind : Js.find (has_vendor_id vendorId) (loadRecords st) = Some vendor).
  { unfold loadRecords. rewrite find_findIndex, Hi. exact Hv. }
  assert (Hst1 : st1 = match Js.find (has_bill_id billId) bills with
                       | None => alert "Bill not found" st
                       | Some bill => setSelection
                           (Some (mkSelection vendorId (vb_phone_ids bill) (Some billId))) st
                       end).
  { subst st1. unfold editVendorBill. rewrite Hfind, Hb. reflexivity. }
  rewrite find_findIndex in Hst1.
  destruct (Js.findIndex (has_bill_id billId) bills) as [k|] eqn:Hk; simpl in Hst1.
  - destruct (findIndex_Some _ _ _ Hk) as (bill & Hbill & _).
    rewrite Hbill in Hst1.
    split; [rewrite Hst1; reflexivity|]. split; [rewrite Hst1; reflexivity|].
    exists bill. split; [assumption|]. split; [rewrite Hst1; reflexivity|].
    intros Hne Hsel st2.
    assert (Hedit : editingBillId
              (setSelection (Some (mkSelection vendorId (vb_phone_ids bill) (Some billId))) st)
              = Some billId).
    { unfold editingBillId. simpl. destruct (decide (billId = "")); congruence. }
    subst st2. rewrite Hst1. set (sel := Some (mkSelection vendorId _ _)) in *.
    rewrite (saveVendorBill_edit now pg vendorId true (setSelection sel st)
               i vendor Hi Hv billId k Hsel Hedit);
      [|rewrite Hb; exact Hk].
    rewrite Hb. simpl.
    assert (Hlt : (i < length (cachedRecords st))%nat) by (eapply lookup_lt_Some; eauto).
    eexists _, _, _.
    split; [apply list_lookup_insert_eq; exact Hlt|].
    split; [intros j Hj; apply list_lookup_insert_ne; congruence|].
    split; [reflexivity|]. split; [reflexivity|].
    split; [apply length_alter|].
    split; [intros j Hj; apply list_lookup_alter_ne; congruence|].
    split; [rewrite list_lookup_alter_eq, Hbill; reflexivity|].
    simpl. repeat (split; [reflexivity|]).
    unfold savesSince. simpl. rewrite <- app_assoc, drop_app_length. reflexivity.
  - rewrite Hst1. split; [reflexivity|].
    unfold rejected, savesSince, alert, log. simpl. rewrite drop_app_length. auto.
Qed.

Lemma editBill_flow_witness :
  cachedRecords Scenario.editing = cachedRecords Scenario.billed1 /\
  events Scenario.editing = events Scenario.billed1 /\
  exists bill,
    Scenario.bills1 !! 0%nat = Some bill /\
    selectedPhonesForBilling Scenario.editing
      = Some (mkSelection "VND001" (vb_phone_ids bill) (Some "VND001-B001")) /\
    ("VND001-B001" <> "" -> selectedIdsOf Scenario.pageEdit Scenario.vendor1 <> [] ->
     exists vendor' bills' bill',
       cachedRecords Scenario.edited !! 0%nat = Some vendor' /\
       (forall j, j <> 0%nat ->
          cachedRecords Scenario.edited !! j = cachedRecords Scenario.billed1 !! j) /\
       r_phones vendor' = r_phones Scenario.vendor1 /\
       r_bills vendor' = Some bills' /\
       length bills' = length Scenario.bills1 /\
       (forall j, j <> 0%nat -> bills' !! j = Scenario.bills1 !! j) /\
       bills' !! 0%nat = Some bill' /\
       vb_bill_id bill' = vb_bill_id bill /\
       vb_bill_number bill' = vb_bill_number bill /\
       vb_date bill' = vb_date bill /\
       vb_phone_ids bill' = vb_phone_ids bill /\
       vb_saved_at bill' = vb_saved_at bill /\
       vb_items bill' = collectItem <$> Form.rows Scenario.pageEdit /\
       vb_subtotal bill' = Form.subtotalText Scenario.pageEdit /\
       vb_tax bill' = Form.taxAmountText Scenario.pageEdit /\
       vb_grand_total bill' = Form.grandTotalText Scenario.pageEdit /\
       vb_updated_at bill' = Some Sample.now /\
       savesSince Scenario.editing Scenario.edited = [SaveRecords (cachedRecords Scenario.edited)]).
Proof.
  exact (editBill_flow Sample.now Scenario.pageEdit "VND001" "VND001-B001"
           Scenario.billed1 0 Scenario.vendor1 Scenario.bills1 eq_refl eq_refl eq_refl).
Defined.

(** The edited bill of the scenario: same id and phones, new item and
    totals (900 x 2). *)
Example scenario_edited_bill :
  (fun v => (status <$> r_phones v,
             (fun b => (vb_bill_id b, vb_phone_ids b, li_total <$> vb_items b,
                        vb_subtotal b, vb_grand_total b))
               <$> default [] (r_bills v)))
    <$> Scenario.vendorAfter Scenario.edited
  = Some (["Billed"; "Billed"; "Received"],
          [("VND001-B001", ["VND001-P001"; "VND001-P002"], [Num.ofZ 1800],
            Num.ofZ 1800, Num.ofZ 1800)]).
Proof. vm_compute. reflexivity. Qed.

(** ** Line items *)

(** C9, as stated, fails: a negative price is not raised to 0.  For price
    -5 and quantity 2 the total shown and stored is -10, where the clamped
    rule gives 0; the stored item keeps the price -5. *)
Lemma itemTotal_negative_price_not_clamped :
  Form.itemTotal (Form.mkRow "" "" (Num.ofZ (-5)) (Some 2) Num.zero) = Num.ofZ (-10) /\
  clampedTotal (Num.ofZ (-5)) (Some 2) = Num.zero /\
  Num.eqb (Num.ofZ (-10)) Num.zero = false /\
  ((fun b => (fun it => (li_price it, li_quantity it, li_total it)) <$> vb_items b)
     <$> lastBill 0 Scenario.billedNegative)
  = Some [(Num.ofZ (-5), Num.ofZ 2, Num.ofZ (-10))].
Proof. vm_compute. auto. Qed.

(** A negative quantity is kept as well: price 100, quantity -3 gives -300. *)
Example itemTotal_negative_quantity :
  Form.itemTotal (Form.mkRow "" "" (Num.ofZ 100) (Some (-3)) Num.zero) = Num.ofZ (-300) /\
  clampedTotal (Num.ofZ 100) (Some (-3)) = Num.ofZ 100.
Proof. vm_compute. auto. Qed.

(** C9, amended. The total of a row is the product of the price and the
    quantity the script reads, where a price that is not a number or is zero
    counts as 0 and a quantity that is not a number or is zero counts as 1;
    any other value, negative ones included, is used as it is.
    [updateItemTotal] shows that product rounded to two decimals in the
    total cell of the row and leaves the other rows alone. *)
Theorem updateItemTotal_product (i : nat) (pg : Form.page) (r : Form.itemRow) :
  Form.rows pg !! i = Some r ->
  let price := match Form.row_price r with
               | S754_nan | S754_zero _ => Num.zero
               | x => x
               end in
  let qty := match Form.ofInt (Form.row_qty r) with
             | S754_nan | S754_zero _ => Num.ofZ 1
             | x => x
             end in
  Form.itemTotal r = Num.mul price qty /\
  (forall s m e, Form.row_price r = S754_finite s m e -> price = S754_finite s m e) /\
  (forall s m e, Form.ofInt (Form.row_qty r) = S754_finite s m e -> qty = S754_finite s m e) /\
  Form.rows (Form.updateItemTotal i pg) !! i
    = Some (Form.mkRow (Form.row_desc r) (Form.row_breakout r) (Form.row_price r)
                       (Form.row_qty r) (Num.toFixed2 (Num.mul price qty))) /\
  (forall j, j <> i -> Form.rows (Form.updateItemTotal i pg) !! j = Form.rows pg !! j).
Proof.
  intros Hr price qty.
  assert (Hp : Form.priceOf r = price).
  { unfold Form.priceOf, Num.orElse, Num.truthy, price. destruct (Form.row_price r); reflexivity. }
  assert (Hq : Form.qtyOf r = qty).
  { unfold Form.qtyOf, Num.orElse, Num.truthy, qty. destruct (Form.ofInt (Form.row_qty r)); reflexivity. }
  assert (Ht : Form.itemTotal r = Num.mul price qty).
  { unfold Form.itemTotal. rewrite Hp, Hq. reflexivity. }
  split; [exact Ht|].
  split; [intros s m e H; unfold price; rewrite H; reflexivity|].
  split; [intros s m e H; unfold qty; rewrite H; reflexivity|].
  simpl. split.
  - rewrite list_lookup_alter_eq, Hr. simpl. unfold Form.showTotal. rewrite Ht. reflexivity.
  - intros j Hj. apply list_lookup_alter_ne. congruence.
Qed.

Lemma updateItemTotal_product_witness :
  let r := Form.mkRow "Display" "Original" (Num.ofZ 1300) (Some 2) Num.zero in
  let pg := Form.mkPage [r] Num.zero Num.zero Num.zero Num.zero None in
  Form.itemTotal r = Num.mul (Num.ofZ 1300) (Num.ofZ 2) /\
  Form.rows (Form.updateItemTotal 0 pg) !! 0%nat
    = Some (Form.mkRow "Display" "Original" (Num.ofZ 1300) (Some 2) (Num.ofZ 2600)).
Proof.
  intros r pg.
  destruct (updateItemTotal_product 0 pg r eq_refl) as (Ht & _ & _ & Hrow & _).
  split; [exact Ht | exact Hrow].
Defined.

(** ** Bill totals *)

Lemma sumTotals_sumItems (rs : list Form.itemRow) :
  Form.sumTotals rs = sumItems (collectItem <$> rs).
Proof.
  unfold Form.sumTotals, sumItems. generalize Num.zero.
  induction rs as [|r rs IH]; intros acc; simpl; [reflexivity|]. apply IH.
Qed.

(** C6, as stated, fails: the totals of a stored bill are the three
    displayed values, each rounded to two decimals on its own, and the
    rounded values need not add up.  One item of 1.00 with tax 0.5 percent
    is stored with subtotal 1, tax 0.01 and grand total 1. *)
Lemma stored_bill_totals_do_not_add_up :
  ((fun b => (vb_subtotal b, vb_tax b, vb_grand_total b, billConsistent b))
     <$> lastBill 0 Scenario.billedHalfPercent)
  = Some (Num.ofZ 1, Num.ofDecimal 1 2, Num.ofZ 1, false) /\
  Num.add (Num.ofZ 1) (Num.ofDecimal 1 2) = Num.ofDecimal 101 2 /\
  Form.taxOf (Num.ofZ 1) (Num.ofDecimal 5 1) = Num.ofDecimal 5 3 /\
  Num.eqb (Num.ofDecimal 1 2) (Num.ofDecimal 5 3) = false.
Proof. vm_compute. auto. Qed.

(** C6, amended. [updateBillTotals] adds the totals read from the rows, in
    order and without rounding, takes the tax as subtotal times percentage
    over 100 and the grand total as their sum, and displays each of the three
    rounded to two decimals.  A bill created from the refreshed page stores
    the rows' totals as item totals and the three displayed values as its
    totals: subtotal, tax and grand total are the roundings of the sum [S] of
    its item totals, of [S * taxPercent / 100] and of [S + S * taxPercent /
    100]. *)
Theorem stored_bill_totals (now : string) (pg0 : Form.page) (vendorId : string)
    (isPartial : bool) (st : app) (i : nat) (vendor : record) :
  Js.findIndex (has_vendor_id vendorId) (cachedRecords st) = Some i ->
  cachedRecords st !! i = Some vendor ->
  selectedIdsOf pg0 vendor <> [] ->
  editTarget st (default [] (r_bills vendor)) = None ->
  let pg := Form.updateBillTotals pg0 in
  let subtotal := Form.sumTotals (Form.rows pg0) in
  let taxAmount := Num.div (Num.mul subtotal (Num.orElse (Form.taxPercent pg0) Num.zero))
                           (Num.ofZ 100) in
  let grandTotal := Num.add subtotal taxAmount in
  (Form.subtotalText pg = Num.toFixed2 subtotal /\
   Form.taxAmountText pg = Num.toFixed2 taxAmount /\
   Form.grandTotalText pg = Num.toFixed2 grandTotal) /\
  exists b,
    lastBill i (saveVendorBill now pg vendorId isPartial st) = Some b /\
    li_total <$> vb_items b = Form.totalOf <$> Form.rows pg0 /\
    sumItems (vb_items b) = subtotal /\
    vb_subtotal b = Num.toFixed2 subtotal /\
    vb_tax b = Num.toFixed2 taxAmount /\
    vb_grand_total b = Num.toFixed2 grandTotal.
Proof.
  intros Hi Hv Hne Ht pg subtotal taxAmount grandTotal.
  split; [repeat split|].
  assert (Hsel : selectedIdsOf pg vendor = selectedIdsOf pg0 vendor) by reflexivity.
  rewrite (saveVendorBill_create now pg vendorId isPartial st i vendor Hi Hv)
    by (rewrite ?Hsel; assumption).
  unfold createBill, lastBill. simpl.
  rewrite list_lookup_insert_eq by (eapply lookup_lt_Some; eauto).
  simpl. rewrite last_snoc. eexists. split; [reflexivity|]. simpl.
  split; [rewrite <- list_fmap_compose; reflexivity|].
  split; [symmetry; apply sumTotals_sumItems|].
  repeat split.
Qed.

Lemma stored_bill_totals_witness :
  exists b,
    lastBill 0 Scenario.billed1 = Some b /\
    sumItems (vb_items b) = Num.ofZ 1300 /\
    vb_subtotal b = Num.toFixed2 (Num.ofZ 1300) /\
    vb_tax b = Num.toFixed2 (Num.div (Num.mul (Num.ofZ 1300) Num.zero) (Num.ofZ 100)) /\
    vb_grand_total b
      = Num.toFixed2 (Num.add (Num.ofZ 1300)
                        (Num.div (Num.mul (Num.ofZ 1300) Num.zero) (Num.ofZ 100))).
Proof.
  destruct (stored_bill_totals Sample.now Scenario.page "VND001" true Scenario.start
              0 Sample.threePhones eq_refl eq_refl ltac:(discriminate) eq_refl)
    as (_ & b & Hb & _ & Hs & H1 & H2 & H3).
  exists b. repeat split; assumption.
Defined.

(** The scenario of the specification: one item of 1300 at tax 0 gives
    1300, 0 and 1300. *)
Example totals_1300 :
  (fun pg => (Form.subtotalText pg, Form.taxAmountText pg, Form.grandTotalText pg))
    (Sample.pageOf (Num.ofZ 1300) 1 Num.zero None)
  = (Num.ofZ 1300, Num.zero, Num.ofZ 1300).
Proof. vm_compute. reflexivity. Qed.

(** ** Warranty end date *)

Lemma daysInMonth_ge_28 (y m : Z) : 28 <= Warranty.daysInMonth y m.
Proof.
  unfold Warranty.daysInMonth.
  destruct (m =? 2); [destruct (Warranty.isLeap y); lia|].
  destruct ((m =? 4) || (m =? 6) || (m =? 9) || (m =? 11))%bool; lia.
Qed.

Lemma daysInMonth_le_31 (y m : Z) : Warranty.daysInMonth y m <= 31.
Proof.
  unfold Warranty.daysInMonth.
  destruct (m =? 2); [destruct (Warranty.isLeap y); lia|].
  destruct ((m =? 4) || (m =? 6) || (m =? 9) || (m =? 11))%bool; lia.
Qed.

Lemma parse_valid (s : string) (d : Warranty.date) :
  Warranty.parse s = Some d -> Warranty.validb d = true.
Proof.
  unfold Warranty.parse. destruct (decide _); [|discriminate].
  destruct (Warranty.digits 0 (String.substring 0 4 s)) as [y|]; [|discriminate].
  destruct (Warranty.digits 0 (String.substring 5 2 s)) as [m|]; [|discriminate].
  destruct (Warranty.digits 0 (String.substring 8 2 s)) as [dd|]; [|discriminate].
  simpl. destruct (Warranty.validb (Warranty.mkDate y m dd)) eqn:Hv; [|discriminate].
  intros H. injection H as <-. exact Hv.
Qed.

Lemma monthsOf_cases (warranty : string) :
  (warranty = "6" \/ warranty = "6 months") /\ Warranty.monthsOf warranty = 6 \/
  (warranty <> "6" /\ warranty <> "6 months") /\ Warranty.monthsOf warranty = 3.
Proof.
  unfold Warranty.monthsOf. destruct (decide _) as [H|H]; [left; auto|right].
  split; [|reflexivity]. split; intros ->; apply H; auto.
Qed.

(** A date that has its day in the target month arrives on that day, in a
    valid date; any other date arrives one to three days into the month
    after the target month. *)
Lemma addMonths_cases (n : Z) (d : Warranty.date) :
  Warranty.validb d = true ->
  let t := monthsLater n d in
  (Warranty.day d <= Warranty.daysInMonth (Warranty.year t) (Warranty.month t) ->
     Warranty.addMonths n d = t /\ Warranty.validb t = true) /\
  (Warranty.daysInMonth (Warranty.year t) (Warranty.month t) < Warranty.day d ->
     Warranty.month (Warranty.addMonths n d) = Warranty.month t mod 12 + 1 /\
     1 <= Warranty.day (Warranty.addMonths n d) <= 3).
Proof.
  intros Hv t. unfold Warranty.validb in Hv.
  apply andb_prop in Hv as [Hv Hd2]. apply andb_prop in Hv as [Hv Hd1].
  apply andb_prop in Hv as [Hm1 Hm2].
  apply Z.leb_le in Hm1, Hm2, Hd1, Hd2.
  pose proof (daysInMonth_le_31 (Warranty.year d) (Warranty.month d)) as H31.
  pose proof (daysInMonth_ge_28 (Warranty.year t) (Warranty.month t)) as H28.
  assert (Hmt : 1 <= Warranty.month t <= 12).
  { unfold t, monthsLater. simpl.
    pose proof (Z.mod_pos_bound (Warranty.month d - 1 + n) 12 ltac:(lia)). lia. }
  unfold Warranty.addMonths.
  change (Warranty.year d + (Warranty.month d - 1 + n) / 12) with (Warranty.year t).
  change ((Warranty.month d - 1 + n) mod 12 + 1) with (Warranty.month t).
  assert (Ht : t = Warranty.mkDate (Warranty.year t) (Warranty.month t) (Warranty.day d))
    by reflexivity.
  clearbody t. destruct t as [ty tm td]. simpl in *. injection Ht as ->.
  split; intros Hday.
  - apply Z.leb_le in Hday as Hb. rewrite Hb. split; [reflexivity|].
    unfold Warranty.validb. simpl.
    repeat (apply andb_true_intro; split); apply Z.leb_le; lia.
  - apply Z.leb_gt in Hday as Hb. rewrite Hb.
    destruct (tm =? 12) eqn:H12; simpl.
    + apply Z.eqb_eq in H12. subst tm. split; [reflexivity | lia].
    + apply Z.eqb_neq in H12. rewrite Z.mod_small by lia. split; [reflexivity | lia].
Qed.

(** ** Dates as text *)

Lemma pad4_table :
  forallb (fun k => let y := Z.of_nat k in
                    let s := Warranty.pad 4 y in
                    Nat.eqb (String.length s) 4 &&
                    match Warranty.digits 0 s with
                    | Some v => v =? y
                    | None => false
                    end &&
                    (if 1000 <=? y then String.eqb s (Js.numToString (Some y)) else true) &&
                    (if y <? 100
                     then Nat.eqb (String.length (Warranty.pad 2 y)) 2 &&
                          match Warranty.digits 0 (Warranty.pad 2 y) with
                          | Some v => v =? y
                          | None => false
                          end
                     else true))
          (seq 0 (Z.to_nat 10000)) = true.
Proof. vm_compute. reflexivity. Qed.

Lemma pad4_entry (y : Z) :
  0 <= y <= 9999 ->
  String.length (Warranty.pad 4 y) = 4%nat /\
  Warranty.digits 0 (Warranty.pad 4 y) = Some y /\
  (1000 <= y -> Warranty.pad 4 y = Js.numToString (Some y)) /\
  (y < 100 -> String.length (Warranty.pad 2 y) = 2%nat /\
              Warranty.digits 0 (Warranty.pad 2 y) = Some y).
Proof.
  intros Hy. pose proof pad4_table as H. rewrite forallb_forall in H.
  specialize (H (Z.to_nat y) ltac:(apply in_seq; lia)).
  cbv zeta in H. rewrite Z2Nat.id in H by lia.
  apply andb_prop in H as [H H4]. apply andb_prop in H as [H H3].
  apply andb_prop in H as [H1 H2].
  apply Nat.eqb_eq in H1.
  assert (Hd : forall s, match Warranty.digits 0 s with Some v => v =? y | None => false end
                         = true -> Warranty.digits 0 s = Some y).
  { intros s Hs. destruct (Warranty.digits 0 s) as [v|]; [|discriminate].
    apply Z.eqb_eq in Hs. congruence. }
  split; [exact H1|]. split; [apply Hd, H2|]. split.
  - intros Hge. apply Z.leb_le in Hge. rewrite Hge in H3. apply String.eqb_eq. exact H3.
  - intros Hlt. apply Z.ltb_lt in Hlt. rewrite Hlt in H4.
    apply andb_prop in H4 as [Ha Hb]. apply Nat.eqb_eq in Ha. auto.
Qed.

Lemma year_text (y : Z) :
  1000 <= y <= 9999 ->
  String.length (Js.numToString (Some y)) = 4%nat /\
  Warranty.digits 0 (Js.numToString (Some y)) = Some y.
Proof.
  intros Hy. destruct (pad4_entry y ltac:(lia)) as (H1 & H2 & H3 & _).
  rewrite <- (H3 ltac:(lia)). auto.
Qed.

Lemma pad4_text (y : Z) :
  0 <= y <= 9999 ->
  String.length (Warranty.pad 4 y) = 4%nat /\ Warranty.digits 0 (Warranty.pad 4 y) = Some y.
Proof. intros Hy. destruct (pad4_entry y Hy) as (H1 & H2 & _). auto. Qed.

Lemma pad2_text (m : Z) :
  0 <= m <= 99 ->
  String.length (Warranty.pad 2 m) = 2%nat /\ Warranty.digits 0 (Warranty.pad 2 m) = Some m.
Proof. intros Hm. destruct (pad4_entry m ltac:(lia)) as (_ & _ & _ & H). apply H. lia. Qed.

Lemma append_empty_r (s : string) : s +:+ "" = s.
Proof.
  induction s as [|c s IH]; [reflexivity|].
  change (String c (s +:+ "") = String c s). rewrite IH. reflexivity.
Qed.

(** A text made of a year of four digits, a month and a day of two digits
    each, with hyphens between them and anything after them: its first ten
    characters parse as that date when the date is one of the calendar. *)
Lemma parse_parts (a b c rest : string) (y m d : Z) :
  String.length a = 4%nat -> String.length b = 2%nat -> String.length c = 2%nat ->
  Warranty.digits 0 a = Some y -> Warranty.digits 0 b = Some m ->
  Warranty.digits 0 c = Some d ->
  Warranty.validb (Warranty.mkDate y m d) = true ->
  Warranty.parse (Js.slice_to 10 (a +:+ "-" +:+ b +:+ "-" +:+ c +:+ rest))
  = Some (Warranty.mkDate y m d).
Proof.
  intros La Lb Lc Ha Hb Hc Hv.
  destruct a as [|a1 [|a2 [|a3 [|a4 [|? ?]]]]]; try discriminate La.
  destruct b as [|b1 [|b2 [|? ?]]]; try discriminate Lb.
  destruct c as [|c1 [|c2 [|? ?]]]; try discriminate Lc.
  set (A := String a1 (String a2 (String a3 (String a4 "")))) in *.
  set (B := String b1 (String b2 "")) in *.
  set (C := String c1 (String c2 "")) in *.
  assert (Hs : Js.slice_to 10 (A +:+ "-" +:+ B +:+ "-" +:+ C +:+ rest)
               = A +:+ "-" +:+ B +:+ "-" +:+ C).
  { unfold Js.slice_to, A, B, C. simpl. destruct rest; reflexivity. }
  rewrite Hs. unfold Warranty.parse.
  destruct (decide _) as [_|Hn]; [|exfalso; apply Hn; repeat split; reflexivity].
  change (String.substring 0 4 (A +:+ "-" +:+ B +:+ "-" +:+ C)) with A.
  change (String.substring 5 2 (A +:+ "-" +:+ B +:+ "-" +:+ C)) with B.
  change (String.substring 8 2 (A +:+ "-" +:+ B +:+ "-" +:+ C)) with C.
  rewrite Ha, Hb, Hc. simpl. rewrite Hv. reflexivity.
Qed.

Lemma valid_bounds (d : Warranty.date) :
  Warranty.validb d = true ->
  1 <= Warranty.month d <= 12 /\ 1 <= Warranty.day d <= 31.
Proof.
  unfold Warranty.validb. intros Hv.
  apply andb_prop in Hv as [Hv Hd2]. apply andb_prop in Hv as [Hv Hd1].
  apply andb_prop in Hv as [Hm1 Hm2]. apply Z.leb_le in Hm1, Hm2, Hd1, Hd2.
  pose proof (daysInMonth_le_31 (Warranty.year d) (Warranty.month d)). lia.
Qed.

Lemma digits_nonneg (s : string) (acc v : Z) :
  Warranty.digits acc s = Some v -> 0 <= acc -> 0 <= v.
Proof.
  revert acc. induction s as [|c s IH]; intros acc H Hacc; simpl in H.
  - injection H as <-. exact Hacc.
  - destruct ((48 <=? Z.of_nat (nat_of_ascii c)) && (Z.of_nat (nat_of_ascii c) <=? 57)) eqn:Hc;
      [|discriminate].
    apply andb_prop in Hc as [H1 H2]. apply Z.leb_le in H1, H2.
    apply (IH _ H). lia.
Qed.

Lemma parse_year_nonneg (s : string) (d : Warranty.date) :
  Warranty.parse s = Some d -> 0 <= Warranty.year d.
Proof.
  unfold Warranty.parse. destruct (decide _); [|discriminate].
  destruct (Warranty.digits 0 (String.substring 0 4 s)) as [y|] eqn:Hy; [|discriminate].
  destruct (Warranty.digits 0 (String.substring 5 2 s)) as [m|]; [|discriminate].
  destruct (Warranty.digits 0 (String.substring 8 2 s)) as [dd|]; [|discriminate].
  simpl. destruct (Warranty.validb _); [|discriminate].
  intros H. injection H as <-. simpl. eapply digits_nonneg; eauto. lia.
Qed.

(** The months counted from year 0. *)
Lemma addMonths_index (n : Z) (d : Warranty.date) :
  Warranty.validb d = true ->
  let e := Warranty.addMonths n d in
  Warranty.validb e = true /\
  1 <= Warranty.month e <= 12 /\
  12 * Warranty.year d + Warranty.month d + n
    <= 12 * Warranty.year e + Warranty.month e
    <= 12 * Warranty.year d + Warranty.month d + n + 1.
Proof.
  intros Hv. destruct (valid_bounds d Hv) as [Hm Hd].
  destruct d as [y m dd]. simpl in Hm, Hd. unfold Warranty.addMonths. simpl.
  set (m0 := m - 1 + n).
  pose proof (Z.div_mod m0 12 ltac:(lia)) as Hdm.
  pose proof (Z.mod_pos_bound m0 12 ltac:(lia)) as Hmod.
  set (y1 := y + m0 / 12) in *. set (m1 := m0 mod 12 + 1) in *.
  pose proof (daysInMonth_ge_28 y1 m1) as H28.
  pose proof (daysInMonth_le_31 y1 m1) as H31.
  destruct (Z.leb_spec dd (Warranty.daysInMonth y1 m1)) as [Hle|Hgt].
  - simpl. split; [|lia]. unfold Warranty.validb. simpl.
    repeat (apply andb_true_intro; split); apply Z.leb_le; lia.
  - destruct (Z.eqb_spec m1 12) as [H12|H12].
    + exfalso. rewrite H12 in Hgt. unfold Warranty.daysInMonth in Hgt. simpl in Hgt. lia.
    + simpl. pose proof (daysInMonth_ge_28 y1 (m1 + 1)) as H28'.
      split; [|lia]. unfold Warranty.validb. simpl.
      repeat (apply andb_true_intro; split); apply Z.leb_le; lia.
Qed.

(** Three and six months after a day of the calendar: both are days of the
    calendar, in the same year or the next, the first after the day itself
    and the second after the first. *)
Lemma addMonths_facts (d : Warranty.date) :
  Warranty.validb d = true ->
  let e3 := Warranty.addMonths 3 d in
  let e6 := Warranty.addMonths 6 d in
  Warranty.validb e3 = true /\ Warranty.validb e6 = true /\
  Warranty.year d <= Warranty.year e3 <= Warranty.year d + 1 /\
  Warranty.year d <= Warranty.year e6 <= Warranty.year d + 1 /\
  dateLt d e3 /\ dateLt e3 e6.
Proof.
  intros Hv e3 e6. destruct (valid_bounds d Hv) as [Hm _].
  destruct (addMonths_index 3 d Hv) as (V3 & M3 & I3).
  destruct (addMonths_index 6 d Hv) as (V6 & M6 & I6).
  fold e3 in V3, M3, I3. fold e6 in V6, M6, I6.
  unfold dateLt. repeat split; try assumption; lia.
Qed.

Lemma endDate_cases (d : Warranty.date) (warranty : string) :
  Warranty.endDate d warranty = Warranty.addMonths 3 d \/
  Warranty.endDate d warranty = Warranty.addMonths 6 d.
Proof.
  unfold Warranty.endDate.
  destruct (monthsOf_cases warranty) as [[_ ->]|[_ ->]]; auto.
Qed.

(** C7, as stated, fails on days that the target month does not have:
    three months after 30 November 2025 the function answers 2 March 2026,
    which is neither the 30th nor in February. *)
Lemma warranty_end_of_month_overflows :
  Warranty.parse "2025-11-30" = Some (Warranty.mkDate 2025 11 30) /\
  Warranty.calculateWarrantyEndDate "2025-11-30" "3" = Some "2026-03-02" /\
  Warranty.endDate (Warranty.mkDate 2025 11 30) "3" = Warranty.mkDate 2026 3 2 /\
  monthsLater 3 (Warranty.mkDate 2025 11 30) = Warranty.mkDate 2026 2 30 /\
  Warranty.endDate (Warranty.mkDate 2025 11 30) "3" <> monthsLater 3 (Warranty.mkDate 2025 11 30).
Proof. repeat split; try reflexivity. vm_compute. discriminate. Qed.

(** The text of the end date, for start years up to 9998: the first ten
    characters of what [toISOString] prints read back as the end date, which
    is a day of the calendar. *)
Lemma endDate_text (d : Warranty.date) (warranty : string) :
  Warranty.validb d = true -> 0 <= Warranty.year d <= 9998 ->
  let e := Warranty.endDate d warranty in
  Warranty.validb e = true /\
  String.length (Js.slice_to 10 (Warranty.toISOString e)) = 10%nat /\
  Warranty.parse (Js.slice_to 10 (Warranty.toISOString e)) = Some e.
Proof.
  intros Hv Hy e.
  destruct (addMonths_facts d Hv) as (V3 & V6 & Y3 & Y6 & _).
  assert (He : Warranty.validb e = true /\ 0 <= Warranty.year e <= 9999).
  { unfold e. destruct (endDate_cases d warranty) as [-> | ->]; split; auto; lia. }
  destruct He as [Ve Ye]. destruct (valid_bounds e Ve) as [Hm Hd].
  destruct (pad4_text (Warranty.year e) Ye) as [Ly Dy].
  destruct (pad2_text (Warranty.month e) ltac:(lia)) as [Lm Dm].
  destruct (pad2_text (Warranty.day e) ltac:(lia)) as [Ld Dd].
  assert (Hparse : Warranty.parse (Js.slice_to 10 (Warranty.toISOString e)) = Some e).
  { unfold Warranty.toISOString.
    replace ((0 <=? Warranty.year e) && (Warranty.year e <=? 9999)) with true
      by (symmetry; apply andb_true_intro; split; apply Z.leb_le; lia).
    pose proof (parse_parts _ _ _ "T00:00:00.000Z" _ _ _ Ly Lm Ld Dy Dm Dd) as H.
    destruct e as [y m dd]. cbn [Warranty.year Warranty.month Warranty.day] in *.
    apply H. exact Ve. }
  split; [exact Ve|]. split; [|exact Hparse].
  unfold Warranty.parse in Hparse.
  destruct (decide _) as [(Hlen & _)|_]; [exact Hlen | discriminate].
Qed.

(** C7, amended. The period is 6 months for the values "6" and "6 months"
    and 3 months for any other value.  For a start date up to the year 9998
    whose day of the month exists in the month that many months later (every
    day up to the 28th does), the function returns that same day in that
    month, the year advancing across December: a text of ten characters in
    date-field form that reads as that day.  (From a start in the last months
    of 9999 the end falls into the year 10000, which [toISOString] prints with
    a sign and six digits; the ten characters kept are then no date.) *)
Theorem warranty_end_date (fromDate warranty : string) (d : Warranty.date) :
  Warranty.parse fromDate = Some d ->
  Warranty.year d <= 9998 ->
  let n := Warranty.monthsOf warranty in
  let t := monthsLater n d in
  (warranty = "6" \/ warranty = "6 months" -> n = 6) /\
  (warranty <> "6" -> warranty <> "6 months" -> n = 3) /\
  (Warranty.day d <= 28 ->
   Warranty.day d <= Warranty.daysInMonth (Warranty.year t) (Warranty.month t)) /\
  (Warranty.day d <= Warranty.daysInMonth (Warranty.year t) (Warranty.month t) ->
   Warranty.endDate d warranty = t /\
   Warranty.validb t = true /\
   exists s,
     Warranty.calculateWarrantyEndDate fromDate warranty = Some s /\
     String.length s = 10%nat /\
     Warranty.parse s = Some t).
Proof.
  intros Hp Hy n t.
  pose proof (parse_valid _ _ Hp) as Hv.
  pose proof (parse_year_nonneg _ _ Hp) as Hy0.
  split; [|split; [|split]].
  - intros H. destruct (monthsOf_cases warranty) as [[_ H6]|[[H1 H2] _]]; [exact H6|].
    destruct H; contradiction.
  - intros H1 H2. destruct (monthsOf_cases warranty) as [[[H|H] _]|[_ H3]];
      [contradiction | contradiction | exact H3].
  - intros H. pose proof (daysInMonth_ge_28 (Warranty.year t) (Warranty.month t)). lia.
  - intros Hday. destruct (addMonths_cases n d Hv) as [Hin _].
    destruct (Hin Hday) as [He Hvt].
    assert (Hend : Warranty.endDate d warranty = t) by exact He.
    split; [exact Hend|]. split; [exact Hvt|].
    destruct (endDate_text d warranty Hv ltac:(lia)) as (_ & Hlen & Hparse).
    rewrite Hend in Hlen, Hparse.
    exists (Js.slice_to 10 (Warranty.toISOString t)).
    split; [|split; [exact Hlen | exact Hparse]].
    unfold Warranty.calculateWarrantyEndDate. rewrite Hp. simpl. rewrite Hend. reflexivity.
Qed.

Lemma warranty_end_date_witness :
  Warranty.endDate (Warranty.mkDate 2025 11 15) "3" = Warranty.mkDate 2026 2 15 /\
  Warranty.calculateWarrantyEndDate "2025-11-15" "3" = Some "2026-02-15" /\
  Warranty.parse "2026-02-15" = Some (Warranty.mkDate 2026 2 15).
Proof.
  destruct (warranty_end_date "2025-11-15" "3" (Warranty.mkDate 2025 11 15) eq_refl
              ltac:(simpl; lia)) as (_ & _ & H28 & Hend).
  destruct (Hend (H28 ltac:(simpl; lia))) as (He & _ & s & Hs & _ & Hparse).
  assert (Hs' : s = "2026-02-15").
  { assert (H : Warranty.calculateWarrantyEndDate "2025-11-15" "3" = Some "2026-02-15")
      by reflexivity.
    congruence. }
  subst s. split; [exact He|]. split; [exact Hs | exact Hparse].
Defined.

(** The bound on the year is needed: three months after 15 November 9999
    the function answers the first ten characters of "+010000-02-15...". *)
Example warranty_end_in_year_10000 :
  Warranty.parse "9999-11-15" = Some (Warranty.mkDate 9999 11 15) /\
  Warranty.endDate (Warranty.mkDate 9999 11 15) "3" = Warranty.mkDate 10000 2 15 /\
  Warranty.calculateWarrantyEndDate "9999-11-15" "3" = Some "+010000-02" /\
  Warranty.parse "+010000-02" = None.
Proof. repeat split; reflexivity. Qed.

(** On every day from 1970 to 2100 the carry form of [addMonths] agrees
    with the computation by day numbers, for both periods. *)
Example addMonths_agrees_with_day_numbers :
  forallb (fun d => Warranty.dateEqb (Warranty.addMonths 3 d) (Warranty.addMonthsByDays 3 d) &&
                    Warranty.dateEqb (Warranty.addMonths 6 d) (Warranty.addMonthsByDays 6 d))
          (Warranty.calendar 1970 131) = true /\
  fold_left (fun n _ => n + 1) (Warranty.calendar 1970 131) 0 = 47847.
Proof. split; vm_compute; reflexivity. Qed.

(** The dates of the specification and of the sample data. *)
Example warranty_examples :
  Warranty.calculateWarrantyEndDate "2025-11-15" "3" = Some "2026-02-15" /\
  Warranty.calculateWarrantyEndDate "2025-11-15" "6" = Some "2026-05-15" /\
  Warranty.calculateWarrantyEndDate "2025-10-24" "3" = Some "2026-01-24" /\
  Warranty.calculateWarrantyEndDate "2025-10-24" "12" = Some "2026-01-24" /\
  Warranty.calculateWarrantyEndDate "2025-08-31" "6 months" = Some "2026-03-03".
Proof. repeat split; reflexivity. Qed.

(** ** Phone lifecycle *)

Lemma updatePhoneStatusLoop_target (phoneId newStatus : string) (records : list record) :
  updatePhoneStatusLoop phoneId newStatus records
  = (fun ij => alter (fun r => with_phones (alter (setStatus newStatus) ij.2 (r_phones r)) r)
                     ij.1 records)
      <$> statusTarget phoneId records.
Proof.
  induction records as [|r rest IH]; simpl; [reflexivity|].
  destruct (if is_vendor r then Js.findIndex (has_phone_id phoneId) (r_phones r) else None)
    as [j|]; [reflexivity|].
  rewrite IH. destruct (statusTarget phoneId rest) as [[i j]|]; reflexivity.
Qed.

Lemma statusTarget_found (phoneId : string) (records : list record) (i j : nat) :
  statusTarget phoneId records = Some (i, j) ->
  exists r p, records !! i = Some r /\ is_vendor r = true /\
              r_phones r !! j = Some p /\ phone_id p = phoneId.
Proof.
  revert i. induction records as [|r rest IH]; intros i H; simpl in H; [discriminate|].
  destruct (is_vendor r) eqn:Hv.
  - destruct (Js.findIndex (has_phone_id phoneId) (r_phones r)) as [k|] eqn:Hk.
    + injection H as <- <-.
      destruct (findIndex_Some _ _ _ Hk) as (p & Hp & Fp & _).
      exists r, p. repeat split; auto. apply bool_decide_eq_true in Fp. exact Fp.
    + destruct (statusTarget phoneId rest) as [[a b]|]; [|discriminate].
      simpl in H. injection H as <- <-. apply (IH a eq_refl).
  - destruct (statusTarget phoneId rest) as [[a b]|]; [|discriminate].
    simpl in H. injection H as <- <-. apply (IH a eq_refl).
Qed.

Lemma phoneAt_alter_eq (records : list record) (i j : nat) (f : phone -> phone) :
  phoneAt i j (alter (fun r => with_phones (alter f j (r_phones r)) r) i records)
  = f <$> phoneAt i j records.
Proof.
  unfold phoneAt. rewrite list_lookup_alter_eq.
  destruct (records !! i) as [r|]; simpl; [|reflexivity].
  apply list_lookup_alter_eq.
Qed.

Lemma phoneAt_alter_ne (records : list record) (i j a b : nat) (f : phone -> phone) :
  (a, b) <> (i, j) ->
  phoneAt a b (alter (fun r => with_phones (alter f j (r_phones r)) r) i records)
  = phoneAt a b records.
Proof.
  intros Hne. unfold phoneAt.
  destruct (decide (a = i)) as [->|Ha].
  - rewrite list_lookup_alter_eq. destruct (records !! i) as [r|]; simpl; [|reflexivity].
    apply list_lookup_alter_ne. congruence.
  - rewrite list_lookup_alter_ne by congruence. reflexivity.
Qed.

(** C5, as stated, fails for [updatePhoneStatus]: it stores the status it is
    given on the phone it finds, whatever the phone's status.  A call with
    the value Billed puts the unbilled P003 into Billed without any bill, and
    a call on the billed P001 takes it back to Received. *)
Lemma updatePhoneStatus_has_no_guard :
  ((fun p => (status p, billed p, bill_id p)) <$> phoneAt 0 2 (cachedRecords Scenario.start),
   (fun p => (status p, billed p, bill_id p)) <$> phoneAt 0 2 (cachedRecords Scenario.forcedBilled))
  = (Some ("Received", false, None), Some ("Billed", false, None)) /\
  ((fun p => (status p, billed p, bill_id p)) <$> phoneAt 0 0 (cachedRecords Scenario.billed1),
   (fun p => (status p, billed p, bill_id p)) <$> phoneAt 0 0 (cachedRecords Scenario.reopened))
  = (Some ("Billed", true, Some "VND001-B001"), Some ("Received", true, Some "VND001-B001")).
Proof. split; vm_compute; reflexivity. Qed.

(** What a status call does.  [updatePhoneStatus] changes one phone, the
    first with the given id in the first vendor record that has one: its
    status becomes the given value and [completed] tells whether that value
    is Ready; id, billed flag and bill id stay, every other phone stays, and
    [saveRecords] is called once.  The function checks neither the old nor
    the new status.  A call made with a value the selector of the changed
    phone offers moves no phone into Billed and changes no phone that is
    Billed. *)
Lemma updatePhoneStatus_effect (phoneId newStatus : string) (st : app)
    (i j : nat) (p : phone) :
  statusTarget phoneId (cachedRecords st) = Some (i, j) ->
  phoneAt i j (cachedRecords st) = Some p ->
  let st' := updatePhoneStatus phoneId newStatus st in
  (exists p', phoneAt i j (cachedRecords st') = Some p' /\
     status p' = newStatus /\
     completed p' = bool_decide (newStatus = "Ready") /\
     phone_id p' = phone_id p /\ billed p' = billed p /\ bill_id p' = bill_id p) /\
  (forall a b, (a, b) <> (i, j) ->
     phoneAt a b (cachedRecords st') = phoneAt a b (cachedRecords st)) /\
  savesSince st st' = [SaveRecords (cachedRecords st')] /\
  (newStatus ∈ statusSelectOptions p ->
     status p <> "Billed" /\ newStatus <> "Billed" /\
     forall a b q, status q = "Billed" ->
       (phoneAt a b (cachedRecords st') = Some q <-> phoneAt a b (cachedRecords st) = Some q)).
Proof.
  intros Ht Hp st'.
  assert (Hst' : st' = saveRecords
            (alter (fun r => with_phones (alter (setStatus newStatus) j (r_phones r)) r)
                   i (cachedRecords st)) st).
  { subst st'. unfold updatePhoneStatus, loadRecords.
    rewrite updatePhoneStatusLoop_target, Ht. reflexivity. }
  assert (Hat : phoneAt i j (cachedRecords st') = Some (setStatus newStatus p)).
  { rewrite Hst'. simpl. rewrite phoneAt_alter_eq, Hp. reflexivity. }
  assert (Hother : forall a b, (a, b) <> (i, j) ->
            phoneAt a b (cachedRecords st') = phoneAt a b (cachedRecords st)).
  { intros a b Hne. rewrite Hst'. simpl. apply phoneAt_alter_ne. exact Hne. }
  split; [exists (setStatus newStatus p); repeat split; auto|].
  split; [exact Hother|].
  split.
  { rewrite Hst'. unfold savesSince, saveRecords, log. simpl.
    rewrite drop_app_length. reflexivity. }
  intros Hin. unfold statusSelectOptions in Hin.
  destruct (decide (status p = "Billed")) as [Hb|Hb]; [inversion Hin|].
  assert (Hnew : newStatus <> "Billed").
  { intros ->. repeat (apply elem_of_cons in Hin as [Hin|Hin]; [discriminate|]).
    inversion Hin. }
  split; [exact Hb|]. split; [exact Hnew|].
  intros a b q Hq.
  destruct (decide ((a, b) = (i, j))) as [Heq|Hne].
  - injection Heq as -> ->. rewrite Hat, Hp. split; intros [= <-].
    + simpl in Hq. contradiction.
    + contradiction.
  - rewrite (Hother a b Hne). reflexivity.
Qed.

(** The selector never offers Billed and is absent for a Billed phone. *)
Lemma statusSelectOptions_not_billed (p : phone) (s : string) :
  s ∈ statusSelectOptions p -> status p <> "Billed" /\ s <> "Billed".
Proof.
  unfold statusSelectOptions. destruct (decide (status p = "Billed")) as [Hb|Hb].
  - intros H. inversion H.
  - intros H. split; [exact Hb|]. intros ->.
    repeat (apply elem_of_cons in H as [H|H]; [discriminate|]). inversion H.
Qed.

(** When no vendor record has a phone with the id, nothing happens. *)
Lemma updatePhoneStatus_unknown (phoneId newStatus : string) (st : app) :
  statusTarget phoneId (cachedRecords st) = None ->
  updatePhoneStatus phoneId newStatus st = st.
Proof.
  intros H. unfold updatePhoneStatus, loadRecords.
  rewrite updatePhoneStatusLoop_target, H. reflexivity.
Qed.

(** ** Exactly-once billing *)

Section Disjoint.
Implicit Types (ls : list (list string)) (l : list string) (id : string).

Lemma pairwiseDisjointb_sound ls : pairwiseDisjointb ls = true -> pairwiseDisjoint ls.
Proof.
  induction ls as [|l rest IH]; simpl; [auto|].
  intros H. apply andb_prop in H as [H1 H2]. split; [|auto].
  intros id l' Hid Hl'.
  rewrite forallb_forall in H1. specialize (H1 id (proj1 (list_elem_of_In _ _) Hid)).
  rewrite forallb_forall in H1. specialize (H1 l' (proj1 (list_elem_of_In _ _) Hl')).
  apply negb_true_iff, includes_false in H1. exact H1.
Qed.

Lemma timesNamed_cons id l ls :
  timesNamed id (l :: ls) = ((if Js.includes l id then 1 else 0) + timesNamed id ls)%nat.
Proof. unfold timesNamed. simpl. destruct (Js.includes l id); reflexivity. Qed.

Lemma timesNamed_snoc id l ls :
  timesNamed id (ls ++ [l]) = (timesNamed id ls + (if Js.includes l id then 1 else 0))%nat.
Proof.
  unfold timesNamed. rewrite List.filter_app, length_app. simpl.
  destruct (Js.includes l id); reflexivity.
Qed.

Lemma timesNamed_zero id ls : (forall l, l ∈ ls -> id ∉ l) -> timesNamed id ls = 0%nat.
Proof.
  induction ls as [|l rest IH]; intros H; [reflexivity|].
  rewrite timesNamed_cons.
  assert (Hl : Js.includes l id = false) by (apply includes_false, H; left).
  rewrite Hl. simpl. apply IH. intros l' Hl'. apply H. right. exact Hl'.
Qed.

Lemma timesNamed_pos id l ls : l ∈ ls -> id ∈ l -> (1 <= timesNamed id ls)%nat.
Proof.
  induction ls as [|l0 rest IH]; intros Hl Hid; [inversion Hl|].
  rewrite timesNamed_cons. apply elem_of_cons in Hl as [->|Hl].
  - apply includes_true in Hid. rewrite Hid. lia.
  - specialize (IH Hl Hid). lia.
Qed.

Lemma timesNamed_le_1 id ls : pairwiseDisjoint ls -> (timesNamed id ls <= 1)%nat.
Proof.
  induction ls as [|l rest IH]; intros H; [unfold timesNamed; simpl; lia|].
  destruct H as [Hl Hrest]. rewrite timesNamed_cons.
  destruct (Js.includes l id) eqn:Hin.
  - apply includes_true in Hin.
    rewrite (timesNamed_zero id rest); [lia|].
    intros l' Hl'. eapply Hl; eauto.
  - specialize (IH Hrest). lia.
Qed.

Lemma pairwiseDisjoint_snoc ls lnew :
  pairwiseDisjoint ls ->
  (forall l id, l ∈ ls -> id ∈ l -> id ∉ lnew) ->
  pairwiseDisjoint (ls ++ [lnew]).
Proof.
  induction ls as [|l rest IH]; intros H Hnew; simpl.
  - split; [|exact I]. intros id l' _ Hl'. inversion Hl'.
  - destruct H as [Hl Hrest]. split.
    + intros id l' Hid Hl'. apply elem_of_app in Hl' as [Hl'|Hl'].
      * eapply Hl; eauto.
      * apply list_elem_of_singleton in Hl'. subst l'. apply (Hnew l id); [left|exact Hid].
    + apply IH; [exact Hrest|]. intros l' id Hl' Hid. apply (Hnew l' id); [right; exact Hl'|exact Hid].
Qed.

(** Read by positions: two different bills share no phone id. *)
Lemma pairwiseDisjoint_lookup ls (a b : nat) (x y : list string) id :
  pairwiseDisjoint ls -> a <> b -> ls !! a = Some x -> ls !! b = Some y ->
  id ∈ x -> id ∉ y.
Proof.
  revert a b. induction ls as [|l rest IH]; intros a b H Hab Ha Hb Hx; [discriminate|].
  destruct H as [Hl Hrest].
  destruct a as [|a], b as [|b]; simpl in Ha, Hb.
  - congruence.
  - injection Ha as ->. apply (Hl id y Hx). eapply list_elem_of_lookup_2; eauto.
  - injection Hb as ->. intros Hy. apply (Hl id x Hy); [|exact Hx].
    eapply list_elem_of_lookup_2; eauto.
  - apply (IH a b Hrest); auto.
Qed.
End Disjoint.

Lemma billsNaming_timesNamed (id : string) (r : record) :
  length (billsNaming id r) = timesNamed id (vb_phone_ids <$> billsOf r).
Proof.
  unfold billsNaming, timesNamed. induction (billsOf r) as [|b bs IH]; simpl; [reflexivity|].
  destruct (Js.includes (vb_phone_ids b) id); simpl; rewrite IH; reflexivity.
Qed.

Lemma billedOnceb_sound (r : record) : billedOnceb r = true -> billedOnce r.
Proof.
  unfold billedOnceb, billedOnce. intros H. apply andb_prop in H as [H1 H2].
  split; [apply pairwiseDisjointb_sound; exact H1|].
  intros p Hp. rewrite forallb_forall in H2.
  specialize (H2 p (proj1 (list_elem_of_In _ _) Hp)).
  apply eqb_prop in H2. rewrite H2, billsNaming_timesNamed. apply Nat.eqb_eq.
Qed.

Lemma offeredb_sound (vendor : record) (ids : list string) (id : string) :
  offeredb vendor ids = true -> id ∈ ids ->
  (exists p, p ∈ r_phones vendor /\ phone_id p = id) /\
  (forall p, p ∈ r_phones vendor -> phone_id p = id -> billed p = false).
Proof.
  unfold offeredb. intros H Hid. rewrite forallb_forall in H.
  specialize (H id (proj1 (list_elem_of_In _ _) Hid)).
  apply andb_prop in H as [H1 H2]. split.
  - apply existsb_exists in H1 as (p & Hp & Hpid).
    exists p. split; [apply list_elem_of_In; exact Hp|].
    apply bool_decide_eq_true in Hpid. exact Hpid.
  - intros p Hp Hpid. rewrite forallb_forall in H2.
    specialize (H2 p (proj1 (list_elem_of_In _ _) Hp)).
    unfold has_phone_id in H2. rewrite bool_decide_eq_true_2 in H2 by exact Hpid.
    simpl in H2. apply negb_true_iff in H2. exact H2.
Qed.

(** A creation whose selection names unbilled phones of the vendor keeps the
    vendor billed-once. *)
Lemma billedOnce_create (vendor : record) (ids : list string) (billId : string)
    (newBill : vendorBill) :
  billedOnce vendor ->
  offeredb vendor ids = true ->
  vb_phone_ids newBill = ids ->
  billedOnce (with_phones (markBilled ids billId <$> r_phones vendor)
                          (with_bills (billsOf vendor ++ [newBill]) vendor)).
Proof.
  intros [Hd Hb] Hoff Hids. unfold billedOnce, billsOf. simpl.
  fold (billsOf vendor). rewrite fmap_app. simpl. rewrite Hids.
  set (ls := vb_phone_ids <$> billsOf vendor) in *.
  assert (Hfresh : forall id, id ∈ ids -> timesNamed id ls = 0%nat).
  { intros id Hid. destruct (offeredb_sound vendor ids id Hoff Hid) as [(p & Hp & Hpid) Hun].
    specialize (Hun p Hp Hpid). pose proof (Hb p Hp) as Hiff. rewrite Hpid in Hiff.
    pose proof (timesNamed_le_1 id ls Hd).
    destruct (timesNamed id ls) as [|[|n]]; [reflexivity| |lia].
    rewrite Hun in Hiff. destruct Hiff as [_ Hiff]. specialize (Hiff eq_refl). discriminate. }
  split.
  - apply pairwiseDisjoint_snoc; [exact Hd|].
    intros l id Hl Hid Hin. pose proof (timesNamed_pos id l ls Hl Hid).
    rewrite (Hfresh id Hin) in H. lia.
  - intros p' Hp'. apply list_elem_of_fmap in Hp' as (p & -> & Hp).
    rewrite markBilled_id, timesNamed_snoc. unfold markBilled.
    destruct (Js.includes ids (phone_id p)) eqn:Hin; simpl.
    + apply includes_true in Hin. rewrite (Hfresh _ Hin). split; reflexivity.
    + rewrite Nat.add_0_r. apply Hb. exact Hp.
Qed.

(** Replacing the items and totals of a bill keeps the vendor billed-once. *)
Lemma billedOnce_edit (vendor : record) (k : nat) items subtotal tax grandTotal now :
  billedOnce vendor ->
  billedOnce (with_bills (alter (replaceItems items subtotal tax grandTotal now) k
                                (billsOf vendor)) vendor).
Proof.
  intros H. unfold billedOnce, billsOf in *. simpl.
  rewrite (list_fmap_alter vb_phone_ids _ id) by (apply Forall_true; intros b; reflexivity).
  rewrite list_alter_id by reflexivity. exact H.
Qed.

(** A status change keeps the vendor billed-once. *)
Lemma billedOnce_status (r : record) (j : nat) (newStatus : string) :
  billedOnce r ->
  billedOnce (with_phones (alter (setStatus newStatus) j (r_phones r)) r).
Proof.
  intros [Hd Hb]. unfold billedOnce, billsOf in *. simpl. split; [exact Hd|].
  intros p' Hp'. apply list_elem_of_lookup in Hp' as (a & Ha).
  destruct (decide (a = j)) as [->|Hne].
  - rewrite list_lookup_alter_eq in Ha.
    destruct (r_phones r !! j) as [p|] eqn:Hp; [|discriminate].
    simpl in Ha. injection Ha as <-. simpl. apply Hb. eapply list_elem_of_lookup_2; eauto.
  - rewrite list_lookup_alter_ne in Ha by congruence.
    apply Hb. eapply list_elem_of_lookup_2; eauto.
Qed.

(** A new phone whose id no bill names keeps the vendor billed-once. *)
Lemma billedOnce_addPhone (vendor : record) (vendorId : string) (f : AddPhone.form) :
  billedOnce vendor ->
  unnamedb (nextPhoneId vendorId vendor) vendor = true ->
  billedOnce (with_phones (r_phones vendor ++
                           [AddPhone.newPhone (nextPhoneId vendorId vendor) f]) vendor).
Proof.
  intros [Hd Hb] Hun. unfold billedOnce, billsOf in *. simpl. split; [exact Hd|].
  intros p Hp. apply elem_of_app in Hp as [Hp|Hp]; [apply Hb; exact Hp|].
  apply list_elem_of_singleton in Hp. subst p. simpl.
  rewrite timesNamed_zero; [split; discriminate|].
  intros l Hl. apply list_elem_of_fmap in Hl as (b & -> & Hbin).
  unfold unnamedb in Hun. rewrite forallb_forall in Hun.
  specialize (Hun b (proj1 (list_elem_of_In _ _) Hbin)).
  apply negb_true_iff, includes_false in Hun. exact Hun.
Qed.

Lemma perform_keeps_billedOnce (a : action) (st : app) :
  permitted a st = true ->
  Forall billedOnce (cachedRecords st) ->
  Forall billedOnce (cachedRecords (perform a st)).
Proof.
  intros Hadm Hinv.
  destruct a as [now pg vendorId isPartial|phoneId newStatus|vendorId billId
                |vendorId checked|vendorId f];
    simpl in *.
  - (* saveVendorBill *)
    destruct (Js.findIndex (has_vendor_id vendorId) (cachedRecords st)) as [i|] eqn:Hi;
      [|rewrite saveVendorBill_no_vendor by exact Hi; exact Hinv].
    destruct (findIndex_Some _ _ _ Hi) as (vendor & Hv & _).
    rewrite Hv in Hadm.
    assert (Hvinv : billedOnce vendor).
    { rewrite Forall_lookup in Hinv. eapply Hinv; eauto. }
    destruct (selectedIdsOf pg vendor) as [|id0 ids0] eqn:Hsel.
    { rewrite (saveVendorBill_empty now pg vendorId isPartial st i vendor Hi Hv Hsel). exact Hinv. }
    assert (Hne : selectedIdsOf pg vendor <> []) by (rewrite Hsel; discriminate).
    destruct (editTarget st (billsOf vendor)) as [k|] eqn:Ht.
    + unfold editTarget in Ht.
      destruct (editingBillId st) as [billId|] eqn:He; [|discriminate]. simpl in Ht.
      rewrite (saveVendorBill_edit now pg vendorId isPartial st i vendor Hi Hv billId k Hne He Ht).
      simpl. apply Forall_insert; [exact Hinv|]. apply billedOnce_edit. exact Hvinv.
    + rewrite (saveVendorBill_create now pg vendorId isPartial st i vendor Hi Hv Hne Ht).
      unfold createBill. simpl. apply Forall_insert; [exact Hinv|].
      apply billedOnce_create; [exact Hvinv | rewrite Hsel; exact Hadm | reflexivity].
  - (* updatePhoneStatus *)
    unfold updatePhoneStatus, loadRecords. rewrite updatePhoneStatusLoop_target.
    destruct (statusTarget phoneId (cachedRecords st)) as [[i j]|]; simpl; [|exact Hinv].
    apply Forall_alter; [exact Hinv|]. intros r _ Hr. apply billedOnce_status. exact Hr.
  - (* editVendorBill *)
    unfold editVendorBill.
    destruct (Js.find _ _) as [vendor|]; [|exact Hinv].
    destruct (r_bills vendor) as [bills|]; [|exact Hinv].
    destruct (Js.find _ bills); exact Hinv.
  - (* createBillForCheckedPhones *)
    unfold createBillForCheckedPhones.
    destruct (Js.findIndex _ _); [|exact Hinv]. destruct checked; exact Hinv.
  - (* add phone *)
    unfold AddPhone.submit, loadRecords.
    destruct (Js.findIndex (has_vendor_id vendorId) (cachedRecords st)) as [i|] eqn:Hi;
      [|exact Hinv].
    destruct (cachedRecords st !! i) as [vendor|] eqn:Hv; [|exact Hinv].
    simpl. apply Forall_insert; [exact Hinv|].
    apply billedOnce_addPhone; [|exact Hadm].
    rewrite Forall_lookup in Hinv. eapply Hinv; eauto.
Qed.

Lemma runPermitted_keeps_billedOnce (actions : list action) (st st' : app) :
  runPermitted actions st = Some st' ->
  Forall billedOnce (cachedRecords st) ->
  Forall billedOnce (cachedRecords st').
Proof.
  revert st. induction actions as [|a rest IH]; intros st Hrun Hinv; simpl in Hrun.
  - injection Hrun as <-. exact Hinv.
  - destruct (permitted a st) eqn:Hadm; [|discriminate].
    apply (IH _ Hrun). apply perform_keeps_billedOnce; assumption.
Qed.

(** C1, as stated, fails: [saveVendorBill] does not look at the billed flag
    of the phones it is given.  Two creations with the same selection put
    P001 into two bills. *)
Lemma same_phone_in_two_bills :
  ((fun v => vb_phone_ids <$> billsOf v) <$> Scenario.vendorAfter Scenario.billed2)
  = Some [["VND001-P001"; "VND001-P002"]; ["VND001-P001"; "VND001-P002"]] /\
  ((fun v => (fun p => (phone_id p, billed p, length (billsNaming (phone_id p) v)))
               <$> r_phones v) <$> Scenario.vendorAfter Scenario.billed2)
  = Some [("VND001-P001", true, 2%nat); ("VND001-P002", true, 2%nat);
          ("VND001-P003", false, 0%nat)] /\
  (storeBilledOnce Scenario.start, storeBilledOnce Scenario.billed2) = (true, false).
Proof. repeat split; vm_compute; reflexivity. Qed.

(** C1, amended.  Start from a store in which the bills of every vendor are
    disjoint and a phone is billed exactly when one bill names it, and make
    any sequence of saves, phone additions, status changes, edits and
    selections in which every creating save works with ids of phones of its
    vendor that are unbilled at that time (and no bill names the id a new
    phone gets).  Then, in every record of the resulting store, no phone id
    is in two bills and a phone is billed if and only if exactly one bill
    names it. *)
Theorem billed_exactly_once (actions : list action) (st st' : app) :
  storeBilledOnce st = true ->
  runPermitted actions st = Some st' ->
  forall vendor, vendor ∈ cachedRecords st' ->
    (forall a b x y id, a <> b ->
       billsOf vendor !! a = Some x -> billsOf vendor !! b = Some y ->
       id ∈ vb_phone_ids x -> id ∉ vb_phone_ids y) /\
    (forall p, p ∈ r_phones vendor ->
       (billed p = true <-> length (billsNaming (phone_id p) vendor) = 1%nat)).
Proof.
  intros Hstart Hrun vendor Hvendor.
  assert (Hinv : Forall billedOnce (cachedRecords st)).
  { apply Forall_forall. intros r Hr. apply billedOnceb_sound.
    unfold storeBilledOnce in Hstart. rewrite forallb_forall in Hstart.
    apply Hstart, list_elem_of_In, Hr. }
  pose proof (runPermitted_keeps_billedOnce actions st st' Hrun Hinv) as Hend.
  rewrite Forall_forall in Hend. destruct (Hend vendor Hvendor) as [Hd Hb].
  split.
  - intros a b x y id Hab Ha Hb' Hx.
    apply (pairwiseDisjoint_lookup (vb_phone_ids <$> billsOf vendor) a b
             (vb_phone_ids x) (vb_phone_ids y) id); auto.
    + rewrite list_lookup_fmap, Ha. reflexivity.
    + rewrite list_lookup_fmap, Hb'. reflexivity.
  - intros p Hp. rewrite billsNaming_timesNamed. apply Hb. exact Hp.
Qed.

Lemma billed_exactly_once_witness :
  (forall a b x y id, a <> b ->
     billsOf Scenario.vendorFinished !! a = Some x ->
     billsOf Scenario.vendorFinished !! b = Some y ->
     id ∈ vb_phone_ids x -> id ∉ vb_phone_ids y) /\
  (forall p, p ∈ r_phones Scenario.vendorFinished ->
     (billed p = true <-> length (billsNaming (phone_id p) Scenario.vendorFinished) = 1%nat)).
Proof.
  apply (billed_exactly_once Scenario.actions Scenario.start Scenario.finished
           eq_refl eq_refl Scenario.vendorFinished).
  apply list_elem_of_lookup. exists 0%nat. reflexivity.
Defined.

(** The run of the scenario ends with two bills, three billed phones and
    the added fourth phone; a second save of the first page is not
    permitted. *)
Example scenario_run :
  ((fun v => (vb_phone_ids <$> billsOf v, (fun p => (status p, billed p, bill_id p)) <$> r_phones v))
     <$> Scenario.vendorAfter Scenario.finished)
  = Some ([["VND001-P001"; "VND001-P002"]; ["VND001-P003"]],
          [("Billed", true, Some "VND001-B001"); ("Billed", true, Some "VND001-B001");
           ("Billed", true, Some "VND001-B002"); ("Received", false, None)]) /\
  runPermitted [Save Sample.now Scenario.page "VND001" true;
               Save Sample.now Scenario.page "VND001" true] Scenario.start = None.
Proof. split; vm_compute; reflexivity. Qed.

(** The two sample records of the source form a store of that kind. *)
Example sampleData_billed_once : storeBilledOnce (Sample.appOf sampleData) = true.
Proof. vm_compute. reflexivity. Qed.

(** ** Phone ids of the add-phone handler are never reused *)

Lemma generatePhoneID_inj (vendorId : string) (a b : Z) :
  0 <= a -> 0 <= b -> generatePhoneID vendorId a = generatePhoneID vendorId b -> a = b.
Proof.
  intros Ha Hb H. unfold generatePhoneID in H.
  apply append_inj_l in H. apply (append_inj_l "-P") in H.
  eapply padStart0_injective; eauto.
Qed.

(** In a record whose phone ids were generated in order and whose bills
    name its own phones, no bill names the id of the next phone. *)
Lemma nextPhoneId_unnamed (vendor : record) (vendorId : string) :
  generated vendor -> r_vendor_id vendor = Some vendorId ->
  unnamedb (nextPhoneId vendorId vendor) vendor = true.
Proof.
  intros [Hord Hown] Hid. unfold unnamedb. apply forallb_forall. intros b Hb.
  apply negb_true_iff, includes_false. intros Hin.
  apply list_elem_of_In in Hb.
  destruct (Hown b _ Hb Hin) as (p & Hp & Hpid).
  apply list_elem_of_lookup in Hp as (j & Hj).
  destruct (Hord j p Hj) as (vid & Hvid & Hgen).
  rewrite Hid in Hvid. injection Hvid as <-.
  unfold nextPhoneId in Hpid. rewrite Hgen in Hpid.
  apply generatePhoneID_inj in Hpid; [|lia|lia].
  apply lookup_lt_Some in Hj. lia.
Qed.

Lemma addPhone_permitted (vendorId : string) (f : AddPhone.form) (st : app) :
  Forall generated (cachedRecords st) -> permitted (AddPhone vendorId f) st = true.
Proof.
  intros Hgen. simpl.
  destruct (Js.findIndex (has_vendor_id vendorId) (cachedRecords st)) as [i|] eqn:Hi;
    [|reflexivity].
  destruct (findIndex_Some _ _ _ Hi) as (vendor & Hv & Hid & _). rewrite Hv.
  apply bool_decide_eq_true in Hid.
  apply nextPhoneId_unnamed; [|exact Hid].
  rewrite Forall_lookup in Hgen. eapply Hgen; eauto.
Qed.

Lemma generated_create (vendor : record) (ids : list string) (billId : string)
    (newBill : vendorBill) :
  generated vendor -> offeredb vendor ids = true -> vb_phone_ids newBill = ids ->
  generated (with_phones (markBilled ids billId <$> r_phones vendor)
                         (with_bills (billsOf vendor ++ [newBill]) vendor)).
Proof.
  intros [Hord Hown] Hoff Hids. split.
  - intros j p' Hj. simpl in Hj. rewrite list_lookup_fmap in Hj.
    destruct (r_phones vendor !! j) as [p|] eqn:Hp; [|discriminate].
    simpl in Hj. injection Hj as <-. rewrite markBilled_id. apply (Hord j p Hp).
  - intros b id Hb Hin. unfold billsOf in Hb. simpl in Hb.
    assert (Hkeep : forall p, p ∈ r_phones vendor -> phone_id p = id ->
              exists p', p' ∈ r_phones (with_phones (markBilled ids billId <$> r_phones vendor)
                                          (with_bills (billsOf vendor ++ [newBill]) vendor))
                         /\ phone_id p' = id).
    { intros p Hp Hpid. exists (markBilled ids billId p). simpl. split.
      - apply list_elem_of_fmap. exists p. auto.
      - rewrite markBilled_id. exact Hpid. }
    apply elem_of_app in Hb as [Hb|Hb].
    + destruct (Hown b id Hb Hin) as (p & Hp & Hpid). eauto.
    + apply list_elem_of_singleton in Hb. subst b. rewrite Hids in Hin.
      destruct (offeredb_sound vendor ids id Hoff Hin) as [(p & Hp & Hpid) _]. eauto.
Qed.

Lemma generated_edit (vendor : record) (k : nat) items subtotal tax grandTotal now :
  generated vendor ->
  generated (with_bills (alter (replaceItems items subtotal tax grandTotal now) k
                               (billsOf vendor)) vendor).
Proof.
  intros [Hord Hown]. split; [exact Hord|].
  intros b id Hb Hin. change (billsOf (with_bills ?l ?v)) with l in Hb.
  apply list_elem_of_lookup in Hb as (a & Ha).
  destruct (decide (a = k)) as [->|Hne].
  - rewrite list_lookup_alter_eq in Ha.
    destruct (billsOf vendor !! k) as [b0|] eqn:Hb0; [|discriminate].
    simpl in Ha. injection Ha as <-. simpl in Hin.
    apply (Hown b0 id); [eapply list_elem_of_lookup_2; eauto | exact Hin].
  - rewrite list_lookup_alter_ne in Ha by congruence.
    apply (Hown b id); [eapply list_elem_of_lookup_2; eauto | exact Hin].
Qed.

Lemma generated_status (r : record) (j : nat) (newStatus : string) :
  generated r -> generated (with_phones (alter (setStatus newStatus) j (r_phones r)) r).
Proof.
  intros [Hord Hown]. split.
  - intros a p' Ha. simpl in Ha. destruct (decide (a = j)) as [->|Hne].
    + rewrite list_lookup_alter_eq in Ha.
      destruct (r_phones r !! j) as [p|] eqn:Hp; [|discriminate].
      simpl in Ha. injection Ha as <-. simpl. apply (Hord j p Hp).
    + rewrite list_lookup_alter_ne in Ha by congruence. apply (Hord a p' Ha).
  - intros b id Hb Hin. destruct (Hown b id Hb Hin) as (p & Hp & Hpid).
    apply list_elem_of_lookup in Hp as (a & Ha). simpl.
    destruct (decide (a = j)) as [->|Hne].
    + exists (setStatus newStatus p). split; [|exact Hpid].
      apply list_elem_of_lookup. exists j. rewrite list_lookup_alter_eq, Ha. reflexivity.
    + exists p. split; [|exact Hpid].
      apply list_elem_of_lookup. exists a. rewrite list_lookup_alter_ne by congruence. exact Ha.
Qed.

Lemma generated_addPhone (vendor : record) (vendorId : string) (f : AddPhone.form) :
  generated vendor -> r_vendor_id vendor = Some vendorId ->
  generated (with_phones (r_phones vendor ++
                          [AddPhone.newPhone (nextPhoneId vendorId vendor) f]) vendor).
Proof.
  intros [Hord Hown] Hid. split.
  - intros j p. simpl. intros Hj.
    destruct (decide (j < length (r_phones vendor))%nat) as [Hlt|Hge].
    + rewrite lookup_app_l in Hj by exact Hlt. apply (Hord j p Hj).
    + rewrite lookup_app_r in Hj by lia.
      destruct (j - length (r_phones vendor))%nat as [|n] eqn:Hn; simpl in Hj; [|discriminate].
      injection Hj as <-. exists vendorId. split; [exact Hid|]. simpl.
      unfold nextPhoneId. f_equal. lia.
  - intros b id Hb Hin. destruct (Hown b id Hb Hin) as (p & Hp & Hpid).
    exists p. split; [|exact Hpid]. simpl. apply elem_of_app. left. exact Hp.
Qed.

(** Every permitted call keeps the store generated, so that adding a phone
    stays permitted throughout a run that starts from such a store. *)
Lemma perform_keeps_generated (a : action) (st : app) :
  permitted a st = true ->
  Forall generated (cachedRecords st) ->
  Forall generated (cachedRecords (perform a st)).
Proof.
  intros Hadm Hinv.
  destruct a as [now pg vendorId isPartial|phoneId newStatus|vendorId billId
                |vendorId checked|vendorId f];
    simpl in *.
  - destruct (Js.findIndex (has_vendor_id vendorId) (cachedRecords st)) as [i|] eqn:Hi;
      [|rewrite saveVendorBill_no_vendor by exact Hi; exact Hinv].
    destruct (findIndex_Some _ _ _ Hi) as (vendor & Hv & _).
    rewrite Hv in Hadm.
    assert (Hvinv : generated vendor).
    { rewrite Forall_lookup in Hinv. eapply Hinv; eauto. }
    destruct (selectedIdsOf pg vendor) as [|id0 ids0] eqn:Hsel.
    { rewrite (saveVendorBill_empty now pg vendorId isPartial st i vendor Hi Hv Hsel). exact Hinv. }
    assert (Hne : selectedIdsOf pg vendor <> []) by (rewrite Hsel; discriminate).
    destruct (editTarget st (billsOf vendor)) as [k|] eqn:Ht.
    + unfold editTarget in Ht.
      destruct (editingBillId st) as [billId|] eqn:He; [|discriminate]. simpl in Ht.
      rewrite (saveVendorBill_edit now pg vendorId isPartial st i vendor Hi Hv billId k Hne He Ht).
      simpl. apply Forall_insert; [exact Hinv|]. apply generated_edit. exact Hvinv.
    + rewrite (saveVendorBill_create now pg vendorId isPartial st i vendor Hi Hv Hne Ht).
      unfold createBill. simpl. apply Forall_insert; [exact Hinv|].
      apply generated_create; [exact Hvinv | rewrite Hsel; exact Hadm | reflexivity].
  - unfold updatePhoneStatus, loadRecords. rewrite updatePhoneStatusLoop_target.
    destruct (statusTarget phoneId (cachedRecords st)) as [[i j]|]; simpl; [|exact Hinv].
    apply Forall_alter; [exact Hinv|]. intros r _ Hr. apply generated_status. exact Hr.
  - unfold editVendorBill.
    destruct (Js.find _ _) as [vendor|]; [|exact Hinv].
    destruct (r_bills vendor) as [bills|]; [|exact Hinv].
    destruct (Js.find _ bills); exact Hinv.
  - unfold createBillForCheckedPhones.
    destruct (Js.findIndex _ _); [|exact Hinv]. destruct checked; exact Hinv.
  - unfold AddPhone.submit, loadRecords.
    destruct (Js.findIndex (has_vendor_id vendorId) (cachedRecords st)) as [i|] eqn:Hi;
      [|exact Hinv].
    destruct (findIndex_Some _ _ _ Hi) as (vendor & Hv & Hid & _). rewrite Hv.
    apply bool_decide_eq_true in Hid.
    simpl. apply Forall_insert; [exact Hinv|].
    apply generated_addPhone; [|exact Hid].
    rewrite Forall_lookup in Hinv. eapply Hinv; eauto.
Qed.

(** The records of the sample data are generated in that sense. *)
Example sampleVendor_generated : generated sampleVendorRecord.
Proof.
  split.
  - intros j p Hj. exists "VND001". split; [reflexivity|].
    do 5 (destruct j as [|j]; [injection Hj as <-; reflexivity|]). discriminate.
  - intros b id Hb Hin. apply list_elem_of_singleton in Hb. subst b. simpl in Hin.
    apply elem_of_cons in Hin as [->|Hin].
    + eexists. split; [apply list_elem_of_lookup; exists 0%nat; reflexivity | reflexivity].
    + apply list_elem_of_singleton in Hin. subst id.
      eexists. split; [apply list_elem_of_lookup; exists 1%nat; reflexivity | reflexivity].
Qed.

(** ** Billed is entered by bill creation only *)

Lemma phoneAt_insert (records : list record) (i0 : nat) (r : record) (i j : nat) :
  (i0 < length records)%nat ->
  phoneAt i j (<[i0 := r]> records)
  = if decide (i = i0) then r_phones r !! j else phoneAt i j records.
Proof.
  intros Hlt. unfold phoneAt. destruct (decide (i = i0)) as [->|Hne].
  - rewrite list_lookup_insert_eq by exact Hlt. reflexivity.
  - rewrite list_lookup_insert_ne by congruence. reflexivity.
Qed.

Lemma viewAllows_status (phoneId newStatus : string) (st : app) (i j : nat) :
  viewAllows (SetStatus phoneId newStatus) st = true ->
  statusTarget phoneId (cachedRecords st) = Some (i, j) ->
  exists p, phoneAt i j (cachedRecords st) = Some p /\
            status p <> "Billed" /\ newStatus <> "Billed".
Proof.
  intros Hview Ht. simpl in Hview. rewrite Ht in Hview.
  destruct (statusTarget_found _ _ _ _ Ht) as (r & p & Hr & _ & Hp & _).
  assert (Hat : phoneAt i j (cachedRecords st) = Some p).
  { unfold phoneAt. rewrite Hr. exact Hp. }
  rewrite Hat in Hview. apply bool_decide_eq_true in Hview.
  exists p. split; [exact Hat|]. apply statusSelectOptions_not_billed. exact Hview.
Qed.

(** C5, amended.  Take any call the view can make, a status call being one
    whose value the status selector of the phone it changes offers (the
    selector exists only for a phone that is not Billed, and offers
    Received, In Repair and Ready).  Then a phone whose status is Billed has
    status Billed after the call, and a phone whose status is Billed after
    the call was Billed before, unless the call is a save that creates a
    bill for its vendor with a selection that contains the phone's id. *)
Theorem billed_only_by_creation (a : action) (st : app) :
  viewAllows a st = true ->
  (forall i j q, phoneAt i j (cachedRecords st) = Some q -> status q = "Billed" ->
     exists q', phoneAt i j (cachedRecords (perform a st)) = Some q' /\ status q' = "Billed") /\
  (forall i j q', phoneAt i j (cachedRecords (perform a st)) = Some q' -> status q' = "Billed" ->
     (exists q, phoneAt i j (cachedRecords st) = Some q /\ status q = "Billed") \/
     createsBillNaming a st i (phone_id q')).
Proof.
  intros Hview.
  assert (Hsame : cachedRecords (perform a st) = cachedRecords st ->
    (forall i j q, phoneAt i j (cachedRecords st) = Some q -> status q = "Billed" ->
       exists q', phoneAt i j (cachedRecords (perform a st)) = Some q' /\ status q' = "Billed") /\
    (forall i j q', phoneAt i j (cachedRecords (perform a st)) = Some q' -> status q' = "Billed" ->
       (exists q, phoneAt i j (cachedRecords st) = Some q /\ status q = "Billed") \/
       createsBillNaming a st i (phone_id q'))).
  { intros ->. split; [intros i j q Hq Hs; eauto | intros i j q Hq Hs; left; eauto]. }
  destruct a as [now pg vendorId isPartial|phoneId newStatus|vendorId billId
                |vendorId checked|vendorId f].
  - (* saveVendorBill *)
    simpl perform in *.
    destruct (Js.findIndex (has_vendor_id vendorId) (cachedRecords st)) as [i0|] eqn:Hi;
      [|apply Hsame; rewrite saveVendorBill_no_vendor by exact Hi; reflexivity].
    destruct (findIndex_Some _ _ _ Hi) as (vendor & Hv & _).
    assert (Hlt : (i0 < length (cachedRecords st))%nat) by (eapply lookup_lt_Some; eauto).
    destruct (selectedIdsOf pg vendor) as [|id0 ids0] eqn:Hsel.
    { apply Hsame.
      rewrite (saveVendorBill_empty now pg vendorId isPartial st i0 vendor Hi Hv Hsel).
      reflexivity. }
    assert (Hne : selectedIdsOf pg vendor <> []) by (rewrite Hsel; discriminate).
    destruct (editTarget st (billsOf vendor)) as [k|] eqn:Ht.
    + assert (Hedit := Ht). unfold editTarget in Hedit.
      destruct (editingBillId st) as [billId|] eqn:He; [|discriminate]. simpl in Hedit.
      rewrite (saveVendorBill_edit now pg vendorId isPartial st i0 vendor Hi Hv billId k Hne He Hedit).
      simpl. clear Hsame.
      assert (Hat : forall i j,
                phoneAt i j (<[i0 := with_bills
                   (alter (replaceItems (collectItem <$> Form.rows pg) (Form.subtotalText pg)
                             (Form.taxAmountText pg) (Form.grandTotalText pg) now) k
                          (default [] (r_bills vendor))) vendor]> (cachedRecords st))
                = phoneAt i j (cachedRecords st)).
      { intros i j. rewrite phoneAt_insert by exact Hlt.
        destruct (decide (i = i0)) as [->|_]; [|reflexivity].
        unfold phoneAt. rewrite Hv. reflexivity. }
      split; [intros i j q Hq Hs; rewrite Hat; eauto
             |intros i j q Hq Hs; rewrite Hat in Hq; left; eauto].
    + rewrite (saveVendorBill_create now pg vendorId isPartial st i0 vendor Hi Hv Hne Ht).
      unfold createBill. simpl. clear Hsame.
      set (ids := selectedIdsOf pg vendor) in *.
      set (billId := generateBillID vendorId _).
      split.
      * intros i j q Hq Hs. rewrite phoneAt_insert by exact Hlt.
        destruct (decide (i = i0)) as [->|_]; [|eauto].
        unfold phoneAt in Hq. rewrite Hv in Hq. simpl in Hq.
        exists (markBilled ids billId q). simpl. rewrite list_lookup_fmap, Hq.
        split; [reflexivity|]. unfold markBilled.
        destruct (Js.includes ids (phone_id q)); [reflexivity | exact Hs].
      * intros i j q' Hq' Hs. rewrite phoneAt_insert in Hq' by exact Hlt.
        destruct (decide (i = i0)) as [->|_]; [|left; eauto].
        simpl in Hq'. rewrite list_lookup_fmap in Hq'.
        destruct (r_phones vendor !! j) as [q|] eqn:Hq; [|discriminate].
        simpl in Hq'. injection Hq' as <-.
        destruct (Js.includes ids (phone_id q)) eqn:Hin.
        -- right. exists now, pg, vendorId, isPartial, vendor.
           rewrite markBilled_id. apply includes_true in Hin. auto.
        -- left. exists q. unfold phoneAt. rewrite Hv. simpl. split; [exact Hq|].
           unfold markBilled in Hs. rewrite Hin in Hs. exact Hs.
  - (* updatePhoneStatus *)
    simpl perform in *.
    destruct (statusTarget phoneId (cachedRecords st)) as [[i0 j0]|] eqn:Ht;
      [|apply Hsame; rewrite updatePhoneStatus_unknown by exact Ht; reflexivity].
    clear Hsame.
    destruct (viewAllows_status _ _ _ _ _ Hview Ht) as (p & Hp & Hold & Hnew).
    assert (Hrec : cachedRecords (updatePhoneStatus phoneId newStatus st)
                   = alter (fun r => with_phones (alter (setStatus newStatus) j0 (r_phones r)) r)
                           i0 (cachedRecords st)).
    { unfold updatePhoneStatus, loadRecords. rewrite updatePhoneStatusLoop_target, Ht. reflexivity. }
    rewrite Hrec. split.
    + intros i j q Hq Hs.
      assert (Hne : (i, j) <> (i0, j0)) by (intros [= -> ->]; congruence).
      rewrite phoneAt_alter_ne by exact Hne. eauto.
    + intros i j q' Hq' Hs. left.
      destruct (decide ((i, j) = (i0, j0))) as [[= -> ->]|Hne].
      * rewrite phoneAt_alter_eq, Hp in Hq'. simpl in Hq'. injection Hq' as <-.
        simpl in Hs. contradiction.
      * rewrite phoneAt_alter_ne in Hq' by exact Hne. eauto.
  - (* editVendorBill *)
    apply Hsame. simpl. unfold editVendorBill.
    destruct (Js.find _ _) as [vendor|]; [|reflexivity].
    destruct (r_bills vendor) as [bills|]; [|reflexivity].
    destruct (Js.find _ bills); reflexivity.
  - (* createBillForCheckedPhones *)
    apply Hsame. simpl. unfold createBillForCheckedPhones.
    destruct (Js.findIndex _ _); [|reflexivity]. destruct checked; reflexivity.
  - (* add phone *)
    simpl perform in *. unfold AddPhone.submit, loadRecords in *.
    destruct (Js.findIndex (has_vendor_id vendorId) (cachedRecords st)) as [i0|] eqn:Hi;
      [|apply Hsame; reflexivity].
    destruct (cachedRecords st !! i0) as [vendor|] eqn:Hv; [|apply Hsame; reflexivity].
    clear Hsame. simpl.
    assert (Hlt : (i0 < length (cachedRecords st))%nat) by (eapply lookup_lt_Some; eauto).
    split.
    + intros i j q Hq Hs. rewrite phoneAt_insert by exact Hlt.
      destruct (decide (i = i0)) as [->|_]; [|eauto].
      unfold phoneAt in Hq. rewrite Hv in Hq. simpl in Hq.
      exists q. simpl. split; [|exact Hs].
      rewrite lookup_app_l; [exact Hq | eapply lookup_lt_Some; eauto].
    + intros i j q' Hq' Hs. left. rewrite phoneAt_insert in Hq' by exact Hlt.
      destruct (decide (i = i0)) as [->|_]; [|eauto].
      simpl in Hq'. exists q'. split; [|exact Hs].
      unfold phoneAt. rewrite Hv. simpl.
      destruct (decide (j < length (r_phones vendor))%nat) as [Hj|Hj].
      * rewrite lookup_app_l in Hq' by exact Hj. exact Hq'.
      * rewrite lookup_app_r in Hq' by lia.
        destruct (j - length (r_phones vendor))%nat; simpl in Hq'; [|discriminate].
        injection Hq' as <-. simpl in Hs. discriminate.
Qed.

Lemma billed_only_by_creation_witness :
  (forall i j q, phoneAt i j (cachedRecords Scenario.billed1) = Some q -> status q = "Billed" ->
     exists q', phoneAt i j (cachedRecords (updatePhoneStatus "VND001-P003" "Ready" Scenario.billed1))
                = Some q' /\ status q' = "Billed") /\
  (forall i j q',
     phoneAt i j (cachedRecords (updatePhoneStatus "VND001-P003" "Ready" Scenario.billed1)) = Some q' ->
     status q' = "Billed" ->
     (exists q, phoneAt i j (cachedRecords Scenario.billed1) = Some q /\ status q = "Billed") \/
     createsBillNaming (SetStatus "VND001-P003" "Ready") Scenario.billed1 i (phone_id q')).
Proof.
  exact (billed_only_by_creation (SetStatus "VND001-P003" "Ready") Scenario.billed1 eq_refl).
Defined.

(** The view never makes the two calls of the counterexample. *)
Example view_forbids_forced_calls :
  viewAllows (SetStatus "VND001-P003" "Billed") Scenario.start = false /\
  viewAllows (SetStatus "VND001-P001" "Received") Scenario.billed1 = false /\
  viewAllows (SetStatus "VND001-P003" "In Repair") Scenario.billed1 = true.
Proof. repeat split; vm_compute; reflexivity. Qed.

(** ** What the view proposes satisfies the condition on saves *)

Lemma offeredb_complete (vendor : record) (ids : list string) :
  (forall id, id ∈ ids ->
     (exists p, p ∈ r_phones vendor /\ phone_id p = id) /\
     (forall p, p ∈ r_phones vendor -> phone_id p = id -> billed p = false)) ->
  offeredb vendor ids = true.
Proof.
  intros H. unfold offeredb. apply forallb_forall. intros id Hid.
  apply list_elem_of_In in Hid. destruct (H id Hid) as [(p & Hp & Hpid) Hun].
  apply andb_true_intro. split.
  - apply existsb_exists. exists p. split; [apply list_elem_of_In; exact Hp|].
    apply bool_decide_eq_true. exact Hpid.
  - apply forallb_forall. intros p' Hp'. apply list_elem_of_In in Hp'.
    unfold has_phone_id. destruct (bool_decide (phone_id p' = id)) eqn:Heq; [|reflexivity].
    apply bool_decide_eq_true in Heq. simpl. rewrite (Hun p' Hp' Heq). reflexivity.
Qed.

(** Phone ids generated in order are pairwise different. *)
Lemma phonesInOrder_unique (r : record) (a b : nat) (p q : phone) :
  phonesInOrder r -> r_phones r !! a = Some p -> r_phones r !! b = Some q ->
  phone_id p = phone_id q -> a = b.
Proof.
  intros Hord Ha Hb Heq.
  destruct (Hord a p Ha) as (v1 & Hv1 & Hp). destruct (Hord b q Hb) as (v2 & Hv2 & Hq).
  rewrite Hv1 in Hv2. injection Hv2 as <-. rewrite Hp, Hq in Heq.
  apply generatePhoneID_inj in Heq; lia.
Qed.

(** The selection the billing form proposes by default. *)
Lemma default_selection_offered (vendor : record) :
  phonesInOrder vendor -> offeredb vendor (Form.formSelection vendor None) = true.
Proof.
  intros Hord. apply offeredb_complete. intros id Hid.
  destruct (formSelection_default vendor id Hid) as (p & Hp & Hpid & Hb).
  split; [exists p; auto|].
  intros q Hq Hqid.
  apply list_elem_of_lookup in Hp as (a & Ha). apply list_elem_of_lookup in Hq as (b & Hb').
  assert (a = b) by (eapply phonesInOrder_unique; eauto; congruence).
  subst b. congruence.
Qed.

(** A selection made with check boxes that are not disabled, in a record
    where every billed phone has status Billed. *)
Lemma checked_selection_offered (vendor : record) (checked : list string) :
  phonesInOrder vendor ->
  (forall p, p ∈ r_phones vendor -> billed p = true -> status p = "Billed") ->
  (forall id, id ∈ checked ->
     exists p, p ∈ r_phones vendor /\ phone_id p = id /\ checkboxDisabled p = false) ->
  offeredb vendor checked = true.
Proof.
  intros Hord Hst Hchk. apply offeredb_complete. intros id Hid.
  destruct (Hchk id Hid) as (p & Hp & Hpid & Hen).
  split; [exists p; auto|].
  intros q Hq Hqid.
  apply list_elem_of_lookup in Hp as (a & Ha). apply list_elem_of_lookup in Hq as (b & Hb').
  assert (a = b) by (eapply phonesInOrder_unique; eauto; congruence).
  subst b. assert (q = p) by congruence. subst q.
  destruct (billed p) eqn:Hb; [|reflexivity].
  unfold checkboxDisabled in Hen. apply bool_decide_eq_false in Hen.
  exfalso. apply Hen, Hst; [eapply list_elem_of_lookup_2; eauto | exact Hb].
Qed.

(** A box the view renders checked belongs to an unbilled phone, and the
    status selector is absent exactly where the box is disabled. *)
Lemma checkbox_view (p : phone) :
  (checkboxChecked p = true -> billed p = false) /\
  (checkboxDisabled p = true <-> statusSelectOptions p = []).
Proof.
  split.
  - unfold checkboxChecked. intros H. apply andb_prop in H as [_ H].
    apply negb_true_iff in H. exact H.
  - unfold checkboxDisabled, statusSelectOptions.
    destruct (decide (status p = "Billed")) as [Hb|Hb].
    + rewrite bool_decide_eq_true_2 by exact Hb. split; reflexivity.
    + rewrite bool_decide_eq_false_2 by exact Hb. split; discriminate.
Qed.

(** A vendor without bills and without billed phones is billed-once. *)
Lemma fresh_vendor_billedOnce (r : record) :
  billsOf r = [] -> forallb (fun p => negb (billed p)) (r_phones r) = true ->
  billedOnceb r = true.
Proof.
  intros Hb Hp. unfold billedOnceb, billsNaming. rewrite Hb. simpl.
  apply forallb_forall. intros p Hin. rewrite forallb_forall in Hp.
  specialize (Hp p Hin). apply negb_true_iff in Hp. rewrite Hp. reflexivity.
Qed.


(** * Properties of the other handlers *)

(** ** Every call is a store step *)

Lemma alter_as_insert {A} (f : A -> A) (l : list A) (i : nat) (x : A) :
  l !! i = Some x -> alter f i l = <[i := f x]> l.
Proof.
  revert i. induction l as [|a l IH]; intros [|i] H; simpl in *; try discriminate.
  - injection H as ->. reflexivity.
  - f_equal. apply IH. exact H.
Qed.

Lemma perform_storeStep (a : action) (st : app) :
  storeStep (statusCall a st) (cachedRecords st) (cachedRecords (perform a st)).
Proof.
  destruct a as [now pg vendorId isPartial|phoneId newStatus|vendorId billId
                |vendorId checked|vendorId f]; simpl.
  - destruct (Js.findIndex (has_vendor_id vendorId) (cachedRecords st)) as [i|] eqn:Hi;
      [|rewrite saveVendorBill_no_vendor by exact Hi; constructor].
    destruct (findIndex_Some _ _ _ Hi) as (vendor & Hv & Hid & _).
    apply bool_decide_eq_true in Hid.
    destruct (selectedIdsOf pg vendor) as [|id0 ids0] eqn:Hsel.
    { rewrite (saveVendorBill_empty now pg vendorId isPartial st i vendor Hi Hv Hsel).
      constructor. }
    assert (Hne : selectedIdsOf pg vendor <> []) by (rewrite Hsel; discriminate).
    destruct (editTarget st (billsOf vendor)) as [k|] eqn:Ht.
    + unfold editTarget in Ht.
      destruct (editingBillId st) as [billId|] eqn:He; [|discriminate]. simpl in Ht.
      rewrite (saveVendorBill_edit now pg vendorId isPartial st i vendor Hi Hv billId k Hne He Ht).
      simpl. eapply store_change; [exact Hv|]. apply step_edit.
    + rewrite (saveVendorBill_create now pg vendorId isPartial st i vendor Hi Hv Hne Ht).
      unfold createBill. simpl. eapply store_change; [exact Hv|].
      match goal with
      | |- recordStep _ _ (with_phones _ (with_bills (_ ++ [?b]) _)) =>
          apply (step_create _ vendor vendorId (selectedIdsOf pg vendor) b)
      end; auto.
  - unfold updatePhoneStatus, loadRecords. rewrite updatePhoneStatusLoop_target.
    destruct (statusTarget phoneId (cachedRecords st)) as [[i j]|] eqn:Ht; simpl;
      [|constructor].
    destruct (statusTarget_found _ _ _ _ Ht) as (r & p & Hr & _ & Hp & _).
    rewrite (alter_as_insert _ _ _ _ Hr).
    eapply store_change; [exact Hr|]. apply (step_status _ r j newStatus p Hp).
    exists phoneId, i, j. repeat split; auto. unfold phoneAt. rewrite Hr. exact Hp.
  - unfold editVendorBill.
    destruct (Js.find _ _) as [vendor|]; [|constructor].
    destruct (r_bills vendor) as [bills|]; [|constructor].
    destruct (Js.find _ bills); constructor.
  - unfold createBillForCheckedPhones.
    destruct (Js.findIndex _ _); [|constructor]. destruct checked; constructor.
  - unfold AddPhone.submit, loadRecords.
    destruct (Js.findIndex (has_vendor_id vendorId) (cachedRecords st)) as [i|] eqn:Hi;
      [|constructor].
    destruct (findIndex_Some _ _ _ Hi) as (vendor & Hv & Hid & _). rewrite Hv.
    apply bool_decide_eq_true in Hid.
    simpl. eapply store_change; [exact Hv|].
    apply (step_addPhone _ vendor vendorId f Hid).
Qed.

Lemma recordStep_weaken (ok ok' : phone -> string -> Prop) (r r' : record) :
  (forall p s, ok p s -> ok' p s) -> recordStep ok r r' -> recordStep ok' r r'.
Proof.
  intros Hw H. destruct H; [eapply step_addPhone|eapply step_status|eapply step_create
                           |eapply step_edit]; eauto.
Qed.

Lemma storeStep_weaken (ok ok' : phone -> string -> Prop) (records records' : list record) :
  (forall p s, ok p s -> ok' p s) -> storeStep ok records records' ->
  storeStep ok' records records'.
Proof.
  intros Hw H. destruct H; [apply store_same|eapply store_change|apply store_append
                           |apply store_sample]; eauto using recordStep_weaken.
Qed.

Lemma intake_storeStep (ok : phone -> string -> Prop) (c : command) (st : app) :
  (forall a, c <> Act a) ->
  storeStep ok (cachedRecords st) (cachedRecords (execute c st)).
Proof.
  intros Hc.
  destruct c as [a|dbReady today now name mobile|dbReady fields|dbReady now f|]; simpl.
  - exfalso. apply (Hc a). reflexivity.
  - unfold createVendorFormSubmit. destruct dbReady; [|constructor].
    simpl. apply store_append. constructor.
  - unfold serviceFormSubmit. destruct dbReady; [|constructor].
    simpl. apply store_append. constructor.
  - unfold LaptopForm.submit. destruct dbReady; [|constructor].
    simpl. apply store_append. constructor.
  - unfold initializeSampleData, loadRecords.
    destruct (cachedRecords st) eqn:Hc'; [|rewrite Hc'; constructor].
    simpl. constructor.
Qed.

Lemma execute_storeStep (c : command) (st : app) :
  storeStep (fun _ _ => True) (cachedRecords st) (cachedRecords (execute c st)).
Proof.
  destruct c as [a|dbReady today now name mobile|dbReady fields|dbReady now f|];
    try (apply intake_storeStep; discriminate).
  apply (storeStep_weaken (statusCall a st)); [auto|]. apply perform_storeStep.
Qed.

(** A call the pages can make changes a status only to one the selector of
    the phone offers. *)
Lemma execute_storeStep_view (c : command) (st : app) :
  viewCan c st = true ->
  storeStep offeredStatus (cachedRecords st) (cachedRecords (execute c st)).
Proof.
  intros Hcan.
  destruct c as [a|dbReady today now name mobile|dbReady fields|dbReady now f|];
    try (apply intake_storeStep; discriminate).
  apply (storeStep_weaken (statusCall a st)); [|apply perform_storeStep].
  intros p s (phoneId & i & j & -> & Ht & Hp). simpl in Hcan.
  rewrite Ht, Hp in Hcan. apply bool_decide_eq_true in Hcan. exact Hcan.
Qed.

Lemma run_cons (c : command) (cs : list command) (st : app) :
  run (c :: cs) st = run cs (execute c st).
Proof. reflexivity. Qed.

(** An invariant of the store steps holds after every sequence of calls. *)
Lemma run_invariant (P : list record -> Prop) :
  (forall ok records records', storeStep ok records records' -> P records -> P records') ->
  forall cs st, P (cachedRecords st) -> P (cachedRecords (run cs st)).
Proof.
  intros Hstep cs. induction cs as [|c cs IH]; intros st HP; [exact HP|].
  simpl. apply IH. eapply Hstep; [apply execute_storeStep | exact HP].
Qed.

(** ** Vendor ids *)

Lemma substring_all (s : string) : String.substring 0 (String.length s) s = s.
Proof. induction s as [|c s IH]; simpl; [reflexivity|]. rewrite IH. reflexivity. Qed.

Lemma slice_from_3 (a b c : ascii) (s : string) :
  Js.slice_from 3 (String a (String b (String c s))) = s.
Proof.
  unfold Js.slice_from. simpl. rewrite Nat.sub_0_r. apply substring_all.
Qed.

Lemma vendorIdOf_inj (a b : nat) : vendorIdOf a = vendorIdOf b -> a = b.
Proof.
  unfold vendorIdOf. intros H. apply append_inj_l in H.
  apply padStart0_injective in H; lia.
Qed.

Lemma padStart0_nonempty (n : Z) : Js.padStart0 3 (Js.numToString (Some n)) <> "".
Proof.
  intros H. apply (f_equal String.length) in H. rewrite padStart0_length in H.
  simpl in H. lia.
Qed.

(** The successor step of the service and vendor generators on an id that
    one of them produced. *)
Lemma next_of_padded (a b c : ascii) (n : Z) (d : string) :
  0 <= n ->
  let lastID := Js.strOr (Some (String a (String b (String c
                    (Js.padStart0 3 (Js.numToString (Some n))))))) d in
  (fun k => k + 1) <$> Js.parseInt (Js.slice_from 3 lastID) = Some (n + 1).
Proof.
  intros Hn lastID. unfold lastID, Js.strOr.
  destruct (decide _) as [He|_]; [discriminate|].
  rewrite slice_from_3, parseInt_padStart0 by exact Hn. reflexivity.
Qed.

Lemma next_service (n : Z) (d : string) :
  0 <= n ->
  (fun k => k + 1) <$> Js.parseInt (Js.slice_from 3 (Js.strOr (Some (serviceIdOf n)) d))
  = Some (n + 1).
Proof. intros Hn. exact (next_of_padded "S" "R" "V" n d Hn). Qed.

Lemma next_vendor (k : nat) (d : string) :
  (fun k => k + 1) <$> Js.parseInt (Js.slice_from 3 (Js.strOr (Some (vendorIdOf k)) d))
  = Some (Z.of_nat k + 1 + 1).
Proof. exact (next_of_padded "V" "N" "D" (Z.of_nat k + 1) d ltac:(lia)). Qed.

Lemma filter_snoc {A} (p : A -> bool) (l : list A) (x : A) :
  List.filter p (l ++ [x]) = List.filter p l ++ (if p x then [x] else []).
Proof. rewrite List.filter_app. reflexivity. Qed.

Lemma seq_snoc (n : nat) : seq 0 (S n) = seq 0 n ++ [n].
Proof. rewrite seq_S. reflexivity. Qed.

Lemma generateVendorID_numbered (records : list record) :
  vendorsNumbered records -> generateVendorID records = vendorIdOf (length (vendorIds records)).
Proof.
  intros [Hids _]. unfold generateVendorID, vendorIds in *.
  set (l := List.filter is_vendor records) in *. clearbody l.
  destruct l as [|r0 l0] using rev_ind; [reflexivity|]. clear IHl0.
  rewrite last_snoc. rewrite length_fmap, length_app in Hids |- *.
  rewrite fmap_app in Hids.
  change (length [r0]) with 1%nat in *.
  replace (length l0 + 1)%nat with (S (length l0)) in * by lia.
  rewrite seq_snoc, fmap_app in Hids.
  apply app_inj_tail in Hids as [_ Hr]. rewrite Hr. cbv beta.
  rewrite next_vendor. unfold vendorIdOf. do 4 f_equal. lia.
Qed.

(** Replacing a record by one with the same type and ids changes nothing a
    selection by type or id can see. *)
Lemma fmap_filter_insert {B} (g : record -> B) (p : record -> bool)
    (l : list record) (i : nat) (r r' : record) :
  l !! i = Some r -> p r' = p r -> g r' = g r ->
  g <$> List.filter p (<[i := r']> l) = g <$> List.filter p l.
Proof.
  revert i. induction l as [|a l IH]; intros [|i] Hl Hp Hg; simpl in *; try discriminate.
  - injection Hl as ->. rewrite Hp. destruct (p r); simpl; congruence.
  - destruct (p a); simpl; [f_equal|]; eapply IH; eauto.
Qed.

Lemma forallb_insert {A} (p : A -> bool) (l : list A) (i : nat) (x : A) :
  forallb p l = true -> p x = true -> forallb p (<[i := x]> l) = true.
Proof.
  revert i. induction l as [|a l IH]; intros [|i] Hl Hx; simpl in *; auto;
    apply andb_prop in Hl as [Ha Hl]; rewrite ?Ha, ?Hx; simpl; auto.
Qed.

Lemma recordStep_keys (ok : phone -> string -> Prop) (r r' : record) :
  recordStep ok r r' ->
  r_record_type r' = r_record_type r /\ r_service_id r' = r_service_id r /\
  r_laptop_id r' = r_laptop_id r /\ r_vendor_id r' = r_vendor_id r.
Proof. intros H. destruct H; simpl; auto. Qed.

Lemma recordStep_is_vendor (ok : phone -> string -> Prop) (r r' : record) :
  recordStep ok r r' -> is_vendor r' = is_vendor r.
Proof.
  intros H. apply recordStep_keys in H as (Ht & _). unfold is_vendor. rewrite Ht. reflexivity.
Qed.

Lemma recordStep_is_laptop (ok : phone -> string -> Prop) (r r' : record) :
  recordStep ok r r' -> is_laptop r' = is_laptop r.
Proof.
  intros H. apply recordStep_keys in H as (Ht & _). unfold is_laptop. rewrite Ht. reflexivity.
Qed.

Lemma sampleData_numbered : vendorsNumbered sampleData.
Proof. split; reflexivity. Qed.

Lemma storeStep_keeps_numbered (ok : phone -> string -> Prop) (records records' : list record) :
  storeStep ok records records' -> vendorsNumbered records -> vendorsNumbered records'.
Proof.
  intros Hstep Hinv. destruct Hstep as [records|records i r r' Hi Hr|records r Hr|].
  - exact Hinv.
  - destruct Hinv as [Hids Hrest].
    pose proof (recordStep_keys _ _ _ Hr) as (_ & _ & _ & Hv).
    pose proof (recordStep_is_vendor _ _ _ Hr) as Hty.
    assert (Hsame : vendorIds (<[i := r']> records) = vendorIds records)
      by (eapply fmap_filter_insert; eauto).
    split; [rewrite Hsame; exact Hids|].
    apply forallb_insert; [exact Hrest|].
    rewrite Hty, Hv. rewrite forallb_forall in Hrest. apply Hrest.
    apply list_elem_of_In. eapply list_elem_of_lookup_2; eauto.
  - pose proof (generateVendorID_numbered records Hinv) as Hgen.
    destruct Hinv as [Hids Hrest]. unfold vendorIds in *.
    destruct Hr as [other|other|other]; unfold vendorsNumbered, vendorIds;
      rewrite filter_snoc;
      match goal with
      | |- context [is_vendor ?r] =>
          let b := eval vm_compute in (is_vendor r) in change (is_vendor r) with b
      end; cbv iota.
    + split.
      * rewrite !fmap_app, length_app. simpl.
        replace (length (r_vendor_id <$> List.filter is_vendor records) + 1)%nat
          with (S (length (r_vendor_id <$> List.filter is_vendor records))) by lia.
        rewrite seq_snoc, fmap_app. simpl. rewrite <- Hids, Hgen. reflexivity.
      * rewrite forallb_app, Hrest. reflexivity.
    + rewrite app_nil_r. split; [exact Hids|]. rewrite forallb_app, Hrest. reflexivity.
    + rewrite app_nil_r. split; [exact Hids|]. rewrite forallb_app, Hrest. reflexivity.
  - apply sampleData_numbered.
Qed.

Lemma findIndex_unique {A} (f : A -> bool) (l : list A) (i : nat) (x : A) :
  l !! i = Some x -> f x = true ->
  (forall j y, l !! j = Some y -> f y = true -> j = i) ->
  Js.findIndex f l = Some i.
Proof.
  intros Hx Fx Huniq.
  destruct (Js.findIndex f l) as [k|] eqn:Hk.
  - destruct (findIndex_Some f l k Hk) as (y & Hy & Fy & _).
    f_equal. eapply Huniq; eauto.
  - pose proof (findIndex_None f l Hk x) as Hnone.
    rewrite Hnone in Fx; [discriminate|]. eapply list_elem_of_lookup_2; eauto.
Qed.

Lemma numbered_NoDup (records : list record) :
  vendorsNumbered records -> NoDup (vendorIds records).
Proof.
  intros [Hids _]. rewrite Hids. apply NoDup_fmap_2; [|apply NoDup_seq].
  intros a b H. apply (inj Some) in H. apply vendorIdOf_inj. exact H.
Qed.

Lemma vendor_id_position (records : list record) :
  NoDup (vendorIds records) ->
  forallb (fun r => is_vendor r || bool_decide (r_vendor_id r = None)) records = true ->
  forall i j r r' v,
    records !! i = Some r -> records !! j = Some r' ->
    r_vendor_id r = Some v -> r_vendor_id r' = Some v -> i = j.
Proof.
  unfold vendorIds.
  induction records as [|a l IH]; intros Hnd Hall i j r r' v Hi Hj Hr Hr'; [discriminate|].
  simpl in Hall. apply andb_prop in Hall as [Ha Hall].
  assert (Hin : forall k q, l !! k = Some q -> r_vendor_id q = Some v ->
                            Some v ∈ r_vendor_id <$> List.filter is_vendor l).
  { intros k q Hk Hq. apply list_elem_of_fmap. exists q. split; [auto|].
    apply list_elem_of_In, filter_In. split.
    - apply list_elem_of_In. eapply list_elem_of_lookup_2; eauto.
    - rewrite forallb_forall in Hall.
      specialize (Hall q ltac:(apply list_elem_of_In; eapply list_elem_of_lookup_2; eauto)).
      apply orb_prop in Hall as [Hv|Hn]; [exact Hv|].
      apply bool_decide_eq_true in Hn. congruence. }
  assert (Hhead : forall q, a = q -> r_vendor_id q = Some v ->
                  Some v ∉ r_vendor_id <$> List.filter is_vendor l).
  { intros q <- Hq. simpl in Hnd.
    apply orb_prop in Ha as [Hv|Hn]; [|apply bool_decide_eq_true in Hn; congruence].
    rewrite Hv in Hnd. simpl in Hnd. rewrite Hq in Hnd.
    apply NoDup_cons in Hnd as [Hnot _]. exact Hnot. }
  assert (Htail : NoDup (r_vendor_id <$> List.filter is_vendor l)).
  { simpl in Hnd. destruct (is_vendor a); [|exact Hnd].
    simpl in Hnd. apply NoDup_cons in Hnd as [_ Hnd]. exact Hnd. }
  destruct i as [|i], j as [|j]; simpl in Hi, Hj.
  - reflexivity.
  - injection Hi as Hi. exfalso. eapply Hhead; eauto.
  - injection Hj as Hj. exfalso. eapply Hhead; eauto.
  - f_equal. eapply IH; eauto.
Qed.

(** X2. Vendor ids stay in sequence.  In a store whose vendor records carry
    the ids VND001, VND002, ... in order (the empty store and the sample data
    are such), every sequence of handler calls (vendor creation, service and
    laptop intake, adding phones, status changes, selections, bill saves and
    edits, start-up) leaves a store of that kind: no two vendor records share
    an id, and the lookup by vendor id that the add-phone form and the billing
    functions use returns the position of the record that has the id. *)
Theorem vendor_ids_stay_numbered (cs : list command) (st : app) :
  vendorsNumbered (cachedRecords st) ->
  let records := cachedRecords (run cs st) in
  vendorsNumbered records /\
  NoDup (vendorIds records) /\
  forall i r vendorId,
    records !! i = Some r -> r_vendor_id r = Some vendorId ->
    Js.findIndex (has_vendor_id vendorId) records = Some i.
Proof.
  intros Hinv records.
  assert (Hn : vendorsNumbered records).
  { unfold records. apply run_invariant; [|exact Hinv]. apply storeStep_keeps_numbered. }
  pose proof (numbered_NoDup records Hn) as Hnd.
  split; [exact Hn|]. split; [exact Hnd|].
  intros i r vendorId Hi Hr.
  apply (findIndex_unique _ _ i r Hi).
  - apply bool_decide_eq_true. exact Hr.
  - intros j y Hj Hy. apply bool_decide_eq_true in Hy.
    destruct Hn as [_ Hall].
    eapply (vendor_id_position records Hnd Hall j i y r vendorId); eauto.
Qed.

Lemma vendor_ids_stay_numbered_witness :
  let st := Sample.appOf sampleData in
  let cs := [CreateVendor true Sample.now Sample.now " City Mobiles " "9000000001";
             ServiceIntake true [("customer_name", "Anita")];
             Act (AddPhone "VND002" Sample.phoneForm);
             CreateVendor true Sample.now Sample.now "Star Phones" "9000000002"] in
  vendorsNumbered (cachedRecords st) /\
  vendorIds (cachedRecords (run cs st)) = [Some "VND001"; Some "VND002"; Some "VND003"] /\
  Js.findIndex (has_vendor_id "VND003") (cachedRecords (run cs st)) = Some 4%nat.
Proof.
  intros st cs.
  pose proof (vendor_ids_stay_numbered cs st sampleData_numbered) as (_ & _ & Hfind).
  split; [exact sampleData_numbered|]. split; [reflexivity|].
  eapply (Hfind 4%nat); reflexivity.
Defined.

(** X1. Creating a vendor.  When the database is ready and the vendor
    records are numbered in sequence, the create-vendor form appends one
    vendor record with the next number as its id, no phones and no bills, the
    trimmed name and number, and saves once; no record of the store had that
    id, and the vendor selector then offers it.  When the database is not
    ready the store is left as it is and nothing is saved. *)
Theorem createVendor_appends_next_vendor (today now name mobile : string) (st : app) :
  vendorsNumbered (cachedRecords st) ->
  let n := length (vendorIds (cachedRecords st)) in
  let st' := createVendorFormSubmit true today now name mobile st in
  (exists v,
     cachedRecords st' = cachedRecords st ++ [v] /\
     r_record_type v = Some "vendor" /\ r_vendor_id v = Some (vendorIdOf n) /\
     r_phones v = [] /\ r_bills v = Some [] /\
     prop "vendor_name" v = Some (Text.trim name) /\
     prop "mobile_number" v = Some (Text.trim mobile)) /\
  (forall r, r ∈ cachedRecords st -> r_vendor_id r <> Some (vendorIdOf n)) /\
  savesSince st st' = [SaveRecords (cachedRecords st')] /\
  vendorIdOf n ∈ updateVendorDropdown st' /\
  rejected st (createVendorFormSubmit false today now name mobile st).
Proof.
  intros Hinv n st'.
  pose proof (generateVendorID_numbered _ Hinv) as Hgen. fold n in Hgen.
  split; [|split; [|split; [|split]]].
  - eexists. split; [reflexivity|]. unfold loadRecords. rewrite Hgen.
    repeat split; reflexivity.
  - intros r Hr Hid. destruct Hinv as [Hids Hall].
    rewrite forallb_forall in Hall.
    specialize (Hall r ltac:(apply list_elem_of_In; exact Hr)).
    apply orb_prop in Hall as [Hv|Hnone];
      [|apply bool_decide_eq_true in Hnone; congruence].
    assert (Hin : Some (vendorIdOf n) ∈ vendorIds (cachedRecords st)).
    { apply list_elem_of_fmap. exists r. split; [auto|].
      apply list_elem_of_In, filter_In. split; [apply list_elem_of_In; exact Hr | exact Hv]. }
    rewrite Hids in Hin. apply list_elem_of_fmap in Hin as (k & Hk & Hseq).
    apply (inj Some) in Hk. apply vendorIdOf_inj in Hk. subst k.
    apply list_elem_of_In, in_seq in Hseq. fold n in Hseq. lia.
  - unfold st', createVendorFormSubmit, alert, saveRecords, savesSince, log. simpl.
    rewrite <- app_assoc, drop_app_length. reflexivity.
  - unfold updateVendorDropdown, st', createVendorFormSubmit, loadRecords. simpl.
    rewrite filter_snoc.
    match goal with
    | |- context [is_vendor ?r] =>
        let b := eval vm_compute in (is_vendor r) in change (is_vendor r) with b
    end; cbv iota.
    rewrite fmap_app. apply elem_of_cons. right. apply elem_of_app. right.
    simpl. rewrite Hgen. apply list_elem_of_singleton. reflexivity.
  - split; [reflexivity|].
    unfold createVendorFormSubmit, alert, savesSince, log. simpl.
    rewrite drop_app_length. reflexivity.
Qed.

Lemma createVendor_appends_next_vendor_witness :
  let st := Sample.appOf sampleData in
  let st' := createVendorFormSubmit true Sample.now Sample.now
               (Text.nbsp +:+ " City Mobiles ") "9000000001 " st in
  vendorsNumbered (cachedRecords st) /\
  (fun v => (r_vendor_id v, prop "vendor_name" v, prop "mobile_number" v))
    <$> last (cachedRecords st')
  = Some (Some "VND002", Some "City Mobiles", Some "9000000001").
Proof.
  intros st st'. split; [exact sampleData_numbered|].
  destruct (createVendor_appends_next_vendor Sample.now Sample.now
              (Text.nbsp +:+ " City Mobiles ") "9000000001 " st sampleData_numbered)
    as ((v & Hv & _ & Hid & _ & _ & Hname & Hmobile) & _).
  fold st' in Hv. rewrite Hv, last_snoc. simpl. rewrite Hid, Hname, Hmobile. reflexivity.
Defined.

(** ** Counting the calls *)

(** A bound that grows by one with every call holds after a sequence of
    calls, enlarged by the length of the sequence. *)
Lemma run_counted_invariant (P : Z -> list record -> Prop) :
  (forall ok b records records',
     storeStep ok records records' -> 0 <= b -> P b records -> P (b + 1) records') ->
  forall cs st b, 0 <= b -> P b (cachedRecords st) ->
    P (b + Z.of_nat (length cs)) (cachedRecords (run cs st)).
Proof.
  intros Hstep cs. induction cs as [|c cs IH]; intros st b Hb HP.
  - simpl. rewrite Z.add_0_r. exact HP.
  - rewrite run_cons.
    replace (b + Z.of_nat (length (c :: cs))) with (b + 1 + Z.of_nat (length cs))
      by (simpl length; lia).
    apply IH; [lia|]. eapply Hstep; [apply execute_storeStep | exact Hb | exact HP].
Qed.

(** ** ASCII texts *)

Lemma isAscii_app (a b : string) :
  Text.isAscii (a +:+ b) = Text.isAscii a && Text.isAscii b.
Proof. induction a as [|c a IH]; simpl; [reflexivity|]. rewrite IH. apply andb_assoc. Qed.

Lemma decimalb_isAscii (s : string) : decimalb s = true -> Text.isAscii s = true.
Proof.
  induction s as [|c s IH]; intros H; [reflexivity|].
  simpl in H. apply andb_prop in H as [Hc Hs]. simpl. rewrite (IH Hs), andb_true_r.
  unfold isDigit in Hc. apply andb_prop in Hc as [_ Hc].
  apply Nat.leb_le in Hc. apply Nat.ltb_lt. lia.
Qed.

Lemma padded_isAscii (n : Z) :
  0 <= n -> Text.isAscii (Js.padStart0 3 (Js.numToString (Some n))) = true.
Proof.
  intros Hn. destruct (padded_number n Hn) as (Hdec & _). apply decimalb_isAscii. exact Hdec.
Qed.

(** ** Laptop ids *)

Lemma laptopSuffix_of_generated (r : record) (n : Z) :
  0 <= n ->
  r_laptop_id r = Some ("LAP" +:+ Js.padStart0 3 (Js.numToString (Some n))) ->
  laptopSuffix r = Some n.
Proof.
  intros Hn Hid. unfold laptopSuffix. rewrite Hid.
  change ("LAP" +:+ ?s) with (String "L" (String "A" (String "P" s))).
  unfold Js.strOr. destruct (decide _) as [He|_]; [discriminate|].
  rewrite slice_from_3. apply parseInt_padStart0. exact Hn.
Qed.

Lemma generateLaptopID_not_taken (records : list record) (r : record) :
  r ∈ records -> is_laptop r = true ->
  r_laptop_id r <> Some (generateLaptopID records).
Proof.
  intros Hr Hl Hid.
  destruct (generateLaptopID_max records) as (m & Hgen & Hm & Hub & _).
  rewrite Hgen in Hid.
  apply laptopSuffix_of_generated in Hid; [|lia].
  assert (Hin : r ∈ List.filter is_laptop records).
  { apply list_elem_of_In, filter_In. split; [apply list_elem_of_In; exact Hr | exact Hl]. }
  specialize (Hub r (m + 1) Hin Hid). lia.
Qed.

Lemma laptopIdsBelow_mono (b b' : Z) (records : list record) :
  b <= b' -> laptopIdsBelow b records = true -> laptopIdsBelow b' records = true.
Proof.
  intros Hb H. unfold laptopIdsBelow in *. rewrite forallb_forall in *.
  intros r Hr. specialize (H r Hr).
  destruct (is_laptop r); [|reflexivity]. simpl in *.
  apply andb_prop in H as [Ha Hn]. rewrite Ha. simpl.
  destruct (laptopSuffix r) as [n|]; [|reflexivity].
  apply Z.leb_le in Hn. apply Z.leb_le. lia.
Qed.

(** The number the generator continues from is at most the bound of the
    store. *)
Lemma generateLaptopID_below (b : Z) (records : list record) :
  0 <= b -> laptopIdsBelow b records = true ->
  exists m,
    0 <= m <= b /\
    generateLaptopID records = "LAP" +:+ Js.padStart0 3 (Js.numToString (Some (m + 1))) /\
    fold_left laptopMaxStep (List.filter is_laptop records) 0 = m.
Proof.
  intros Hb Hinv.
  pose proof (laptop_max_fold (List.filter is_laptop records) 0) as (H0 & _ & Hex).
  exists (fold_left laptopMaxStep (List.filter is_laptop records) 0).
  split; [|split; [|reflexivity]].
  - split; [exact H0|]. destruct Hex as [->|(r & Hr & Hs)]; [exact Hb|].
    apply list_elem_of_In, filter_In in Hr as [Hr Hl].
    unfold laptopIdsBelow in Hinv. rewrite forallb_forall in Hinv.
    specialize (Hinv r Hr). rewrite Hl, Hs in Hinv. simpl in Hinv.
    apply andb_prop in Hinv as [_ Hn]. apply Z.leb_le in Hn. exact Hn.
  - unfold generateLaptopID. destruct (List.filter is_laptop records); reflexivity.
Qed.

Lemma laptopIdsBelow_snoc (b : Z) (records : list record) (r : record) :
  laptopIdsBelow b (records ++ [r])
  = laptopIdsBelow b records && laptopIdsBelow b [r].
Proof. unfold laptopIdsBelow. apply forallb_app. Qed.

(** The record of a laptop intake keeps the store within the next bound. *)
Lemma laptopIdsBelow_intake (b : Z) (records : list record) (other : list (string * string)) :
  0 <= b -> laptopIdsBelow b records = true ->
  laptopIdsBelow (b + 1)
    (records ++ [{| r_record_type := Some "laptop"; r_service_id := None;
                    r_laptop_id := Some (generateLaptopID records); r_vendor_id := None;
                    r_phones := []; r_bills := None; r_other := other |}]) = true.
Proof.
  intros Hb Hinv.
  destruct (generateLaptopID_below b records Hb Hinv) as (m & Hm & Hgen & _).
  rewrite laptopIdsBelow_snoc.
  rewrite (laptopIdsBelow_mono b (b + 1) records ltac:(lia) Hinv). simpl.
  rewrite andb_true_r.
  match goal with
  | |- context [laptopSuffix ?r] =>
      rewrite (laptopSuffix_of_generated r (m + 1) ltac:(lia) (f_equal Some Hgen))
  end.
  rewrite Hgen.
  change ("LAP" +:+ ?t) with (String "L" (String "A" (String "P" t))).
  cbn [Text.isAscii]. rewrite padded_isAscii by lia. simpl.
  apply Z.leb_le. lia.
Qed.

Lemma storeStep_laptopIdsBelow (ok : phone -> string -> Prop) (b : Z)
    (records records' : list record) :
  storeStep ok records records' -> 0 <= b ->
  laptopIdsBelow b records = true -> laptopIdsBelow (b + 1) records' = true.
Proof.
  intros Hstep Hb Hinv. destruct Hstep as [records|records i r r' Hi Hr|records r Hr|].
  - apply (laptopIdsBelow_mono b); [lia | exact Hinv].
  - apply (laptopIdsBelow_mono b) with (b' := b + 1) in Hinv; [|lia].
    unfold laptopIdsBelow in *. apply forallb_insert; [exact Hinv|].
    pose proof (recordStep_keys _ _ _ Hr) as (Ht & _ & Hl & _).
    rewrite forallb_forall in Hinv.
    specialize (Hinv r ltac:(apply list_elem_of_In; eapply list_elem_of_lookup_2; eauto)).
    unfold is_laptop, laptopSuffix in *. rewrite Ht, Hl. exact Hinv.
  - destruct Hr as [other|other|other].
    + rewrite laptopIdsBelow_snoc, (laptopIdsBelow_mono b (b + 1) records ltac:(lia) Hinv).
      reflexivity.
    + rewrite laptopIdsBelow_snoc, (laptopIdsBelow_mono b (b + 1) records ltac:(lia) Hinv).
      reflexivity.
    + apply laptopIdsBelow_intake; assumption.
  - reflexivity.
Qed.

(** X3. The laptop id generator does not repeat an id.  In a store whose
    laptop ids are ASCII texts with numbers below 2^53 - 1 (as far as the
    numbers of the script count exactly), the id the generator returns is not
    the id of any laptop record of the store, whatever else the ids look
    like; after an intake the id shown for the next job is the number after
    the one just used, and the numbers are still below 2^53. *)
Theorem generateLaptopID_fresh (now : string) (f : LaptopForm.form) (st : app) :
  laptopIdsBelow (Js.maxSafe - 1) (cachedRecords st) = true ->
  (forall r, r ∈ cachedRecords st -> is_laptop r = true ->
     r_laptop_id r <> Some (generateLaptopID (cachedRecords st))) /\
  exists m,
    0 <= m /\ m + 1 <= Js.maxSafe /\
    generateLaptopID (cachedRecords st)
      = "LAP" +:+ Js.padStart0 3 (Js.numToString (Some (m + 1))) /\
    LaptopForm.nextIdShown (LaptopForm.submit true now f st)
      = "LAP" +:+ Js.padStart0 3 (Js.numToString (Some (m + 2))) /\
    laptopIdsBelow Js.maxSafe (cachedRecords (LaptopForm.submit true now f st)) = true.
Proof.
  intros Hinv.
  split; [intros r; apply generateLaptopID_not_taken|].
  assert (Hb : 0 <= Js.maxSafe - 1) by (vm_compute; discriminate).
  destruct (generateLaptopID_below _ _ Hb Hinv) as (m & Hm & Hgen & Hfold).
  exists m. split; [lia|]. split; [lia|]. split; [exact Hgen|].
  split.
  - unfold LaptopForm.nextIdShown, LaptopForm.submit, loadRecords. simpl.
    set (new := {| r_record_type := Some "laptop"; r_service_id := None;
                   r_laptop_id := Some (generateLaptopID (cachedRecords st));
                   r_vendor_id := None; r_phones := []; r_bills := None;
                   r_other := _ |}).
    assert (Hsuf : laptopSuffix new = Some (m + 1)).
    { apply laptopSuffix_of_generated; [lia|]. unfold new. simpl. rewrite Hgen. reflexivity. }
    unfold generateLaptopID. rewrite filter_snoc.
    change (is_laptop new) with true. cbv iota.
    destruct (List.filter is_laptop (cachedRecords st) ++ [new]) as [|a l] eqn:Hl.
    { apply app_eq_nil in Hl as [_ Hl]. discriminate. }
    rewrite <- Hl, fold_left_app, Hfold. simpl.
    unfold laptopMaxStep. rewrite Hsuf.
    replace (m <? m + 1) with true by (symmetry; apply Z.ltb_lt; lia).
    do 4 f_equal. lia.
  - replace Js.maxSafe with (Js.maxSafe - 1 + 1) by lia.
    unfold LaptopForm.submit, loadRecords. simpl.
    apply laptopIdsBelow_intake; assumption.
Qed.

Lemma generateLaptopID_fresh_witness :
  let st := Sample.appOf [Sample.laptopOf "LAP005"; Sample.serviceOf "SRV001";
                          Sample.laptopOf "LAP002"] in
  let f := LaptopForm.mkForm "2025-10-28" "9000000003" "Dell" "Inspiron" "ON" [] "No boot" "Aryan" in
  laptopIdsBelow (Js.maxSafe - 1) (cachedRecords st) = true /\
  generateLaptopID (cachedRecords st) = "LAP006" /\
  (forall r, r ∈ cachedRecords st -> is_laptop r = true -> r_laptop_id r <> Some "LAP006") /\
  laptopIdsBelow Js.maxSafe (cachedRecords (LaptopForm.submit true Sample.now f st)) = true.
Proof.
  intros st f.
  assert (H0 : laptopIdsBelow (Js.maxSafe - 1) (cachedRecords st) = true) by reflexivity.
  destruct (generateLaptopID_fresh Sample.now f st H0) as (Hfresh & m & _ & _ & _ & _ & Hb).
  split; [exact H0|]. split; [reflexivity|]. split; [exact Hfresh | exact Hb].
Defined.

Lemma laptopIds_snoc (records : list record) (r : record) :
  laptopIds (records ++ [r])
  = laptopIds records ++ (if is_laptop r then option_list (r_laptop_id r) else []).
Proof.
  unfold laptopIds. rewrite filter_snoc, omap_app.
  destruct (is_laptop r); [|reflexivity]. simpl. destruct (r_laptop_id r); reflexivity.
Qed.

Lemma omap_filter_insert {B} (g : record -> option B) (p : record -> bool)
    (l : list record) (i : nat) (r r' : record) :
  l !! i = Some r -> p r' = p r -> g r' = g r ->
  omap g (List.filter p (<[i := r']> l)) = omap g (List.filter p l).
Proof.
  revert i. induction l as [|a l IH]; intros [|i] Hl Hp Hg; simpl in *; try discriminate.
  - injection Hl as ->. rewrite Hp. destruct (p r); simpl; [rewrite Hg|]; reflexivity.
  - specialize (IH i Hl Hp Hg).
    destruct (p a); simpl; [destruct (g a); [f_equal|]|]; exact IH.
Qed.

Lemma storeStep_keeps_laptops_distinct (ok : phone -> string -> Prop) (records records' : list record) :
  storeStep ok records records' -> NoDup (laptopIds records) -> NoDup (laptopIds records').
Proof.
  intros Hstep Hinv. destruct Hstep as [records|records i r r' Hi Hr|records r Hr|].
  - exact Hinv.
  - pose proof (recordStep_keys _ _ _ Hr) as (_ & _ & Hl & _).
    pose proof (recordStep_is_laptop _ _ _ Hr) as Hty.
    unfold laptopIds. erewrite omap_filter_insert; eauto.
  - rewrite laptopIds_snoc. destruct Hr as [other|other|other];
      match goal with
      | |- context [is_laptop ?r] =>
          let b := eval vm_compute in (is_laptop r) in change (is_laptop r) with b
      end; cbv iota; rewrite ?app_nil_r; [exact Hinv | exact Hinv |].
    simpl. apply NoDup_app. split; [exact Hinv|]. split; [|apply NoDup_singleton].
    intros id Hid Hnew. apply list_elem_of_singleton in Hnew. subst id.
    unfold laptopIds in Hid. apply list_elem_of_omap in Hid as (r & Hr & Hrid).
    apply list_elem_of_In, filter_In in Hr as [Hr Hty].
    apply (generateLaptopID_not_taken records r); [apply list_elem_of_In; exact Hr|..]; auto.
  - vm_compute. constructor.
Qed.

(** X4. Laptop ids stay distinct.  If the laptop records of the store have
    pairwise different ids, which are ASCII texts with numbers up to a bound,
    they still have after every sequence of handler calls that is short enough
    for the bound plus the number of calls to stay below 2^53: a laptop intake
    takes the number after the highest one in use, and no other call changes a
    laptop id.  The numbers then are at most the bound plus the number of
    calls. *)
Theorem laptop_ids_stay_distinct (cs : list command) (st : app) (bound : Z) :
  NoDup (laptopIds (cachedRecords st)) ->
  0 <= bound -> laptopIdsBelow bound (cachedRecords st) = true ->
  bound + Z.of_nat (length cs) <= Js.maxSafe ->
  NoDup (laptopIds (cachedRecords (run cs st))) /\
  laptopIdsBelow (bound + Z.of_nat (length cs)) (cachedRecords (run cs st)) = true /\
  laptopIdsBelow Js.maxSafe (cachedRecords (run cs st)) = true.
Proof.
  intros Hnd Hb Hinv Hsafe.
  assert (Hbelow : laptopIdsBelow (bound + Z.of_nat (length cs))
                                  (cachedRecords (run cs st)) = true).
  { apply (run_counted_invariant (fun b records => laptopIdsBelow b records = true));
      [|exact Hb | exact Hinv].
    intros ok b records records' Hstep Hb0. apply (storeStep_laptopIdsBelow ok); assumption. }
  split; [|split; [exact Hbelow|]].
  - revert Hnd. apply (run_invariant (fun records => NoDup (laptopIds records))).
    apply storeStep_keeps_laptops_distinct.
  - eapply laptopIdsBelow_mono; [exact Hsafe | exact Hbelow].
Qed.

Lemma laptop_ids_stay_distinct_witness :
  let st := Sample.appOf [Sample.laptopOf "LAP005"; Sample.serviceOf "SRV001";
                          Sample.laptopOf "LAP002"] in
  let cs := [LaptopIntake true Sample.now
               (LaptopForm.mkForm "2025-10-28" "9000000003" "Dell" "Inspiron" "ON" [] "No boot" "Aryan");
             LaptopIntake true Sample.now
               (LaptopForm.mkForm "2025-10-29" "9000000004" "HP" "Pavilion" "OFF" [] "Hinge" "Aryan")] in
  NoDup (laptopIds (cachedRecords st)) /\
  laptopIdsBelow 5 (cachedRecords st) = true /\
  laptopIds (cachedRecords (run cs st)) = ["LAP005"; "LAP002"; "LAP006"; "LAP007"] /\
  NoDup (laptopIds (cachedRecords (run cs st))) /\
  laptopIdsBelow 7 (cachedRecords (run cs st)) = true.
Proof.
  intros st cs.
  assert (H0 : NoDup (laptopIds (cachedRecords st))).
  { vm_compute. repeat (constructor; [intros H; repeat (apply elem_of_cons in H as [H|H];
      [discriminate|]); inversion H|]). constructor. }
  destruct (laptop_ids_stay_distinct cs st 5 H0 ltac:(lia) eq_refl
              ltac:(vm_compute; discriminate)) as (Hnd & Hb & _).
  split; [exact H0|]. split; [reflexivity|]. split; [reflexivity|].
  split; [exact Hnd | exact Hb].
Defined.

(** ** Service ids *)

Lemma serviceIdsBelow_mono (b b' : Z) (records : list record) :
  b <= b' -> serviceIdsBelow b records -> serviceIdsBelow b' records.
Proof.
  intros Hb H. unfold serviceIdsBelow in *. eapply Forall_impl; [exact H|].
  intros r Hr. cbv beta in *. destruct (r_service_id r); [|exact I].
  destruct Hr as (n & Hn & ->). exists n. split; [lia | reflexivity].
Qed.

Lemma generateServiceID_formed (b : Z) (records : list record) :
  0 <= b -> serviceIdsBelow b records ->
  exists n, 1 <= n <= b + 1 /\ generateServiceID records = serviceIdOf n.
Proof.
  intros Hb Hinv. unfold generateServiceID.
  destruct (last records) as [r|] eqn:Hlast; [|exists 1; split; [lia|reflexivity]].
  apply last_Some in Hlast. destruct Hlast as (l' & ->).
  unfold serviceIdsBelow in Hinv. rewrite Forall_app, Forall_singleton in Hinv.
  destruct Hinv as [_ Hr].
  destruct (r_service_id r) as [id|]; [|exists 1; split; [lia|reflexivity]].
  destruct Hr as (n & Hn & ->). exists (n + 1). split; [lia|].
  rewrite next_service by lia. reflexivity.
Qed.

Lemma generateServiceID_after (records : list record) (r : record) (n : Z) :
  1 <= n -> r_service_id r = Some (serviceIdOf n) ->
  generateServiceID (records ++ [r]) = serviceIdOf (n + 1).
Proof.
  intros Hn Hr. unfold generateServiceID. rewrite last_snoc, Hr.
  rewrite next_service by lia. reflexivity.
Qed.

Lemma sampleData_serviceIdsBelow (b : Z) : 1 <= b -> serviceIdsBelow b sampleData.
Proof.
  intros Hb. repeat constructor. simpl. exists 1. split; [lia|reflexivity].
Qed.

Lemma storeStep_serviceIdsBelow (ok : phone -> string -> Prop) (b : Z)
    (records records' : list record) :
  storeStep ok records records' -> 0 <= b ->
  serviceIdsBelow b records -> serviceIdsBelow (b + 1) records'.
Proof.
  intros Hstep Hb Hinv.
  pose proof (serviceIdsBelow_mono b (b + 1) records ltac:(lia) Hinv) as Hinv1.
  destruct Hstep as [records|records i r r' Hi Hr|records r Hr|].
  - exact Hinv1.
  - apply Forall_insert; [exact Hinv1|].
    pose proof (recordStep_keys _ _ _ Hr) as (_ & Hs & _). rewrite Hs.
    unfold serviceIdsBelow in Hinv1. rewrite Forall_lookup in Hinv1. eapply (Hinv1 i); eauto.
  - apply Forall_app. split; [exact Hinv1|]. apply Forall_singleton.
    destruct Hr as [other|other|other]; simpl; auto.
    apply (generateServiceID_formed b) in Hinv as (n & Hn & ->); [|exact Hb]. eauto.
  - apply sampleData_serviceIdsBelow. lia.
Qed.

(** X5. Service ids are always numbers, and intakes in a row count up.  In
    a store whose service ids all have the form SRV001, SRV002, ... with
    numbers up to a bound (the empty store and the sample data are such), every
    sequence of handler calls leaves such a store, with the bound raised by
    the number of calls; as long as that stays below 2^53 - 1, as far as the
    numbers of the script count exactly, the id the next intake gets is again
    of that form (never SRVNaN), and the intake that directly follows it gets
    the number after it. *)
Theorem service_ids_count_up (cs : list command) (fields : list (string * string))
    (st : app) (bound : Z) :
  0 <= bound -> serviceIdsBelow bound (cachedRecords st) ->
  bound + Z.of_nat (length cs) < Js.maxSafe ->
  let st1 := run cs st in
  let st2 := serviceFormSubmit true fields st1 in
  serviceIdsBelow (bound + Z.of_nat (length cs)) (cachedRecords st1) /\
  exists n,
    1 <= n <= Js.maxSafe /\
    generateServiceID (cachedRecords st1) = serviceIdOf n /\
    (r_service_id <$> last (cachedRecords st2)) = Some (Some (serviceIdOf n)) /\
    generateServiceID (cachedRecords st2) = serviceIdOf (n + 1).
Proof.
  intros Hb Hinv Hsafe st1 st2.
  assert (H1 : serviceIdsBelow (bound + Z.of_nat (length cs)) (cachedRecords st1)).
  { unfold st1. apply (run_counted_invariant serviceIdsBelow); [|exact Hb | exact Hinv].
    intros ok b records records' Hstep Hb0. apply (storeStep_serviceIdsBelow ok); assumption. }
  split; [exact H1|].
  assert (Hb1 : 0 <= bound + Z.of_nat (length cs)) by lia.
  destruct (generateServiceID_formed _ _ Hb1 H1) as (n & Hn & Hgen).
  exists n. split; [lia|]. split; [exact Hgen|].
  unfold st2, serviceFormSubmit, loadRecords. simpl. rewrite last_snoc. simpl.
  rewrite Hgen. split; [reflexivity|].
  apply generateServiceID_after; [lia | reflexivity].
Qed.

Lemma service_ids_count_up_witness :
  serviceIdsBelow 1 (cachedRecords (Sample.appOf sampleData)) /\
  generateServiceID (cachedRecords
     (serviceFormSubmit true [("customer_name", "Anita")]
        (run [ServiceIntake true [("customer_name", "Ravi")]] (Sample.appOf sampleData))))
  = "SRV003".
Proof.
  split; [apply sampleData_serviceIdsBelow; lia|].
  destruct (service_ids_count_up [ServiceIntake true [("customer_name", "Ravi")]]
              [("customer_name", "Anita")] (Sample.appOf sampleData) 1 ltac:(lia)
              (sampleData_serviceIdsBelow 1 ltac:(lia)) ltac:(vm_compute; reflexivity))
    as (_ & n & Hn & Hgen & _ & Hnext).
  rewrite Hnext. apply (f_equal (fun s => Js.parseInt (Js.slice_from 3 s))) in Hgen.
  change (Js.parseInt (Js.slice_from 3 (serviceIdOf n)))
    with (Js.parseInt (Js.slice_from 3 (String "S" (String "R" (String "V"
            (Js.padStart0 3 (Js.numToString (Some n))))))) ) in Hgen.
  rewrite slice_from_3, parseInt_padStart0 in Hgen by lia.
  vm_compute in Hgen. injection Hgen as <-. reflexivity.
Defined.

(** X6. A service id without a number poisons the sequence.  When the
    last record of the store has a service id, an ASCII text, whose part from
    the fourth character on does not start with a number, the generator
    answers SRVNaN (it has no check for [NaN], unlike the laptop generator),
    the intake stores a record with that id, and so does every intake of an
    unbroken row of service intakes.  The row ends with the next record of
    another kind: after the creation of a vendor the generator answers SRV001,
    whatever service ids the store holds. *)
Theorem serviceID_NaN_is_absorbing (st : app) (r : record) (id : string)
    (batches : list (list (string * string))) (today now name mobile : string) :
  last (cachedRecords st) = Some r ->
  r_service_id r = Some id -> id <> "" ->
  Text.isAscii id = true ->
  Js.parseInt (Js.slice_from 3 id) = None ->
  generateServiceID (cachedRecords st) = "SRVNaN" /\
  let st' := run (ServiceIntake true <$> batches) st in
  generateServiceID (cachedRecords st') = "SRVNaN" /\
  Forall (fun r' => r_service_id r' = Some "SRVNaN")
         (drop (length (cachedRecords st)) (cachedRecords st')) /\
  generateServiceID (cachedRecords (createVendorFormSubmit true today now name mobile st'))
  = "SRV001".
Proof.
  intros Hlast Hid Hne _ Hnan.
  assert (Hgen : generateServiceID (cachedRecords st) = "SRVNaN").
  { unfold generateServiceID. rewrite Hlast, Hid. unfold Js.strOr.
    destruct (decide (id = "")) as [He|_]; [contradiction|]. rewrite Hnan. reflexivity. }
  split; [exact Hgen|]. cbv zeta.
  assert (Hgo : forall bs s,
            generateServiceID (cachedRecords s) = "SRVNaN" ->
            generateServiceID (cachedRecords (run (ServiceIntake true <$> bs) s)) = "SRVNaN" /\
            exists added,
              cachedRecords (run (ServiceIntake true <$> bs) s) = cachedRecords s ++ added /\
              Forall (fun r' => r_service_id r' = Some "SRVNaN") added).
  { induction bs as [|b bs IH]; intros s Hs.
    - split; [exact Hs|]. exists []. rewrite app_nil_r. split; [reflexivity|constructor].
    - rewrite fmap_cons, run_cons. cbn [execute].
      assert (Hs' : generateServiceID (cachedRecords (serviceFormSubmit true b s)) = "SRVNaN").
      { unfold serviceFormSubmit, loadRecords. simpl.
        unfold generateServiceID at 1. rewrite last_snoc. simpl. rewrite Hs. reflexivity. }
      destruct (IH _ Hs') as (Hfinal & added & Hadd & Hall).
      split; [exact Hfinal|].
      eexists (_ :: added). split.
      + rewrite Hadd. unfold serviceFormSubmit, loadRecords. simpl.
        rewrite <- app_assoc. reflexivity.
      + constructor; [simpl; rewrite Hs; reflexivity | exact Hall]. }
  destruct (Hgo batches st Hgen) as (Hfinal & added & Hadd & Hall).
  split; [exact Hfinal|]. split; [rewrite Hadd, drop_app_length; exact Hall|].
  unfold createVendorFormSubmit, loadRecords. simpl.
  unfold generateServiceID. rewrite last_snoc. reflexivity.
Qed.

Lemma serviceID_NaN_is_absorbing_witness :
  let st := Sample.appOf [Sample.serviceOf "SRVX01"] in
  let st' := run (ServiceIntake true <$> [[("customer_name", "Ravi")]; [("customer_name", "Anita")]])
                 st in
  generateServiceID (cachedRecords st) = "SRVNaN" /\
  r_service_id <$> cachedRecords st' = [Some "SRVX01"; Some "SRVNaN"; Some "SRVNaN"] /\
  generateServiceID (cachedRecords st') = "SRVNaN" /\
  generateServiceID (cachedRecords
    (createVendorFormSubmit true Sample.now Sample.now "Star Phones" "9000000002" st')) = "SRV001".
Proof.
  intros st st'.
  destruct (serviceID_NaN_is_absorbing st (Sample.serviceOf "SRVX01") "SRVX01"
              [[("customer_name", "Ravi")]; [("customer_name", "Anita")]]
              Sample.now Sample.now "Star Phones" "9000000002"
              eq_refl eq_refl ltac:(discriminate) eq_refl eq_refl) as (H1 & H2 & _ & H4).
  split; [exact H1|]. split; [reflexivity|]. split; [exact H2 | exact H4].
Defined.

(** ** Phones and bills along a sequence of calls *)

Lemma forallb_alter {A} (p : A -> bool) (f : A -> A) (l : list A) (j : nat) :
  forallb p l = true -> (forall x, p x = true -> p (f x) = true) ->
  forallb p (alter f j l) = true.
Proof.
  intros Hl Hf. revert j. induction l as [|a l IH]; intros j; [reflexivity|].
  simpl in Hl. apply andb_prop in Hl as [Ha Hl].
  destruct j as [|j]; simpl; apply andb_true_intro; split; auto.
  apply (IH Hl j).
Qed.

Lemma forallb_fmap_same {A} (p : A -> bool) (f : A -> A) (l : list A) :
  forallb p l = true -> (forall x, p x = true -> p (f x) = true) ->
  forallb p (f <$> l) = true.
Proof.
  induction l as [|a l IH]; intros Hl Hf; simpl in *; auto.
  apply andb_prop in Hl as [Ha Hl]. apply andb_true_intro. split; auto.
Qed.

Lemma recordStep_keeps_readyMarked (ok : phone -> string -> Prop) (r r' : record) :
  recordStep ok r r' -> readyMarked r = true -> readyMarked r' = true.
Proof.
  intros Hstep Hinv. unfold readyMarked in *.
  destruct Hstep as [r vendorId f Hid|r j newStatus p0 Hp0 Hok|r vendorId ids b Hid Hne Hb Hids
                    |r k items subtotal tax grandTotal now]; simpl.
  - rewrite forallb_app, Hinv. reflexivity.
  - apply forallb_alter; [exact Hinv|]. intros p _. simpl.
    rewrite eqb_reflx. apply orb_true_r.
  - apply forallb_fmap_same; [exact Hinv|]. intros p Hp. unfold markBilled.
    destruct (Js.includes ids (phone_id p)); [reflexivity | exact Hp].
  - exact Hinv.
Qed.

Lemma storeStep_keeps_readyMarked (ok : phone -> string -> Prop) (records records' : list record) :
  storeStep ok records records' ->
  Forall (fun r => readyMarked r = true) records ->
  Forall (fun r => readyMarked r = true) records'.
Proof.
  intros Hstep Hinv. destruct Hstep as [records|records i r r' Hi Hr|records r Hr|].
  - exact Hinv.
  - apply Forall_insert; [exact Hinv|].
    apply (recordStep_keeps_readyMarked ok r r' Hr).
    rewrite Forall_lookup in Hinv. eapply (Hinv i); eauto.
  - apply Forall_app. split; [exact Hinv|]. apply Forall_singleton.
    destruct Hr; reflexivity.
  - repeat constructor.
Qed.

(** X7. The boxes ticked in advance are the phones that are ready.  If in
    every record [completed] says, for the phones not yet billed, whether
    the status is Ready (so it is in the empty store and in the sample data),
    then after every sequence of handler calls the vendor view renders a phone
    with its check box ticked exactly when the phone is Ready and not billed,
    and a phone that is not billed is completed exactly when it is Ready. *)
Theorem prechecked_are_ready (cs : list command) (st : app) (r : record) (p : phone) :
  Forall (fun r => readyMarked r = true) (cachedRecords st) ->
  r ∈ cachedRecords (run cs st) -> p ∈ r_phones r ->
  (checkboxChecked p = true <-> status p = "Ready" /\ billed p = false) /\
  (billed p = false -> (completed p = true <-> status p = "Ready")).
Proof.
  intros Hinv Hr Hp.
  assert (H : Forall (fun r => readyMarked r = true) (cachedRecords (run cs st))).
  { apply (run_invariant (fun records => Forall (fun r => readyMarked r = true) records));
      [apply storeStep_keeps_readyMarked | exact Hinv]. }
  rewrite Forall_forall in H. specialize (H r Hr). unfold readyMarked in H.
  rewrite forallb_forall in H. specialize (H p ltac:(apply list_elem_of_In; exact Hp)).
  unfold checkboxChecked.
  destruct (billed p), (completed p); simpl in *;
    destruct (decide (status p = "Ready")) as [Hs|Hs];
    rewrite ?(bool_decide_eq_true_2 _ Hs), ?(bool_decide_eq_false_2 _ Hs) in H;
    simpl in H; try discriminate H;
    (split; [split; [intros; try discriminate; auto | intros [? ?]; try discriminate; auto]
            |intros; try discriminate; split; intros; try discriminate; auto]);
    try contradiction.
Qed.

Lemma prechecked_are_ready_witness :
  let st := Sample.appOf sampleData in
  let cs := [Act (SetStatus "VND001-P004" "Ready");
             Act (SetStatus "VND001-P003" "In Repair");
             Act (AddPhone "VND001" Sample.phoneForm);
             Act (Save Sample.now
                       (Sample.pageOf (Num.ofZ 500) 1 Num.zero (Some ["VND001-P005"]))
                       "VND001" true)] in
  let r := default sampleVendorRecord (cachedRecords (run cs st) !! 1%nat) in
  Forall (fun r => readyMarked r = true) (cachedRecords st) /\
  (fun p => (phone_id p, status p, checkboxChecked p)) <$> r_phones r
  = [("VND001-P001", "Billed", false); ("VND001-P002", "Billed", false);
     ("VND001-P003", "In Repair", false); ("VND001-P004", "Ready", true);
     ("VND001-P005", "Billed", false); ("VND001-P006", "Received", false)] /\
  forall p, p ∈ r_phones r ->
    (checkboxChecked p = true <-> status p = "Ready" /\ billed p = false).
Proof.
  intros st cs r.
  assert (H0 : Forall (fun r => readyMarked r = true) (cachedRecords st))
    by (repeat constructor).
  split; [exact H0|]. split; [vm_compute; reflexivity|].
  intros p Hp.
  apply (prechecked_are_ready cs st r p H0); [|exact Hp].
  apply (list_elem_of_lookup_2 _ 1%nat). vm_compute. reflexivity.
Defined.

Lemma keeps_refl (r : record) : keeps r r.
Proof. repeat split; reflexivity. Qed.

Lemma keeps_trans (a b c : record) : keeps a b -> keeps b c -> keeps a c.
Proof.
  intros (H1 & H2 & H3 & H4 & H5 & H6) (K1 & K2 & K3 & K4 & K5 & K6).
  repeat split; try congruence; etrans; eauto.
Qed.

Lemma setStatus_id (s : string) (p : phone) : phone_id (setStatus s p) = phone_id p.
Proof. reflexivity. Qed.

Lemma fmap_alter_same {A B} (g : A -> B) (f : A -> A) (l : list A) (j : nat) :
  (forall x, g (f x) = g x) -> g <$> alter f j l = g <$> l.
Proof.
  intros H. revert j. induction l as [|a l IH]; intros j; [reflexivity|].
  destruct j as [|j]; simpl.
  - rewrite H. reflexivity.
  - f_equal. apply IH.
Qed.

Lemma fmap_fmap_same {A B} (g : A -> B) (f : A -> A) (l : list A) :
  (forall x, g (f x) = g x) -> g <$> (f <$> l) = g <$> l.
Proof.
  intros H. induction l as [|a l IH]; simpl; [reflexivity|]. rewrite H. f_equal. exact IH.
Qed.

Lemma recordStep_keeps (ok : phone -> string -> Prop) (r r' : record) :
  recordStep ok r r' -> keeps r r'.
Proof.
  intros Hstep.
  destruct Hstep as [r vendorId f Hid|r j newStatus p0 Hp0 Hok|r vendorId ids b Hid Hne Hb Hids
                    |r k items subtotal tax grandTotal now];
    unfold keeps, billsOf; simpl; repeat split; try reflexivity.
  - rewrite fmap_app. apply prefix_app_r. reflexivity.
  - rewrite fmap_alter_same; [reflexivity|]. intros p. reflexivity.
  - rewrite fmap_fmap_same; [reflexivity|]. intros p. apply markBilled_id.
  - rewrite fmap_app. apply prefix_app_r. reflexivity.
  - rewrite fmap_alter_same; [reflexivity|]. intros b. reflexivity.
Qed.

(** X8. Nothing is ever deleted.  After every sequence of handler calls,
    each record of the store it started from is still at its position, with
    the type and ids it had; its phones are still there, in their places and
    under their ids, and so are its bills, each with the id, the phones and
    the date it had.  Calls only add records, phones and bills, and change
    fields of phones and the items and totals of bills. *)
Theorem nothing_is_deleted (cs : list command) (st : app) (i : nat) (r : record) :
  cachedRecords st !! i = Some r ->
  exists r', cachedRecords (run cs st) !! i = Some r' /\ keeps r r'.
Proof.
  revert i r.
  apply (run_invariant (fun records => forall i r, cachedRecords st !! i = Some r ->
            exists r', records !! i = Some r' /\ keeps r r')).
  - intros ok records records' Hstep Hinv i r Hi.
    destruct (Hinv i r Hi) as (r1 & Hr1 & Hk1).
    destruct Hstep as [records|records i0 r0 r0' Hi0 Hr0|records r0 Hr0|].
    + eauto.
    + destruct (decide (i = i0)) as [->|Hne].
      * exists r0'. split.
        -- apply list_lookup_insert_eq. eapply lookup_lt_Some; eauto.
        -- rewrite Hi0 in Hr1. injection Hr1 as ->.
           eapply keeps_trans; [exact Hk1 | eapply recordStep_keeps; exact Hr0].
      * exists r1. split; [|exact Hk1]. rewrite list_lookup_insert_ne by congruence. exact Hr1.
    + exists r1. split; [|exact Hk1]. apply lookup_app_l_Some. exact Hr1.
    + discriminate Hr1.
  - intros i r Hi. exists r. split; [exact Hi | apply keeps_refl].
Qed.

Lemma nothing_is_deleted_witness :
  cachedRecords Scenario.start !! 0%nat = Some Sample.threePhones /\
  exists r', cachedRecords (run (Act <$> Scenario.actions) Scenario.start) !! 0%nat = Some r' /\
             keeps Sample.threePhones r'.
Proof.
  split; [reflexivity|].
  apply (nothing_is_deleted (Act <$> Scenario.actions) Scenario.start 0 Sample.threePhones).
  reflexivity.
Defined.

(** ** Bill ids *)

Lemma recordStep_keeps_billsInOrder (ok : phone -> string -> Prop) (r r' : record) :
  recordStep ok r r' -> billsInOrder r -> billsInOrder r'.
Proof.
  intros Hstep Hinv.
  destruct Hstep as [r vendorId f Hid|r j newStatus p0 Hp0 Hok|r vendorId ids b Hid Hne Hb Hids
                    |r k items subtotal tax grandTotal now];
    intros v Hv; simpl in Hv; specialize (Hinv v Hv); unfold billsOf in *; simpl.
  - exact Hinv.
  - exact Hinv.
  - rewrite fmap_app, length_app. simpl.
    replace (length (default [] (r_bills r)) + 1)%nat
      with (S (length (default [] (r_bills r)))) by lia.
    rewrite seq_snoc, fmap_app, <- Hinv. simpl. rewrite Hb.
    rewrite Hid in Hv. injection Hv as <-. reflexivity.
  - rewrite length_alter, fmap_alter_same; [exact Hinv|]. intros b. reflexivity.
Qed.

Lemma storeStep_keeps_billsInOrder (ok : phone -> string -> Prop) (records records' : list record) :
  storeStep ok records records' -> Forall billsInOrder records -> Forall billsInOrder records'.
Proof.
  intros Hstep Hinv. destruct Hstep as [records|records i r r' Hi Hr|records r Hr|].
  - exact Hinv.
  - apply Forall_insert; [exact Hinv|].
    apply (recordStep_keeps_billsInOrder ok r r' Hr).
    rewrite Forall_lookup in Hinv. eapply (Hinv i); eauto.
  - apply Forall_app. split; [exact Hinv|]. apply Forall_singleton.
    destruct Hr; intros v Hv; reflexivity.
  - repeat constructor; intros v Hv; simpl in Hv; try discriminate.
    injection Hv as <-. reflexivity.
Qed.

(** X9. Bill ids of a vendor stay in sequence.  If the bills of every
    vendor carry that vendor's bill ids in order (B001, B002, ...; so it is in
    the empty store and in the sample data), they still do after every
    sequence of handler calls: the bill at position [k] has the id with the
    number [k + 1], no two bills of a vendor share an id, and the lookup by
    bill id that the edit functions use returns the position of that bill. *)
Theorem bill_ids_stay_in_order (cs : list command) (st : app) (r : record)
    (vendorId : string) (k : nat) (b : vendorBill) :
  Forall billsInOrder (cachedRecords st) ->
  r ∈ cachedRecords (run cs st) -> r_vendor_id r = Some vendorId ->
  billsOf r !! k = Some b ->
  vb_bill_id b = nextBillId vendorId k /\
  NoDup (vb_bill_id <$> billsOf r) /\
  Js.findIndex (has_bill_id (vb_bill_id b)) (billsOf r) = Some k /\
  Js.find (has_bill_id (vb_bill_id b)) (billsOf r) = Some b.
Proof.
  intros Hinv Hr Hv Hk.
  assert (H : Forall billsInOrder (cachedRecords (run cs st))).
  { apply (run_invariant (fun records => Forall billsInOrder records));
      [apply storeStep_keeps_billsInOrder | exact Hinv]. }
  rewrite Forall_forall in H. specialize (H r Hr vendorId Hv).
  assert (Hat : forall j c, billsOf r !! j = Some c -> vb_bill_id c = nextBillId vendorId j).
  { intros j c Hj.
    assert (Hl : (vb_bill_id <$> billsOf r) !! j = Some (vb_bill_id c))
      by (rewrite list_lookup_fmap, Hj; reflexivity).
    rewrite H, list_lookup_fmap in Hl.
    rewrite lookup_seq_lt in Hl by (eapply lookup_lt_Some; eauto).
    simpl in Hl. injection Hl as Hl. symmetry. exact Hl. }
  assert (Hidx : Js.findIndex (has_bill_id (vb_bill_id b)) (billsOf r) = Some k).
  { apply (findIndex_unique _ _ k b Hk).
    - apply bool_decide_eq_true. reflexivity.
    - intros j c Hj Hc. apply bool_decide_eq_true in Hc.
      rewrite (Hat j c Hj), (Hat k b Hk) in Hc. eapply nextBillId_inj; eauto. }
  split; [apply Hat; exact Hk|]. split; [|split; [exact Hidx|]].
  - rewrite H. apply NoDup_fmap_2; [|apply NoDup_seq].
    intros x y Hxy. eapply nextBillId_inj; eauto.
  - rewrite find_findIndex, Hidx. simpl. exact Hk.
Qed.

Lemma bill_ids_stay_in_order_witness :
  Forall billsInOrder (cachedRecords Scenario.start) /\
  Js.findIndex (has_bill_id "VND001-B002")
               (billsOf Scenario.vendorFinished) = Some 1%nat.
Proof.
  assert (H0 : Forall billsInOrder (cachedRecords Scenario.start)).
  { repeat constructor. }
  split; [exact H0|].
  assert (Hb : exists b, billsOf Scenario.vendorFinished !! 1%nat = Some b /\
                         vb_bill_id b = "VND001-B002").
  { eexists. split; reflexivity. }
  destruct Hb as (b & Hb & Hid). rewrite <- Hid.
  apply (bill_ids_stay_in_order (Act <$> Scenario.actions) Scenario.start
           Scenario.vendorFinished "VND001" 1 b H0); [|reflexivity|exact Hb].
  apply elem_of_cons. left. reflexivity.
Defined.

(** ** The search of the billing tab *)

Lemma searchMatches_id (searchValue : string) (r : record) :
  searchId r = Some (Text.toUpperCase searchValue) -> searchMatches searchValue r = true.
Proof.
  unfold searchId, searchMatches. cbv zeta.
  destruct (bool_decide (r_record_type r = Some "service") || negb (truthyStr (r_record_type r))).
  - intros ->. rewrite bool_decide_eq_true_2 by reflexivity. reflexivity.
  - destruct (is_laptop r).
    + intros ->. rewrite bool_decide_eq_true_2 by reflexivity. reflexivity.
    + destruct (is_vendor r); [|discriminate].
      intros ->. rewrite bool_decide_eq_true_2 by reflexivity. reflexivity.
Qed.

Lemma find_first {A} (f : A -> bool) (l : list A) (i : nat) (x : A) :
  l !! i = Some x -> f x = true ->
  (forall j y, (j < i)%nat -> l !! j = Some y -> f y = false) ->
  Js.find f l = Some x.
Proof.
  revert i. induction l as [|a l IH]; intros [|i] Hx Fx Hlt; simpl in *; try discriminate.
  - injection Hx as ->. rewrite Fx. reflexivity.
  - rewrite (Hlt 0%nat a ltac:(lia) eq_refl).
    apply (IH i Hx Fx). intros j y Hj Hy. apply (Hlt (S j) y); [lia | exact Hy].
Qed.

Lemma find_none {A} (f : A -> bool) (l : list A) :
  (forall x, x ∈ l -> f x = false) -> Js.find f l = None.
Proof.
  induction l as [|a l IH]; intros H; simpl; [reflexivity|].
  rewrite (H a ltac:(left)). apply IH. intros x Hx. apply H. right. exact Hx.
Qed.

(** X10. The search of the billing tab.  A search text that is blank after
    trimming (of every white space character of the language) only raises
    the prompt.  Otherwise the first record of the store that matches
    decides.  For an ASCII search text: a record whose id (service id, laptop
    id or vendor id, by its type; a record without type counts as a service
    record) is the trimmed text in upper case matches, so an id can be typed
    in any letter case and with blanks around it, and when no earlier record
    matches, the billing form of that record's family is opened and nothing
    else happens; when no record matches, the note and the alert "Record not
    found" appear.  The drawing of the form fails, with a [TypeError],
    exactly for a laptop or service record without [accessories] and for a
    service record without [service_type].  The store is never changed. *)
Theorem search_opens_first_match (typed : string) (st : app) :
  (Text.trim typed = "" ->
     searchAndLoadRecord typed st
     = (None, alert "Please enter a Service ID, Laptop ID, Vendor ID, or Contact Number" st)) /\
  (forall i r,
     Text.trim typed <> "" ->
     Text.isAscii (Text.trim typed) = true ->
     cachedRecords st !! i = Some r ->
     searchId r = Some (Text.toUpperCase (Text.trim typed)) ->
     (forall j r', (j < i)%nat -> cachedRecords st !! j = Some r' ->
                   searchMatches (Text.trim typed) r' = false) ->
     searchAndLoadRecord typed st = (Some (openBillingForm r st), st)) /\
  (Text.trim typed <> "" ->
     Text.isAscii (Text.trim typed) = true ->
     (forall r, r ∈ cachedRecords st -> searchMatches (Text.trim typed) r = false) ->
     searchAndLoadRecord typed st = (Some NotFoundNote, alert "Record not found" st)) /\
  (forall r,
     (openBillingForm r st = DrawingError <->
      is_vendor r = false /\
      (prop "accessories" r = None \/
       (is_laptop r = false /\ prop "service_type" r = None))) /\
     (openBillingForm r st <> DrawingError ->
      openBillingForm r st
      = if is_vendor r then
          VendorBillingForm r (Form.displayVendorBillingForm r (selectedPhonesForBilling st))
        else if is_laptop r then LaptopBillingForm r
        else ServiceBillingForm r)) /\
  cachedRecords (searchAndLoadRecord typed st).2 = cachedRecords st.
Proof.
  unfold searchAndLoadRecord, loadRecords. cbv zeta.
  split; [|split; [|split; [|split]]].
  - intros ->. reflexivity.
  - intros i r Hne _ Hi Hid Hfirst.
    destruct (decide (Text.trim typed = "")) as [He|_]; [contradiction|].
    rewrite (find_first _ _ i r Hi (searchMatches_id _ _ Hid) Hfirst). reflexivity.
  - intros Hne _ Hnone.
    destruct (decide (Text.trim typed = "")) as [He|_]; [contradiction|].
    rewrite (find_none _ _ Hnone). reflexivity.
  - intros r. unfold openBillingForm.
    destruct (is_vendor r); [split; [split; [discriminate|intros [? _]; discriminate]|auto]|].
    destruct (is_laptop r).
    + destruct (prop "accessories" r); split;
        try (split; [discriminate | intros [_ [?|[? _]]]; discriminate]);
        try (split; [auto | reflexivity]); try reflexivity; try contradiction.
    + destruct (prop "service_type" r), (prop "accessories" r); split;
        try (split; [discriminate | intros [_ [?|[_ ?]]]; discriminate]);
        try (split; [auto | reflexivity]); try reflexivity; try contradiction.
  - destruct (decide (Text.trim typed = "")); [reflexivity|].
    destruct (Js.find _ _); reflexivity.
Qed.

Lemma search_opens_first_match_witness :
  let st := Sample.appOf sampleData in
  searchAndLoadRecord (Text.nbsp +:+ " vnd001 " +:+ Text.nbsp) st
  = (Some (openBillingForm sampleVendorRecord st), st) /\
  searchAndLoadRecord (Text.nbsp +:+ " ") st
  = (None, alert "Please enter a Service ID, Laptop ID, Vendor ID, or Contact Number" st) /\
  searchAndLoadRecord "srv9" st = (Some NotFoundNote, alert "Record not found" st) /\
  openBillingForm sampleVendorRecord st
  = VendorBillingForm sampleVendorRecord (Form.displayVendorBillingForm sampleVendorRecord None) /\
  openBillingForm sampleIndividualRecord st = ServiceBillingForm sampleIndividualRecord /\
  openBillingForm (Sample.serviceOf "SRV007") st = DrawingError.
Proof.
  intros st.
  destruct (search_opens_first_match (Text.nbsp +:+ " vnd001 " +:+ Text.nbsp) st)
    as (_ & H & _).
  destruct (search_opens_first_match (Text.nbsp +:+ " ") st) as (Hblank & _).
  destruct (search_opens_first_match "srv9" st) as (_ & _ & Hnone & Hdraw & _).
  split; [|split; [|split; [|split; [|split]]]].
  - apply (H 1%nat sampleVendorRecord);
      [discriminate | reflexivity | reflexivity | reflexivity |].
    intros [|j] r' Hj Hr'; [|lia]. injection Hr' as <-. reflexivity.
  - apply Hblank. reflexivity.
  - apply Hnone; [discriminate | reflexivity |].
    intros r Hr. repeat (apply elem_of_cons in Hr as [->|Hr]; [reflexivity|]). inversion Hr.
  - apply (Hdraw sampleVendorRecord). discriminate.
  - apply (Hdraw sampleIndividualRecord). discriminate.
  - apply (Hdraw (Sample.serviceOf "SRV007")). split; [reflexivity|]. left. reflexivity.
Defined.

(** X11. From ticked boxes to the bill.  When the vendor id names the
    record the billing search finds for it, pressing the button of the vendor
    view with some boxes ticked opens the vendor billing form with exactly the
    ticked phone ids in its hidden field; whatever is then entered into the
    rows and the tax field, saving creates a new bill (never an edit, even if
    an edit had been started before) for exactly those phone ids, with the
    next bill id of the vendor, and clears the selection. *)
Theorem checked_phones_are_billed (now vendorId : string) (checked : list string)
    (st : app) (i : nat) (vendor : record) :
  Js.findIndex (has_vendor_id vendorId) (cachedRecords st) = Some i ->
  cachedRecords st !! i = Some vendor ->
  is_vendor vendor = true ->
  checked <> [] ->
  Text.trim vendorId <> "" ->
  Js.find (searchMatches (Text.trim vendorId)) (cachedRecords st) = Some vendor ->
  exists pg0 st1,
    checkedPhonesFlow vendorId checked st = (Some (VendorBillingForm vendor pg0), st1) /\
    cachedRecords st1 = cachedRecords st /\
    Form.selectedPhoneIdsInput pg0 = Some checked /\
    forall pg isPartial,
      Form.selectedPhoneIdsInput pg = Form.selectedPhoneIdsInput pg0 ->
      let st2 := saveVendorBill now pg vendorId isPartial st1 in
      exists b,
        cachedRecords st2
        = <[i := with_phones (markBilled checked (vb_bill_id b) <$> r_phones vendor)
                             (with_bills (billsOf vendor ++ [b]) vendor)]> (cachedRecords st) /\
        vb_phone_ids b = checked /\
        vb_bill_id b = nextBillId vendorId (length (billsOf vendor)) /\
        selectedPhonesForBilling st2 = None /\
        exists stored,
          cachedRecords st2 !! i = Some stored /\
          r_bills stored = Some (billsOf vendor ++ [b]) /\
          length (r_phones stored) = length (r_phones vendor) /\
          forall j p, r_phones vendor !! j = Some p ->
            exists p', r_phones stored !! j = Some p' /\
              phone_id p' = phone_id p /\
              (phone_id p ∈ checked ->
                 status p' = "Billed" /\ billed p' = true /\
                 bill_id p' = Some (vb_bill_id b)) /\
              (phone_id p ∉ checked -> p' = p).
Proof.
  intros Hidx Hv Hty Hne Htrim Hfind.
  destruct (findIndex_Some _ _ _ Hidx) as (v' & Hv' & Hid & _).
  rewrite Hv in Hv'. injection Hv' as <-. apply bool_decide_eq_true in Hid.
  destruct checked as [|id0 ids0] eqn:Hc; [contradiction|]. rewrite <- Hc in *.
  set (sel := mkSelection vendorId checked None).
  set (st1 := setSelection (Some sel) st).
  exists (Form.displayVendorBillingForm vendor (Some sel)), st1.
  assert (Hsel : Form.formSelection vendor (Some sel) = checked).
  { unfold Form.formSelection, sel. simpl.
    destruct (decide (Some vendorId = r_vendor_id vendor)) as [_|Hn]; [|congruence].
    rewrite Hc. reflexivity. }
  split; [|split; [reflexivity|split]].
  - unfold checkedPhonesFlow, createBillForCheckedPhones, loadRecords. rewrite Hidx, Hc.
    rewrite <- Hc. fold sel. fold st1.
    unfold searchAndLoadRecord, loadRecords. cbv zeta.
    destruct (decide (Text.trim vendorId = "")) as [He|_]; [contradiction|].
    change (cachedRecords st1) with (cachedRecords st). rewrite Hfind.
    unfold openBillingForm. rewrite Hty. reflexivity.
  - unfold Form.displayVendorBillingForm, Form.updateBillTotals. simpl.
    rewrite Hsel. reflexivity.
  - intros pg isPartial Hpg st2.
    assert (Hin : Form.selectedPhoneIdsInput pg = Some checked).
    { rewrite Hpg. unfold Form.displayVendorBillingForm, Form.updateBillTotals. simpl.
      rewrite Hsel. reflexivity. }
    assert (Hids : selectedIdsOf pg vendor = checked)
      by (unfold selectedIdsOf; rewrite Hin; reflexivity).
    unfold st2.
    rewrite (saveVendorBill_create now pg vendorId isPartial st1 i vendor Hidx Hv);
      [|rewrite Hids; exact Hne | reflexivity].
    unfold createBill. simpl. rewrite Hids.
    match goal with
    | |- exists b, <[_ := with_phones _ (with_bills (_ ++ [?nb]) _)]> _ = _ /\ _ => exists nb
    end.
    do 4 (split; [reflexivity|]).
    assert (Hlt : (i < length (cachedRecords st))%nat) by (eapply lookup_lt_Some; eauto).
    eexists. split; [apply list_lookup_insert_eq; exact Hlt|].
    split; [reflexivity|]. split; [apply length_fmap|].
    intros j p Hp. eexists. split; [simpl; rewrite list_lookup_fmap, Hp; reflexivity|].
    split; [apply markBilled_id|]. unfold markBilled. split.
    + intros Hin'. apply includes_true in Hin'. rewrite Hin'. simpl. auto.
    + intros Hnin. apply includes_false in Hnin. rewrite Hnin. reflexivity.
Qed.

Lemma checked_phones_are_billed_witness :
  exists pg0 st1,
    checkedPhonesFlow "VND001" ["VND001-P003"] (Sample.appOf sampleData)
    = (Some (VendorBillingForm sampleVendorRecord pg0), st1) /\
    Form.selectedPhoneIdsInput pg0 = Some ["VND001-P003"].
Proof.
  destruct (checked_phones_are_billed Sample.now "VND001" ["VND001-P003"]
              (Sample.appOf sampleData) 1 sampleVendorRecord
              eq_refl eq_refl eq_refl ltac:(discriminate) ltac:(discriminate) eq_refl)
    as (pg0 & st1 & Hflow & _ & Hin & _).
  exists pg0, st1. split; [exact Hflow | exact Hin].
Defined.

(** ** The item rows of a billing form *)

Lemma sumTotals_alter (f : Form.itemRow -> Form.itemRow) (i : nat) (rs : list Form.itemRow) :
  (forall r, Form.row_total (f r) = Form.row_total r) ->
  Form.sumTotals (alter f i rs) = Form.sumTotals rs.
Proof.
  intros Hf. unfold Form.sumTotals. generalize Num.zero.
  revert i. induction rs as [|a rs IH]; intros i acc; [reflexivity|].
  destruct i as [|i]; simpl.
  - unfold Form.totalOf. rewrite Hf. reflexivity.
  - apply IH.
Qed.

Lemma inSync_updateBillTotals (pg : Form.page) : Rows.inSync (Form.updateBillTotals pg).
Proof. reflexivity. Qed.

Lemma inSync_withRows (rs : list Form.itemRow) (pg : Form.page) :
  Rows.inSync pg -> Form.sumTotals rs = Form.sumTotals (Form.rows pg) ->
  Rows.inSync (Rows.withRows rs pg).
Proof.
  unfold Rows.inSync, Form.updateBillTotals, Rows.withRows. simpl.
  intros Hs Hsum. rewrite Hsum. destruct pg; simpl in *. injection Hs as H1 H2 H3.
  rewrite H1, H2, H3. reflexivity.
Qed.

Lemma showTotal_idempotent (r : Form.itemRow) :
  Form.showTotal (Form.showTotal r) = Form.showTotal r.
Proof. reflexivity. Qed.

Lemma alter_alter_same {A} (f : A -> A) (i : nat) (l : list A) :
  (forall x, f (f x) = f x) -> alter f i (alter f i l) = alter f i l.
Proof.
  intros Hf. revert i. induction l as [|a l IH]; intros i; [reflexivity|].
  destruct i as [|i]; simpl.
  - rewrite Hf. reflexivity.
  - f_equal. apply IH.
Qed.

(** Running [updateItemTotal] on a row a second time changes nothing: a
    listener that was attached twice does no harm. *)
Lemma updateItemTotal_idempotent (i : nat) (pg : Form.page) :
  Form.updateItemTotal i (Form.updateItemTotal i pg) = Form.updateItemTotal i pg.
Proof.
  unfold Form.updateItemTotal, Form.updateBillTotals. simpl.
  rewrite alter_alter_same by apply showTotal_idempotent. reflexivity.
Qed.

Lemma length_delete_ge {A} (i : nat) (l : list A) :
  (length l - 1 <= length (delete i l))%nat.
Proof.
  revert i. induction l as [|a l IH]; intros i; [simpl; lia|].
  destruct i as [|i]; simpl; [lia|]. specialize (IH i). lia.
Qed.

Lemma apply_keeps (e : Rows.edit) (pg : Form.page) (st : app) :
  Form.rows pg <> [] ->
  let '(pg', st') := Rows.apply e (pg, st) in
  Form.rows pg' <> [] /\
  Form.selectedPhoneIdsInput pg' = Form.selectedPhoneIdsInput pg /\
  cachedRecords st' = cachedRecords st /\
  selectedPhonesForBilling st' = selectedPhonesForBilling st /\
  (Rows.inSync pg -> Rows.inSync pg').
Proof.
  intros Hne.
  assert (Halter : forall (f : Form.itemRow -> Form.itemRow) i l, l <> [] -> alter f i l <> []).
  { intros f i l Hl H. apply (f_equal length) in H. rewrite length_alter in H.
    destruct l; [congruence | discriminate]. }
  destruct e as [i text|i text|i price|i qty|tax| |i]; simpl.
  - split; [apply Halter, Hne|]. do 3 (split; [reflexivity|]).
    intros Hs. apply inSync_withRows; [exact Hs|]. apply sumTotals_alter. reflexivity.
  - split; [apply Halter, Hne|]. do 3 (split; [reflexivity|]).
    intros Hs. apply inSync_withRows; [exact Hs|]. apply sumTotals_alter. reflexivity.
  - split; [apply Halter, Halter, Hne|]. do 3 (split; [reflexivity|]). intros _. reflexivity.
  - split; [apply Halter, Halter, Hne|]. do 3 (split; [reflexivity|]). intros _. reflexivity.
  - split; [exact Hne|]. do 3 (split; [reflexivity|]). intros _. reflexivity.
  - split; [intros H; apply app_eq_nil in H as [_ H]; discriminate|].
    do 3 (split; [reflexivity|]). intros _. reflexivity.
  - unfold Rows.removeItemRow.
    destruct (1 <? length (Form.rows pg))%nat eqn:Hlen; simpl.
    + apply Nat.ltb_lt in Hlen. split.
      * intros H. apply (f_equal length) in H. simpl in H.
        pose proof (length_delete_ge i (Form.rows pg)). lia.
      * do 3 (split; [reflexivity|]). intros _. reflexivity.
    + split; [exact Hne|]. do 3 (split; [reflexivity|]). auto.
Qed.

Lemma applyAll_keeps (es : list Rows.edit) (pg : Form.page) (st : app) :
  Form.rows pg <> [] ->
  let ps := Rows.applyAll es (pg, st) in
  Form.rows ps.1 <> [] /\
  Form.selectedPhoneIdsInput ps.1 = Form.selectedPhoneIdsInput pg /\
  cachedRecords ps.2 = cachedRecords st /\
  selectedPhonesForBilling ps.2 = selectedPhonesForBilling st /\
  (Rows.inSync pg -> Rows.inSync ps.1).
Proof.
  revert pg st. induction es as [|e es IH]; intros pg st Hne.
  - simpl. auto.
  - change (Rows.applyAll (e :: es) (pg, st))
      with (Rows.applyAll es (Rows.apply e (pg, st))).
    pose proof (apply_keeps e pg st Hne) as Hk.
    destruct (Rows.apply e (pg, st)) as [pg1 st1].
    destruct Hk as (K1 & K2 & K3 & K4 & K5).
    destruct (IH pg1 st1 K1) as (J1 & J2 & J3 & J4 & J5).
    cbv zeta. split; [exact J1|]. split; [congruence|]. split; [congruence|].
    split; [congruence|]. auto.
Qed.

(** X12. Editing the rows of a billing form.  Starting from a form with at
    least one row, every sequence of edits (typing into the fields of a row or
    into the tax field, adding rows, removing rows) leaves at least one row:
    the button of the only row left raises "At least one item is required"
    and removes nothing.  The edits never touch the hidden list of selected
    phones, the store or the selection, and when the three totals shown agreed
    with the rows and the tax field before, they do afterwards. *)
Theorem rows_never_run_out (es : list Rows.edit) (pg : Form.page) (st : app) :
  Form.rows pg <> [] ->
  let ps := Rows.applyAll es (pg, st) in
  Form.rows ps.1 <> [] /\
  Form.selectedPhoneIdsInput ps.1 = Form.selectedPhoneIdsInput pg /\
  cachedRecords ps.2 = cachedRecords st /\
  selectedPhonesForBilling ps.2 = selectedPhonesForBilling st /\
  (Rows.inSync pg -> Rows.inSync ps.1) /\
  (forall i, length (Form.rows pg) = 1%nat ->
     Rows.removeItemRow i pg st = (pg, alert "At least one item is required" st)).
Proof.
  intros Hne ps.
  destruct (applyAll_keeps es pg st Hne) as (J1 & J2 & J3 & J4 & J5).
  repeat (split; [assumption|]).
  intros i Hlen. unfold Rows.removeItemRow. rewrite Hlen. reflexivity.
Qed.

Lemma rows_never_run_out_witness :
  Form.rows Scenario.page <> [] /\
  length (Form.rows (Rows.applyAll [Rows.AddRow; Rows.RemoveRow 0; Rows.RemoveRow 0;
                                    Rows.TypePrice 0 (Num.ofZ 250)]
                                   (Scenario.page, Scenario.start)).1) = 1%nat.
Proof.
  split; [discriminate|].
  pose proof (rows_never_run_out [Rows.AddRow; Rows.RemoveRow 0; Rows.RemoveRow 0;
                                  Rows.TypePrice 0 (Num.ofZ 250)]
                                 Scenario.page Scenario.start ltac:(discriminate)) as (H & _).
  destruct (Form.rows _) as [|r [|r' rs]] eqn:Hr; [contradiction | reflexivity |].
  exfalso. vm_compute in Hr. discriminate Hr.
Defined.

(** ** Filling the date fields *)

Lemma imap_lookup {A B} (f : nat -> A -> B) (l : list A) (i : nat) :
  imap f l !! i = f i <$> l !! i.
Proof. apply list_lookup_imap. Qed.

(** X13. Automatic dates never overwrite.  [fillAllDateFields] keeps the
    number and the order of the date fields, their ids, attributes and
    classes.  A field that has a value keeps it, whatever the date of the
    day; a field that counts as a filter field (by id, attribute or class) is
    never written; every other empty field gets the date of the day.  Hence a
    second run, on the same or on a later day, changes nothing when the first
    one had a date to write: a form left open over midnight keeps the date it
    was given. *)
Theorem fillAllDateFields_only_fills_empty (today later : string) (inputs : list Dates.input) :
  let filled := Dates.fillAllDateFields today inputs in
  length filled = length inputs /\
  (forall i x, inputs !! i = Some x ->
     exists y, filled !! i = Some y /\
       Dates.in_id y = Dates.in_id x /\ Dates.in_noAutofill y = Dates.in_noAutofill x /\
       Dates.in_classes y = Dates.in_classes x /\
       (Dates.in_value x <> "" -> y = x) /\
       (Dates.isFilterField i x = true -> y = x) /\
       (Dates.in_value x = "" -> Dates.isFilterField i x = false ->
        Dates.in_value y = today)) /\
  (today <> "" -> Dates.fillAllDateFields later filled = filled).
Proof.
  intros filled. subst filled. unfold Dates.fillAllDateFields.
  split; [apply length_imap|]. split.
  - intros i x Hx. rewrite list_lookup_imap, Hx. simpl.
    eexists. split; [reflexivity|].
    destruct (Dates.isFilterField i x) eqn:Hf.
    + repeat split; auto. intros _ H. discriminate H.
    + destruct (decide (Dates.in_value x = "")) as [He|He]; simpl.
      * repeat split; auto; try contradiction. intros H. discriminate H.
      * repeat split; auto. intros H. contradiction.
  - intros Hne. apply list_eq. intros i. rewrite !list_lookup_imap.
    destruct (inputs !! i) as [x|]; [|reflexivity]. cbn [fmap option_fmap option_map]. f_equal.
    destruct (Dates.isFilterField i x) eqn:Hf.
    + rewrite Hf. reflexivity.
    + destruct (decide (Dates.in_value x = "")) as [He|He].
      * change (Dates.isFilterField i (Dates.setValue today x))
          with (Dates.isFilterField i x). rewrite Hf. simpl.
        destruct (decide (today = "")); [contradiction | reflexivity].
      * rewrite Hf. destruct (decide (Dates.in_value x = "")); [contradiction | reflexivity].
Qed.

(** ** Dates as text *)

(** X14. The date of the day is a date the forms accept.  For every day of
    the calendar in the years 1000 to 9999, the text [getTodaysDate] builds
    (the year, then month and day padded to two digits) is the date-field
    form of that day: it reads back as the same day, so a field filled
    automatically is a valid start of a warranty period. *)
Theorem getTodaysDate_reads_back (d : Warranty.date) (warranty : string) :
  Warranty.validb d = true -> 1000 <= Warranty.year d <= 9999 ->
  Warranty.parse (Dates.getTodaysDate d) = Some d /\
  String.length (Dates.getTodaysDate d) = 10%nat /\
  Warranty.calculateWarrantyEndDate (Dates.getTodaysDate d) warranty
  = Some (Js.slice_to 10 (Warranty.toISOString (Warranty.endDate d warranty))).
Proof.
  intros Hv Hy. destruct (valid_bounds d Hv) as [Hm Hd].
  destruct (year_text (Warranty.year d) Hy) as [Ly Dy].
  destruct (pad2_text (Warranty.month d) ltac:(lia)) as [Lm Dm].
  destruct (pad2_text (Warranty.day d) ltac:(lia)) as [Ld Dd].
  assert (Hparse : Warranty.parse (Dates.getTodaysDate d) = Some d).
  { pose proof (parse_parts _ _ _ "" _ _ _ Ly Lm Ld Dy Dm Dd) as H.
    destruct d as [y m dd]. simpl in *. specialize (H Hv).
    rewrite append_empty_r in H. unfold Dates.getTodaysDate. simpl.
    unfold Js.slice_to in H.
    set (s := _ +:+ _) in *.
    assert (Hlen : String.length s = 10%nat).
    { unfold s. rewrite !length_append, Ly, Lm, Ld. reflexivity. }
    rewrite <- Hlen, substring_all in H. exact H. }
  split; [exact Hparse|]. split.
  - unfold Dates.getTodaysDate. rewrite !length_append, Ly, Lm, Ld. reflexivity.
  - unfold Warranty.calculateWarrantyEndDate. rewrite Hparse. reflexivity.
Qed.

(** ** The warranty period *)

(** X15. The end of the warranty is a date again.  For a start date in
    date-field form (year up to 9998), [calculateWarrantyEndDate] answers a
    text of the same form that names a day of the calendar: it reads back as
    the date three or six months after the start as [setMonth] computes it,
    so the answer can be stored in a date field and used as a start date in
    turn. *)
Theorem warranty_end_is_a_date (fromDate warranty : string) (d : Warranty.date) :
  Warranty.parse fromDate = Some d -> Warranty.year d <= 9998 ->
  exists s,
    Warranty.calculateWarrantyEndDate fromDate warranty = Some s /\
    Warranty.parse s = Some (Warranty.endDate d warranty) /\
    Warranty.validb (Warranty.endDate d warranty) = true /\
    exists s', Warranty.calculateWarrantyEndDate s warranty = Some s'.
Proof.
  intros Hp Hy.
  pose proof (parse_valid _ _ Hp) as Hv.
  pose proof (parse_year_nonneg _ _ Hp) as Hy0.
  destruct (endDate_text d warranty Hv ltac:(lia)) as (Ve & _ & Hparse).
  exists (Js.slice_to 10 (Warranty.toISOString (Warranty.endDate d warranty))).
  split; [unfold Warranty.calculateWarrantyEndDate; rewrite Hp; reflexivity|].
  split; [exact Hparse|]. split; [exact Ve|].
  unfold Warranty.calculateWarrantyEndDate. rewrite Hparse. eexists. reflexivity.
Qed.

Lemma warranty_end_is_a_date_witness :
  Warranty.parse "2025-11-30" = Some (Warranty.mkDate 2025 11 30) /\
  Warranty.calculateWarrantyEndDate "2025-11-30" "3" = Some "2026-03-02" /\
  Warranty.parse "2026-03-02" = Some (Warranty.endDate (Warranty.mkDate 2025 11 30) "3").
Proof.
  split; [reflexivity|].
  destruct (warranty_end_is_a_date "2025-11-30" "3" (Warranty.mkDate 2025 11 30)
              eq_refl ltac:(simpl; lia)) as (s & Hs & Hparse & _).
  assert (Hs' : s = "2026-03-02").
  { assert (H : Warranty.calculateWarrantyEndDate "2025-11-30" "3" = Some "2026-03-02")
      by reflexivity.
    congruence. }
  subst s. split; [exact Hs | exact Hparse].
Defined.

(** X16. The warranty ends after it starts.  For every start date of the
    calendar the end date comes after the start, in the same year or the
    next; the end of a six-month warranty comes after the end of a
    three-month one; and every warranty text other than "6" and "6 months"
    (also "12", "1 year" or the empty text) gives the three-month end. *)
Theorem warranty_end_after_start (d : Warranty.date) (warranty : string) :
  Warranty.validb d = true ->
  dateLt d (Warranty.endDate d warranty) /\
  Warranty.year d <= Warranty.year (Warranty.endDate d warranty) <= Warranty.year d + 1 /\
  dateLt (Warranty.endDate d "3") (Warranty.endDate d "6") /\
  (warranty <> "6" -> warranty <> "6 months" ->
   Warranty.endDate d warranty = Warranty.endDate d "3").
Proof.
  intros Hv. destruct (addMonths_facts d Hv) as (V3 & V6 & Y3 & Y6 & L3 & L36).
  assert (L6 : dateLt d (Warranty.addMonths 6 d)).
  { unfold dateLt in *. lia. }
  split; [|split; [|split]].
  - destruct (endDate_cases d warranty) as [-> | ->]; assumption.
  - destruct (endDate_cases d warranty) as [-> | ->]; assumption.
  - exact L36.
  - intros H1 H2. unfold Warranty.endDate.
    destruct (monthsOf_cases warranty) as [[[?|?] _]|[_ ->]]; [contradiction..|reflexivity].
Qed.

Lemma warranty_end_after_start_witness :
  Warranty.validb (Warranty.mkDate 2025 11 30) = true /\
  dateLt (Warranty.mkDate 2025 11 30) (Warranty.endDate (Warranty.mkDate 2025 11 30) "12") /\
  Warranty.endDate (Warranty.mkDate 2025 11 30) "12" = Warranty.mkDate 2026 3 2.
Proof.
  split; [reflexivity|].
  destruct (warranty_end_after_start (Warranty.mkDate 2025 11 30) "12" eq_refl)
    as (H & _ & _ & H3).
  split; [exact H|]. rewrite H3 by discriminate. reflexivity.
Defined.

Lemma getTodaysDate_reads_back_witness :
  Warranty.validb (Warranty.mkDate 2025 10 28) = true /\
  Dates.getTodaysDate (Warranty.mkDate 2025 10 28) = "2025-10-28" /\
  Warranty.parse (Dates.getTodaysDate (Warranty.mkDate 2025 10 28))
  = Some (Warranty.mkDate 2025 10 28).
Proof.
  split; [reflexivity|]. split; [reflexivity|].
  apply (getTodaysDate_reads_back (Warranty.mkDate 2025 10 28) "3" eq_refl).
  simpl. lia.
Defined.

(** ** The short phone number of the views *)

Lemma includes_cons (c : ascii) (s : string) :
  Text.includes (String c s) "-" = false ->
  Ascii.eqb c "-" = false /\ Text.includes s "-" = false.
Proof.
  intros H.
  change (Text.includes (String c s) "-")
    with ((Ascii.eqb "-" c && true) || Text.includes s "-") in H.
  rewrite andb_true_r in H. apply orb_false_elim in H as [H1 H2].
  rewrite Ascii.eqb_sym. auto.
Qed.


Lemma split_piece (a b : string) :
  Text.includes a "-" = false ->
  Text.split "-" (a +:+ String "-" b) = a :: Text.split "-" b.
Proof.
  induction a as [|c a IH]; intros H; [reflexivity|].
  apply includes_cons in H as [Hc Ha].
  change (String c a +:+ String "-" b) with (String c (a +:+ String "-" b)).
  cbn [Text.split]. rewrite Hc, (IH Ha). reflexivity.
Qed.

Lemma decimalb_no_hyphen (s : string) : decimalb s = true -> Text.includes s "-" = false.
Proof.
  induction s as [|c s IH]; intros H; [reflexivity|].
  simpl in H. apply andb_prop in H as [Hc Hs]. simpl. rewrite (IH Hs), orb_false_r.
  destruct c as [[] [] [] [] [] [] [] []]; try discriminate Hc; destruct s; reflexivity.
Qed.

Lemma vendorIdOf_no_hyphen (k : nat) : Text.includes (vendorIdOf k) "-" = false.
Proof.
  unfold vendorIdOf.
  destruct (padded_number (Z.of_nat k + 1) ltac:(lia)) as (Hdec & _).
  apply decimalb_no_hyphen in Hdec. revert Hdec.
  generalize (Js.padStart0 3 (Js.numToString (Some (Z.of_nat k + 1)))). intros s Hs.
  change ("VND" +:+ s) with (String "V" (String "N" (String "D" s))).
  simpl. rewrite Hs. destruct s; reflexivity.
Qed.



(** ** The list of all records *)

Section ListingFacts.
Variable toTime : option string -> option Z.


Lemma filterRaising_total {A} (f : A -> option bool) (g : A -> bool) (l : list A) :
  (forall x, x ∈ l -> f x = Some (g x)) -> filterRaising f l = Some (List.filter g l).
Proof.
  induction l as [|a l IH]; intros H; [reflexivity|].
  simpl. rewrite (H a ltac:(left)). simpl.
  rewrite IH by (intros x Hx; apply H; right; exact Hx). simpl.
  destruct (g a); reflexivity.
Qed.

Lemma filterRaising_raises {A} (f : A -> option bool) (l : list A) (x : A) :
  x ∈ l -> f x = None -> filterRaising f l = None.
Proof.
  induction l as [|a l IH]; intros Hx Fx; [inversion Hx|].
  apply elem_of_cons in Hx as [<-|Hx]; simpl.
  - rewrite Fx. reflexivity.
  - destruct (f a); [|reflexivity]. simpl. rewrite (IH Hx Fx). reflexivity.
Qed.


Lemma filterRaising_all {A} (f : A -> option bool) (l kept : list A) :
  filterRaising f l = Some kept -> (forall x b, f x = Some b -> b = true) -> kept = l.
Proof.
  revert kept. induction l as [|a l IH]; intros kept H Hall; simpl in H.
  - injection H as <-. reflexivity.
  - destruct (f a) as [keep|] eqn:Fa; [|discriminate]. simpl in H.
    destruct (filterRaising f l) as [kept'|]; [|discriminate]. simpl in H.
    rewrite (Hall a keep Fa) in H. injection H as <-. f_equal. apply IH; auto.
Qed.

(** Every text includes the empty text: with an empty search text the
    search test is true wherever it does not raise. *)
Lemma searchHit_empty (r : record) (b : bool) : searchHit "" r = Some b -> b = true.
Proof.
  assert (Hempty : forall s, Text.includes s "" = true) by (intros [|c s]; reflexivity).
  intros Hb. unfold searchHit, lowerIncludes, plainIncludes in Hb.
  destruct (is_vendor r); [|destruct (is_laptop r)];
    repeat match type of Hb with
           | context [?f <$> ?o] => destruct o; simpl in Hb; [|discriminate]
           end;
    rewrite ?Hempty in Hb; simpl in Hb; injection Hb as <-; reflexivity.
Qed.

(** X19. The list without filters.  With an empty search text, a type
    filter other than the three named ones (the default is "all") and no
    date range, the list holds every record of the store, the last one first,
    provided every record has its id and the two text fields its family is
    searched by, and the fields the drawing of its item reads: [issue] for a
    laptop or service record and [service_type] for a service record.  A
    vendor record that lacks its id, name or number stops the rendering with
    a [TypeError], whatever the search text; with the empty search text, so
    does a laptop or service record without [issue] and a service record
    without [service_type]. *)
Theorem unfiltered_list_shows_all (filter recordFilter : string) (st : app) :
  recordFilter <> "individual" -> recordFilter <> "laptop" -> recordFilter <> "vendor" ->
  ((forall r, r ∈ cachedRecords st ->
      (exists b, searchHit "" r = Some b) /\ drawItem r = Some ()) ->
   renderAllRecords toTime "" recordFilter None st = Some (reverse (cachedRecords st))) /\
  (forall r, r ∈ cachedRecords st -> is_vendor r = true ->
     r_vendor_id r = None \/ prop "vendor_name" r = None \/ prop "mobile_number" r = None ->
     renderAllRecords toTime filter recordFilter None st = None) /\
  (forall r, r ∈ cachedRecords st -> is_vendor r = false ->
     prop "issue" r = None \/ (is_laptop r = false /\ prop "service_type" r = None) ->
     renderAllRecords toTime "" recordFilter None st = None).
Proof.
  intros H1 H2 H3.
  assert (Hty : forall r, byType recordFilter r = true).
  { intros r. unfold byType. repeat (destruct (decide _); [contradiction|]). reflexivity. }
  assert (Hfilter : List.filter (byType recordFilter) (cachedRecords st) = cachedRecords st).
  { induction (cachedRecords st) as [|a l IH]; simpl; [reflexivity|].
    rewrite Hty, IH. reflexivity. }
  split; [|split].
  - intros Hdef. unfold renderAllRecords, loadRecords. cbv zeta. rewrite Hfilter.
    destruct (filterRaising (searchHit "") (cachedRecords st)) as [filtered|] eqn:Hf.
    + apply filterRaising_all in Hf; [|apply searchHit_empty]. subst filtered. simpl.
      assert (Hdraw : is_Some (mapM drawItem (reverse (cachedRecords st)))).
      { apply mapM_is_Some, Forall_forall. intros r Hr. rewrite elem_of_reverse in Hr.
        destruct (Hdef r Hr) as [_ Hd]. simpl. rewrite Hd. eexists. reflexivity. }
      destruct Hdraw as (drawn & ->). reflexivity.
    + exfalso.
      assert (Hsome : filterRaising (searchHit "") (cachedRecords st)
                      = Some (List.filter (fun _ => true) (cachedRecords st))).
      { apply filterRaising_total. intros r Hr. destruct (Hdef r Hr) as [(b & Hb) _].
        rewrite Hb. f_equal. eapply searchHit_empty; eauto. }
      congruence.
  - intros r Hr Hv Hmiss. unfold renderAllRecords, loadRecords. cbv zeta. rewrite Hfilter.
    rewrite (filterRaising_raises _ _ r Hr); [reflexivity|].
    unfold searchHit, lowerIncludes, plainIncludes. rewrite Hv.
    destruct Hmiss as [->| [->| ->]]; simpl; [reflexivity|..].
    + destruct (r_vendor_id r); reflexivity.
    + destruct (r_vendor_id r); simpl; [|reflexivity].
      destruct (prop "vendor_name" r); reflexivity.
  - intros r Hr Hv Hmiss. unfold renderAllRecords, loadRecords. cbv zeta. rewrite Hfilter.
    destruct (filterRaising (searchHit "") (cachedRecords st)) as [filtered|] eqn:Hf;
      [|reflexivity].
    apply filterRaising_all in Hf; [|apply searchHit_empty]. subst filtered. simpl.
    assert (Hnone : mapM drawItem (reverse (cachedRecords st)) = None).
    { apply mapM_None, Exists_exists. exists r.
      split; [rewrite elem_of_reverse; exact Hr|].
      unfold drawItem. rewrite Hv.
      destruct Hmiss as [Hi|[Hl Hs]].
      - rewrite Hi. destruct (is_laptop r); reflexivity.
      - rewrite Hl, Hs. destruct (prop "issue" r); reflexivity. }
    rewrite Hnone. reflexivity.
Qed.

End ListingFacts.


Lemma unfiltered_list_shows_all_witness :
  renderAllRecords dayNumber "" "all" None (Sample.appOf sampleData)
  = Some [sampleVendorRecord; sampleIndividualRecord] /\
  renderAllRecords dayNumber "" "all" None
    (Sample.appOf [sampleVendorRecord;
                   {| r_record_type := Some "service"; r_service_id := Some "SRV002";
                      r_laptop_id := None; r_vendor_id := None; r_phones := [];
                      r_bills := None;
                      r_other := [("customer_name", "Anita Rao");
                                  ("mobile_number", "9000000005")] |}])
  = None.
Proof.
  split.
  - destruct (unfiltered_list_shows_all dayNumber "" "all" (Sample.appOf sampleData)
                ltac:(discriminate) ltac:(discriminate) ltac:(discriminate)) as [H _].
    rewrite H; [reflexivity|].
    intros r Hr.
    repeat (apply elem_of_cons in Hr as [->|Hr]; [split; [eexists|]; reflexivity|]).
    inversion Hr.
  - match goal with
    | |- renderAllRecords _ _ _ _ (Sample.appOf [_; ?r]) = None =>
        destruct (unfiltered_list_shows_all dayNumber "" "all"
                    (Sample.appOf [sampleVendorRecord; r])
                    ltac:(discriminate) ltac:(discriminate) ltac:(discriminate))
          as (_ & _ & H);
        apply (H r); [right; left | reflexivity | left; reflexivity]
    end.
Defined.

(** ** Editing a bill and the tax field *)

Lemma orElse_zero : Num.orElse Num.zero Num.zero = Num.zero.
Proof. reflexivity. Qed.

Lemma taxOf_zero (subtotal : number) :
  isFinite subtotal = true -> exists s, Form.taxOf subtotal Num.zero = S754_zero s.
Proof.
  unfold Form.taxOf. rewrite orElse_zero.
  destruct subtotal as [s| | |s m e]; try discriminate; intros _;
    eexists; vm_compute; reflexivity.
Qed.

Lemma toFixed2_signed_zero (s : bool) : Num.toFixed2 (S754_zero s) = Num.zero.
Proof. reflexivity. Qed.

Lemma toFixed2_add_zero (x : number) (s : bool) :
  isFinite x = true -> Num.toFixed2 (Num.add x (S754_zero s)) = Num.toFixed2 x.
Proof.
  destruct x as [sx| | |sx m e]; try discriminate; intros _.
  - destruct sx, s; reflexivity.
  - reflexivity.
Qed.

Lemma applyAll_keeps_tax (es : list Rows.edit) (pg : Form.page) (st : app) :
  forallb (fun e => negb (isTypeTax e)) es = true ->
  Form.taxPercent (Rows.applyAll es (pg, st)).1 = Form.taxPercent pg.
Proof.
  revert pg st. induction es as [|e es IH]; intros pg st Hes; [reflexivity|].
  simpl in Hes. apply andb_prop in Hes as [He Hes].
  change (Rows.applyAll (e :: es) (pg, st)) with (Rows.applyAll es (Rows.apply e (pg, st))).
  assert (Hstep : Form.taxPercent (Rows.apply e (pg, st)).1 = Form.taxPercent pg).
  { destruct e; try discriminate He; try reflexivity.
    simpl. unfold Rows.removeItemRow. destruct (1 <? _)%nat; reflexivity. }
  destruct (Rows.apply e (pg, st)) as [pg1 st1]. simpl in Hstep.
  rewrite (IH pg1 st1 Hes). exact Hstep.
Qed.

(** X20. Editing a bill drops its tax.  The billing form is always drawn
    with 0 in the tax field, and loading the rows of a stored bill into it
    does not bring the tax percentage back.  So after [editVendorBill] and any
    edits of the rows (fields of the rows, rows added or removed), as long as
    nothing is typed into the tax field, the form shows a tax of 0 and a grand
    total equal to the subtotal, whenever the row totals add up to a finite
    number; these are the amounts a save then stores in place of the old
    ones. *)
Theorem edit_form_shows_no_tax (vendor : record) (sel : option selection)
    (rs : list Form.itemRow) (es : list Rows.edit) (st : app) :
  rs <> [] ->
  forallb (fun e => negb (isTypeTax e)) es = true ->
  let pg := (Rows.applyAll es (loadRows rs (Form.displayVendorBillingForm vendor sel), st)).1 in
  isFinite (Form.sumTotals (Form.rows pg)) = true ->
  Form.taxPercent pg = Num.zero /\
  Form.taxAmountText pg = Num.zero /\
  Form.grandTotalText pg = Form.subtotalText pg /\
  Form.subtotalText pg = Num.toFixed2 (Form.sumTotals (Form.rows pg)).
Proof.
  intros Hne Hes pg Hfin.
  set (pg0 := loadRows rs (Form.displayVendorBillingForm vendor sel)) in *.
  assert (Htax : Form.taxPercent pg = Num.zero).
  { unfold pg. rewrite applyAll_keeps_tax by exact Hes. reflexivity. }
  destruct (applyAll_keeps es pg0 st Hne) as (_ & _ & _ & _ & Hsync).
  specialize (Hsync (inSync_updateBillTotals _)). fold pg in Hsync.
  unfold Rows.inSync, Form.updateBillTotals in Hsync.
  destruct (taxOf_zero _ Hfin) as (s & Hs).
  rewrite Htax, Hs in Hsync.
  rewrite toFixed2_signed_zero, toFixed2_add_zero in Hsync by exact Hfin.
  rewrite <- Hsync. simpl. auto.
Qed.

Lemma edit_form_shows_no_tax_witness :
  Form.taxAmountText
    (Rows.applyAll [Rows.TypePrice 0 (Num.ofZ 250); Rows.AddRow]
       (loadRows [Form.mkRow "Display" "Original" (Num.ofZ 1300) (Some 1) (Num.ofZ 1300)]
                 (Form.displayVendorBillingForm sampleVendorRecord None),
        Sample.appOf sampleData)).1 = Num.zero.
Proof.
  apply (edit_form_shows_no_tax sampleVendorRecord None
           [Form.mkRow "Display" "Original" (Num.ofZ 1300) (Some 1) (Num.ofZ 1300)]
           [Rows.TypePrice 0 (Num.ofZ 250); Rows.AddRow] (Sample.appOf sampleData)
           ltac:(discriminate) eq_refl).
  vm_compute. reflexivity.
Defined.

(** ** Phone ids *)

Lemma phonesInOrder_ids (r r' : record) :
  r_vendor_id r' = r_vendor_id r ->
  phone_id <$> r_phones r' = phone_id <$> r_phones r ->
  phonesInOrder r -> phonesInOrder r'.
Proof.
  intros Hv Hids Hord j p Hp.
  assert (Hl : (phone_id <$> r_phones r) !! j = Some (phone_id p))
    by (rewrite <- Hids, list_lookup_fmap, Hp; reflexivity).
  rewrite list_lookup_fmap in Hl.
  destruct (r_phones r !! j) as [q|] eqn:Hq; [|discriminate].
  simpl in Hl. injection Hl as Hl.
  destruct (Hord j q Hq) as (v & Hvid & Hid). exists v. split; congruence.
Qed.

Lemma recordStep_keeps_phonesInOrder (ok : phone -> string -> Prop) (r r' : record) :
  recordStep ok r r' -> phonesInOrder r -> phonesInOrder r'.
Proof.
  intros Hstep Hord.
  destruct Hstep as [r vendorId f Hid|r j newStatus p0 Hp0 Hok|r vendorId ids b Hid Hne Hb Hids
                    |r k items subtotal tax grandTotal now].
  - intros j p Hp. simpl in Hp.
    destruct (decide (j < length (r_phones r))%nat) as [Hlt|Hge].
    + rewrite lookup_app_l in Hp by exact Hlt. apply (Hord j p Hp).
    + rewrite lookup_app_r in Hp by lia.
      destruct (j - length (r_phones r))%nat as [|k] eqn:Hk; [|destruct k; discriminate].
      simpl in Hp. injection Hp as <-. exists vendorId. split; [exact Hid|].
      simpl. unfold nextPhoneId. do 2 f_equal. lia.
  - apply (phonesInOrder_ids r); [reflexivity| |exact Hord]. simpl.
    apply fmap_alter_same. intros p. reflexivity.
  - apply (phonesInOrder_ids r); [reflexivity| |exact Hord]. simpl.
    apply fmap_fmap_same. intros p. apply markBilled_id.
  - apply (phonesInOrder_ids r); [reflexivity|reflexivity|exact Hord].
Qed.

Lemma sampleData_phonesInOrder : Forall phonesInOrder sampleData.
Proof.
  repeat constructor.
  - intros j p Hp. destruct j; discriminate.
  - intros j p Hp. exists "VND001". split; [reflexivity|].
    do 5 (destruct j as [|j]; [injection Hp as <-; reflexivity|]). discriminate.
Qed.

Lemma storeStep_keeps_phonesInOrder (ok : phone -> string -> Prop) (records records' : list record) :
  storeStep ok records records' -> Forall phonesInOrder records -> Forall phonesInOrder records'.
Proof.
  intros Hstep Hinv. destruct Hstep as [records|records i r r' Hi Hr|records r Hr|].
  - exact Hinv.
  - apply Forall_insert; [exact Hinv|].
    apply (recordStep_keeps_phonesInOrder ok r r' Hr).
    rewrite Forall_lookup in Hinv. eapply (Hinv i); eauto.
  - apply Forall_app. split; [exact Hinv|]. apply Forall_singleton.
    destruct Hr; intros j p Hp; destruct j; discriminate.
  - apply sampleData_phonesInOrder.
Qed.

Lemma generatePhoneID_vendor_inj (v1 v2 : string) (n1 n2 : Z) :
  Text.includes v1 "-" = false -> Text.includes v2 "-" = false ->
  generatePhoneID v1 n1 = generatePhoneID v2 n2 -> v1 = v2.
Proof.
  intros H1 H2 H. unfold generatePhoneID in H.
  change (?v +:+ "-P" +:+ ?s) with (v +:+ String "-" ("P" +:+ s)) in H.
  apply (f_equal (Text.split "-")) in H.
  rewrite (split_piece _ _ H1), (split_piece _ _ H2) in H. congruence.
Qed.

Lemma numbered_vendor_id (records : list record) (r : record) (v : string) :
  vendorsNumbered records -> r ∈ records -> r_vendor_id r = Some v ->
  is_vendor r = true /\ Text.includes v "-" = false.
Proof.
  intros [Hids Hall] Hr Hv. rewrite forallb_forall in Hall.
  specialize (Hall r ltac:(apply list_elem_of_In; exact Hr)).
  apply orb_prop in Hall as [Hty|Hn]; [|apply bool_decide_eq_true in Hn; congruence].
  split; [exact Hty|].
  assert (Hin : Some v ∈ vendorIds records).
  { apply list_elem_of_fmap. exists r. split; [auto|].
    apply list_elem_of_In, filter_In. split; [apply list_elem_of_In; exact Hr | exact Hty]. }
  rewrite Hids in Hin. apply list_elem_of_fmap in Hin as (k & Hk & _).
  apply (inj Some) in Hk. subst v. apply vendorIdOf_no_hyphen.
Qed.

Lemma statusTarget_at (phoneId : string) (records : list record) (i j : nat) (r : record) :
  records !! i = Some r -> is_vendor r = true ->
  Js.findIndex (has_phone_id phoneId) (r_phones r) = Some j ->
  (forall i' r', (i' < i)%nat -> records !! i' = Some r' -> is_vendor r' = true ->
     Js.findIndex (has_phone_id phoneId) (r_phones r') = None) ->
  statusTarget phoneId records = Some (i, j).
Proof.
  revert i. induction records as [|a l IH]; intros i Hi Hty Hj Hbefore; [discriminate|].
  destruct i as [|i]; simpl in Hi.
  - injection Hi as ->. simpl. rewrite Hty, Hj. reflexivity.
  - simpl.
    assert (Hnone : (if is_vendor a then Js.findIndex (has_phone_id phoneId) (r_phones a)
                     else None) = None).
    { destruct (is_vendor a) eqn:Ha; [|reflexivity].
      apply (Hbefore 0%nat a); [lia | reflexivity | exact Ha]. }
    rewrite Hnone.
    rewrite (IH i Hi Hty Hj); [reflexivity|].
    intros i' r' Hlt Hr' Hty'. apply (Hbefore (S i') r'); [lia | exact Hr' | exact Hty'].
Qed.

(** X21. A status selector changes the phone it belongs to.  In a store
    whose vendors are numbered in sequence and whose phone ids were made by
    the add-phone form (the empty store and the sample data are such), this
    stays so after every sequence of handler calls, and then no two phones of
    the whole store share an id: the phone [updatePhoneStatus] finds for the
    id of a phone is that phone itself, so the call changes the status of the
    phone whose selector was used and of no other. *)
Theorem status_change_hits_its_phone (cs : list command) (st : app) (i j : nat)
    (r : record) (p : phone) (newStatus : string) :
  vendorsNumbered (cachedRecords st) ->
  Forall phonesInOrder (cachedRecords st) ->
  let st1 := run cs st in
  cachedRecords st1 !! i = Some r -> is_vendor r = true -> r_phones r !! j = Some p ->
  statusTarget (phone_id p) (cachedRecords st1) = Some (i, j) /\
  let st2 := updatePhoneStatus (phone_id p) newStatus st1 in
  phoneAt i j (cachedRecords st2) = Some (setStatus newStatus p) /\
  (forall a b, (a, b) <> (i, j) ->
    phoneAt a b (cachedRecords st2) = phoneAt a b (cachedRecords st1)) /\
  exists p',
    phoneAt i j (cachedRecords st2) = Some p' /\
    status p' = newStatus /\
    (completed p' = true <-> newStatus = "Ready") /\
    phone_id p' = phone_id p /\ billed p' = billed p /\ bill_id p' = bill_id p /\
    date_received p' = date_received p /\ brand p' = brand p /\ model p' = model p /\
    issue p' = issue p /\ received_by p' = received_by p.
Proof.
  intros Hnum Hord st1 Hr Hty Hp.
  assert (Hn1 : vendorsNumbered (cachedRecords st1)).
  { unfold st1. apply run_invariant; [|exact Hnum]. apply storeStep_keeps_numbered. }
  assert (Ho1 : Forall phonesInOrder (cachedRecords st1)).
  { apply (run_invariant (fun records => Forall phonesInOrder records));
      [apply storeStep_keeps_phonesInOrder | exact Hord]. }
  rewrite Forall_lookup in Ho1.
  pose proof (Ho1 i r Hr) as Hor.
  destruct (Hor j p Hp) as (v & Hv & Hid).
  assert (Hin : r ∈ cachedRecords st1) by (eapply list_elem_of_lookup_2; eauto).
  destruct (numbered_vendor_id _ r v Hn1 Hin Hv) as [_ Hhy].
  assert (Htarget : statusTarget (phone_id p) (cachedRecords st1) = Some (i, j)).
  { apply (statusTarget_at _ _ i j r Hr Hty).
    - apply (findIndex_unique _ _ j p Hp); [apply bool_decide_eq_true; reflexivity|].
      intros j' q Hq Hsame. apply bool_decide_eq_true in Hsame.
      eapply (phonesInOrder_unique r); eauto.
    - intros i' r' Hlt Hr' Hty'.
      destruct (Js.findIndex (has_phone_id (phone_id p)) (r_phones r')) as [j'|] eqn:Hf;
        [|reflexivity].
      exfalso. destruct (findIndex_Some _ _ _ Hf) as (q & Hq & Hsame & _).
      apply bool_decide_eq_true in Hsame.
      destruct (Ho1 i' r' Hr' j' q Hq) as (v' & Hv' & Hid').
      assert (Hin' : r' ∈ cachedRecords st1) by (eapply list_elem_of_lookup_2; eauto).
      destruct (numbered_vendor_id _ r' v' Hn1 Hin' Hv') as [_ Hhy'].
      rewrite Hid, Hid' in Hsame.
      apply generatePhoneID_vendor_inj in Hsame; [|assumption..]. subst v'.
      pose proof (vendor_id_position _ (numbered_NoDup _ Hn1) (proj2 Hn1)
                    i' i r' r v Hr' Hr Hv' Hv). lia. }
  split; [exact Htarget|]. cbv zeta.
  assert (Hat : phoneAt i j (cachedRecords st1) = Some p)
    by (unfold phoneAt; rewrite Hr; exact Hp).
  destruct (updatePhoneStatus_effect (phone_id p) newStatus st1 i j p Htarget Hat)
    as (_ & Hother & _).
  assert (Hnew : phoneAt i j (cachedRecords (updatePhoneStatus (phone_id p) newStatus st1))
                 = Some (setStatus newStatus p)).
  { unfold updatePhoneStatus, loadRecords. rewrite updatePhoneStatusLoop_target, Htarget.
    simpl. rewrite phoneAt_alter_eq, Hat. reflexivity. }
  split; [exact Hnew|]. split; [exact Hother|].
  exists (setStatus newStatus p). split; [exact Hnew|]. split; [reflexivity|].
  split; [apply bool_decide_eq_true|]. repeat split; reflexivity.
Qed.

Lemma status_change_hits_its_phone_witness :
  vendorsNumbered (cachedRecords (Sample.appOf sampleData)) /\
  Forall phonesInOrder (cachedRecords (Sample.appOf sampleData)) /\
  statusTarget "VND001-P006"
    (cachedRecords (run [Act (AddPhone "VND001" Sample.phoneForm)] (Sample.appOf sampleData)))
  = Some (1%nat, 5%nat).
Proof.
  split; [exact sampleData_numbered|]. split; [exact sampleData_phonesInOrder|].
  pose (st1 := run [Act (AddPhone "VND001" Sample.phoneForm)] (Sample.appOf sampleData)).
  pose (r := default sampleVendorRecord (cachedRecords st1 !! 1%nat)).
  pose (p := default (AddPhone.newPhone "" Sample.phoneForm) (r_phones r !! 5%nat)).
  apply (status_change_hits_its_phone [Act (AddPhone "VND001" Sample.phoneForm)]
           (Sample.appOf sampleData) 1 5 r p "Ready"
           sampleData_numbered sampleData_phonesInOrder eq_refl eq_refl eq_refl).
Defined.

(** ** The vendor selector and the add-phone form *)

(** X22. From the vendor selector to the phone.  In a store whose vendors
    are numbered in sequence, the option at position [k + 1] of the vendor
    selector carries the id of the vendor record number [k]; submitting the
    add-phone form with that option adds one phone, in state Received, at the
    end of the phones of that very record, with the next phone id of that
    vendor, and leaves every other record as it is.  With the empty first
    option the form only raises "Please select a vendor". *)
Theorem dropdown_option_adds_to_its_vendor (st : app) (k : nat) (vendorId : string)
    (f : AddPhone.form) :
  vendorsNumbered (cachedRecords st) ->
  updateVendorDropdown st !! S k = Some vendorId ->
  (exists i vendor,
     List.filter is_vendor (cachedRecords st) !! k = Some vendor /\
     cachedRecords st !! i = Some vendor /\
     r_vendor_id vendor = Some vendorId /\
     cachedRecords (AddPhone.submit vendorId f st)
     = <[i := with_phones (r_phones vendor
                           ++ [AddPhone.newPhone (nextPhoneId vendorId vendor) f]) vendor]>
         (cachedRecords st) /\
     (exists stored p,
        cachedRecords (AddPhone.submit vendorId f st) !! i = Some stored /\
        r_phones stored = r_phones vendor ++ [p] /\
        r_record_type stored = r_record_type vendor /\
        r_vendor_id stored = Some vendorId /\
        r_bills stored = r_bills vendor /\ r_other stored = r_other vendor /\
        phone_id p = nextPhoneId vendorId vendor /\
        status p = "Received" /\ completed p = false /\
        billed p = false /\ bill_id p = None) /\
     (forall j, j <> i ->
        cachedRecords (AddPhone.submit vendorId f st) !! j = cachedRecords st !! j) /\
     length (cachedRecords (AddPhone.submit vendorId f st)) = length (cachedRecords st)) /\
  AddPhone.submit "" f st = alert "Please select a vendor" st.
Proof.
  intros Hnum Hopt. unfold updateVendorDropdown, loadRecords in Hopt. simpl in Hopt.
  rewrite list_lookup_fmap in Hopt.
  destruct (List.filter is_vendor (cachedRecords st) !! k) as [vendor|] eqn:Hk; [|discriminate].
  simpl in Hopt. injection Hopt as Hopt.
  assert (Hin : vendor ∈ List.filter is_vendor (cachedRecords st))
    by (eapply list_elem_of_lookup_2; eauto).
  apply list_elem_of_In, filter_In in Hin as [Hin Hty]. apply list_elem_of_In in Hin.
  assert (Hvid : r_vendor_id vendor = Some vendorId).
  { destruct Hnum as [Hids _]. unfold vendorIds in Hids.
    assert (Hl : (r_vendor_id <$> List.filter is_vendor (cachedRecords st)) !! k
                 = Some (r_vendor_id vendor))
      by (rewrite list_lookup_fmap, Hk; reflexivity).
    rewrite Hids, list_lookup_fmap in Hl.
    destruct (seq 0 _ !! k) as [k'|]; [|discriminate]. simpl in Hl.
    injection Hl as Hl. rewrite <- Hl in Hopt. simpl in Hopt. congruence. }
  apply list_elem_of_lookup_1 in Hin as (i & Hi).
  assert (Hidx : Js.findIndex (has_vendor_id vendorId) (cachedRecords st) = Some i).
  { apply (findIndex_unique _ _ i vendor Hi); [apply bool_decide_eq_true; exact Hvid|].
    intros j y Hj Hy. apply bool_decide_eq_true in Hy.
    eapply (vendor_id_position _ (numbered_NoDup _ Hnum) (proj2 Hnum)); eauto. }
  split.
  - assert (Hsub : cachedRecords (AddPhone.submit vendorId f st)
                   = <[i := with_phones (r_phones vendor
                             ++ [AddPhone.newPhone (nextPhoneId vendorId vendor) f]) vendor]>
                       (cachedRecords st)).
    { unfold AddPhone.submit, loadRecords. rewrite Hidx, Hi. reflexivity. }
    assert (Hlt : (i < length (cachedRecords st))%nat) by (eapply lookup_lt_Some; eauto).
    exists i, vendor.
    split; [reflexivity|]. split; [exact Hi|]. split; [exact Hvid|]. split; [exact Hsub|].
    split; [|split].
    + eexists _, _. split; [rewrite Hsub; apply list_lookup_insert_eq; exact Hlt|].
      split; [reflexivity|]. split; [reflexivity|]. split; [exact Hvid|].
      repeat split; reflexivity.
    + intros j Hj. rewrite Hsub. apply list_lookup_insert_ne. congruence.
    + rewrite Hsub. apply length_insert.
  - unfold AddPhone.submit, loadRecords.
    destruct (Js.findIndex (has_vendor_id "") (cachedRecords st)) as [i0|] eqn:H0;
      [|reflexivity].
    exfalso. destruct (findIndex_Some _ _ _ H0) as (r0 & Hr0 & Hid0 & _).
    apply bool_decide_eq_true in Hid0.
    assert (Hin0 : r0 ∈ cachedRecords st) by (eapply list_elem_of_lookup_2; eauto).
    destruct Hnum as [Hids Hall]. rewrite forallb_forall in Hall.
    specialize (Hall r0 ltac:(apply list_elem_of_In; exact Hin0)).
    apply orb_prop in Hall as [Hty0|Hn]; [|apply bool_decide_eq_true in Hn; congruence].
    assert (Hin1 : Some "" ∈ vendorIds (cachedRecords st)).
    { apply list_elem_of_fmap. exists r0. split; [auto|].
      apply list_elem_of_In, filter_In. split; [apply list_elem_of_In; exact Hin0 | exact Hty0]. }
    rewrite Hids in Hin1. apply list_elem_of_fmap in Hin1 as (k0 & Hk0 & _).
    discriminate Hk0.
Qed.

Lemma dropdown_option_adds_to_its_vendor_witness :
  updateVendorDropdown (Sample.appOf sampleData) = [""; "VND001"] /\
  exists i vendor,
    cachedRecords (Sample.appOf sampleData) !! i = Some vendor /\
    cachedRecords (AddPhone.submit "VND001" Sample.phoneForm (Sample.appOf sampleData))
    = <[i := with_phones (r_phones vendor
                          ++ [AddPhone.newPhone (nextPhoneId "VND001" vendor) Sample.phoneForm])
                         vendor]> (cachedRecords (Sample.appOf sampleData)).
Proof.
  split; [reflexivity|].
  destruct (dropdown_option_adds_to_its_vendor (Sample.appOf sampleData) 0 "VND001"
              Sample.phoneForm sampleData_numbered eq_refl)
    as ((i & vendor & _ & Hi & _ & Hsub & _) & _).
  exists i, vendor. split; [exact Hi | exact Hsub].
Defined.

(** ** Records that repeat an id *)

(** X23. A repeated id is shadowed.  The billing search opens the first
    record that matches.  When a record of the store has the searched id, the
    form that opens belongs to that record or to one before it, and to one
    before it as soon as an earlier record matches the text: a record whose id
    repeats the id of an earlier record of its family (as the one the first
    service intake after the first start gets) is never opened by a search for
    its id. *)
Theorem repeated_id_is_shadowed (typed : string) (st : app) (i : nat) (r : record) :
  Text.trim typed <> "" ->
  cachedRecords st !! i = Some r ->
  searchId r = Some (Text.toUpperCase (Text.trim typed)) ->
  exists k found,
    (k <= i)%nat /\ cachedRecords st !! k = Some found /\
    searchMatches (Text.trim typed) found = true /\
    searchAndLoadRecord typed st = (Some (openBillingForm found st), st) /\
    forall j earlier, (j < i)%nat -> cachedRecords st !! j = Some earlier ->
      searchMatches (Text.trim typed) earlier = true -> (k < i)%nat.
Proof.
  intros Hne Hi Hid.
  pose proof (searchMatches_id _ _ Hid) as Hm.
  destruct (Js.findIndex (searchMatches (Text.trim typed)) (cachedRecords st)) as [k|] eqn:Hk.
  - destruct (findIndex_Some _ _ _ Hk) as (found & Hf & Hmf & Hfirst).
    assert (Hle : (k <= i)%nat).
    { destruct (decide (k <= i)%nat) as [H|H]; [exact H|].
      rewrite (Hfirst i r ltac:(lia) Hi) in Hm. discriminate. }
    exists k, found. repeat split; auto.
    + unfold searchAndLoadRecord, loadRecords. cbv zeta.
      destruct (decide (Text.trim typed = "")) as [He|_]; [contradiction|].
      rewrite find_findIndex, Hk. simpl. rewrite Hf. reflexivity.
    + intros j earlier Hj Hlook Hmatch.
      destruct (decide (k <= j)%nat) as [H|H]; [lia|].
      rewrite (Hfirst j earlier ltac:(lia) Hlook) in Hmatch. discriminate.
  - pose proof (findIndex_None _ _ Hk r ltac:(eapply list_elem_of_lookup_2; eauto)) as Hnone.
    rewrite Hnone in Hm. discriminate.
Qed.

Lemma repeated_id_is_shadowed_witness :
  (r_service_id <$> cachedRecords Scenario.firstIntake !! 2%nat) = Some (Some "SRV001") /\
  searchAndLoadRecord "srv001" Scenario.firstIntake
  = (Some (ServiceBillingForm sampleIndividualRecord), Scenario.firstIntake) /\
  exists k found,
    (k <= 2)%nat /\ cachedRecords Scenario.firstIntake !! k = Some found /\
    searchAndLoadRecord "srv001" Scenario.firstIntake
    = (Some (openBillingForm found Scenario.firstIntake), Scenario.firstIntake).
Proof.
  split; [reflexivity|]. split; [reflexivity|].
  pose (r := default sampleIndividualRecord (cachedRecords Scenario.firstIntake !! 2%nat)).
  destruct (repeated_id_is_shadowed "srv001" Scenario.firstIntake 2 r
              ltac:(discriminate) eq_refl eq_refl)
    as (k & found & Hle & Hf & _ & Hopen & _).
  exists k, found. auto.
Defined.

(** ** The bill a billed phone points to *)

Lemma recordStep_keeps_billPointers (ok : phone -> string -> Prop) (r r' : record) :
  recordStep ok r r' -> billPointersOk r -> billPointersOk r'.
Proof.
  intros Hstep Hinv.
  destruct Hstep as [r vendorId f Hid|r j newStatus p0 Hp0 Hok|r vendorId ids b Hid Hne Hb Hids
                    |r k items subtotal tax grandTotal now];
    intros p Hp Hbilled; unfold billsOf in *; simpl in *.
  - apply elem_of_app in Hp as [Hp|Hp]; [apply (Hinv p Hp Hbilled)|].
    apply list_elem_of_singleton in Hp. subst p. discriminate Hbilled.
  - apply list_elem_of_lookup_1 in Hp as (a & Ha).
    destruct (decide (a = j)) as [->|Hne].
    + destruct (r_phones r !! j) as [q|] eqn:Hq.
      * rewrite list_lookup_alter_eq, Hq in Ha. simpl in Ha. injection Ha as <-.
        apply (Hinv q); [eapply list_elem_of_lookup_2; eauto | exact Hbilled].
      * rewrite list_lookup_alter_eq, Hq in Ha. discriminate.
    + rewrite list_lookup_alter_ne in Ha by congruence.
      apply (Hinv p); [eapply list_elem_of_lookup_2; eauto | exact Hbilled].
  - apply list_elem_of_fmap in Hp as (q & -> & Hq). unfold markBilled in *.
    destruct (Js.includes ids (phone_id q)) eqn:Hinc.
    + exists b. split; [apply elem_of_app; right; apply list_elem_of_singleton; reflexivity|].
      split; [reflexivity|]. simpl. rewrite Hids. apply includes_true. exact Hinc.
    + destruct (Hinv q Hq Hbilled) as (b0 & Hb0 & Hptr & Hlist).
      exists b0. split; [apply elem_of_app; left; exact Hb0 | auto].
  - destruct (Hinv p Hp Hbilled) as (b0 & Hb0 & Hptr & Hlist).
    apply list_elem_of_lookup_1 in Hb0 as (a & Ha). unfold billsOf in Ha.
    destruct (decide (a = k)) as [->|Hne].
    + exists (replaceItems items subtotal tax grandTotal now b0). split; [|auto].
      apply (list_elem_of_lookup_2 _ k). rewrite list_lookup_alter_eq, Ha. reflexivity.
    + exists b0. split; [|auto].
      apply (list_elem_of_lookup_2 _ a). rewrite list_lookup_alter_ne by congruence. exact Ha.
Qed.

Lemma sampleData_billPointers : Forall billPointersOk sampleData.
Proof.
  repeat constructor.
  - intros p Hp. inversion Hp.
  - intros p Hp Hb.
    repeat (apply elem_of_cons in Hp as [->|Hp];
            [first [discriminate Hb
                   |eexists; split; [left; reflexivity|];
                    split; [reflexivity|]; simpl;
                    first [left; reflexivity | right; left; reflexivity]]|]).
    inversion Hp.
Qed.

Lemma storeStep_keeps_billPointers (ok : phone -> string -> Prop) (records records' : list record) :
  storeStep ok records records' -> Forall billPointersOk records -> Forall billPointersOk records'.
Proof.
  intros Hstep Hinv. destruct Hstep as [records|records i r r' Hi Hr|records r Hr|].
  - exact Hinv.
  - apply Forall_insert; [exact Hinv|].
    apply (recordStep_keeps_billPointers ok r r' Hr).
    rewrite Forall_lookup in Hinv. eapply (Hinv i); eauto.
  - apply Forall_app. split; [exact Hinv|]. apply Forall_singleton.
    destruct Hr; intros p Hp; inversion Hp.
  - apply sampleData_billPointers.
Qed.

(** X24. The bill shown next to a billed phone exists.  If every billed
    phone carries the id of a bill of its vendor that lists it (so it is in
    the empty store and in the sample data), this holds after every sequence
    of handler calls, with no condition on the calls: the bill number the
    vendor view prints for a billed phone is the id of a bill of that vendor,
    and that bill names the phone. *)
Theorem bill_pointers_stay_valid (cs : list command) (st : app) (r : record) (p : phone) :
  Forall billPointersOk (cachedRecords st) ->
  r ∈ cachedRecords (run cs st) -> p ∈ r_phones r -> billed p = true ->
  exists b, b ∈ billsOf r /\ bill_id p = Some (vb_bill_id b) /\
            phone_id p ∈ vb_phone_ids b.
Proof.
  intros Hinv Hr Hp Hb.
  assert (H : Forall billPointersOk (cachedRecords (run cs st))).
  { apply (run_invariant (fun records => Forall billPointersOk records));
      [apply storeStep_keeps_billPointers | exact Hinv]. }
  rewrite Forall_forall in H. apply (H r Hr p Hp Hb).
Qed.

Lemma bill_pointers_stay_valid_witness :
  let st := Sample.appOf sampleData in
  let cs := [Act (SetStatus "VND001-P001" "Received");
             Act (AddPhone "VND001" Sample.phoneForm);
             Act (Save Sample.now
                       (Sample.pageOf (Num.ofZ 500) 1 Num.zero
                                      (Some ["VND001-P005"; "VND001-P006"]))
                       "VND001" true);
             Act (EditBill "VND001" "VND001-B001");
             Act (Save Sample.now (Sample.pageOf (Num.ofZ 900) 2 Num.zero None) "VND001" true)] in
  let r := default sampleVendorRecord (cachedRecords (run cs st) !! 1%nat) in
  Forall billPointersOk (cachedRecords st) /\
  (fun p => (phone_id p, billed p, bill_id p)) <$> r_phones r
  = [("VND001-P001", true, Some "VND001-B001"); ("VND001-P002", true, Some "VND001-B001");
     ("VND001-P003", false, None); ("VND001-P004", false, None);
     ("VND001-P005", true, Some "VND001-B002"); ("VND001-P006", true, Some "VND001-B002")] /\
  vb_bill_id <$> billsOf r = ["VND001-B001"; "VND001-B002"] /\
  forall p, p ∈ r_phones r -> billed p = true ->
    exists b, b ∈ billsOf r /\ bill_id p = Some (vb_bill_id b) /\
              phone_id p ∈ vb_phone_ids b.
Proof.
  intros st cs r.
  split; [exact sampleData_billPointers|].
  split; [vm_compute; reflexivity|]. split; [vm_compute; reflexivity|].
  intros p Hp Hb.
  apply (bill_pointers_stay_valid cs st r p sampleData_billPointers); [|exact Hp|exact Hb].
  apply (list_elem_of_lookup_2 _ 1%nat). vm_compute. reflexivity.
Defined.

(** ** Statuses under the pages of the script *)

Lemma viewRun_invariant (P : list record -> Prop) :
  (forall records records', storeStep offeredStatus records records' -> P records -> P records') ->
  forall cs st st', P (cachedRecords st) -> viewRun cs st = Some st' -> P (cachedRecords st').
Proof.
  intros Hstep cs. induction cs as [|c cs IH]; intros st st' HP Hrun; simpl in Hrun.
  - injection Hrun as <-. exact HP.
  - destruct (viewCan c st) eqn:Hcan; [|discriminate].
    apply (IH _ _ (Hstep _ _ (execute_storeStep_view c st Hcan) HP) Hrun).
Qed.

Lemma recordStep_keeps_statusesShown (r r' : record) :
  recordStep offeredStatus r r' -> statusesShown r = true -> statusesShown r' = true.
Proof.
  intros Hstep Hinv. unfold statusesShown in *.
  destruct Hstep as [r vendorId f Hid|r j newStatus p0 Hp0 Hok|r vendorId ids b Hid Hne Hb Hids
                    |r k items subtotal tax grandTotal now]; simpl.
  - rewrite forallb_app, Hinv. reflexivity.
  - rewrite forallb_forall in Hinv.
    pose proof (Hinv p0 ltac:(apply list_elem_of_In; eapply list_elem_of_lookup_2; eauto)) as H0.
    apply andb_prop in H0 as [_ H0].
    destruct (statusSelectOptions_not_billed p0 newStatus Hok) as [Hnb Hnew].
    rewrite (bool_decide_eq_false_2 _ Hnb) in H0.
    apply forallb_forall. intros q Hq. apply list_elem_of_In in Hq.
    apply list_elem_of_lookup_1 in Hq as (a & Ha).
    destruct (decide (a = j)) as [->|Hne].
    + rewrite list_lookup_alter_eq, Hp0 in Ha. simpl in Ha. injection Ha as <-. simpl.
      rewrite (bool_decide_eq_false_2 _ Hnew).
      apply andb_true_intro. split; [|exact H0].
      apply bool_decide_eq_true. unfold offeredStatus, statusSelectOptions in Hok.
      destruct (decide (status p0 = "Billed")); [inversion Hok|].
      repeat (apply elem_of_cons in Hok as [->|Hok];
              [repeat first [left; reflexivity | right]|]).
      inversion Hok.
    + rewrite list_lookup_alter_ne in Ha by congruence.
      apply Hinv, list_elem_of_In. eapply list_elem_of_lookup_2; eauto.
  - apply forallb_fmap_same; [exact Hinv|]. intros q Hq. unfold markBilled.
    destruct (Js.includes ids (phone_id q)); [reflexivity | exact Hq].
  - exact Hinv.
Qed.

Lemma storeStep_keeps_statusesShown (records records' : list record) :
  storeStep offeredStatus records records' ->
  Forall (fun r => statusesShown r = true) records ->
  Forall (fun r => statusesShown r = true) records'.
Proof.
  intros Hstep Hinv. destruct Hstep as [records|records i r r' Hi Hr|records r Hr|].
  - exact Hinv.
  - apply Forall_insert; [exact Hinv|].
    apply (recordStep_keeps_statusesShown r r' Hr).
    rewrite Forall_lookup in Hinv. eapply (Hinv i); eauto.
  - apply Forall_app. split; [exact Hinv|]. apply Forall_singleton.
    destruct Hr; reflexivity.
  - repeat constructor.
Qed.

Lemma counters_add_up (ps : list phone) :
  forallb (fun p => bool_decide (status p ∈ ["Received"; "In Repair"; "Ready"; "Billed"]) &&
                    eqb (bool_decide (status p = "Billed")) (billed p)) ps = true ->
  length ps
  = (length (List.filter (fun p => bool_decide (status p = "Received")) ps)
     + length (List.filter (fun p => bool_decide (status p = "In Repair")) ps)
     + length (List.filter (fun p => bool_decide (status p = "Ready")) ps)
     + length (List.filter (fun p => bool_decide (status p = "Billed")) ps))%nat /\
  length (List.filter (fun p => bool_decide (status p = "Billed")) ps)
  = length (List.filter billed ps).
Proof.
  induction ps as [|p ps IH]; intros H; [split; reflexivity|].
  simpl in H. apply andb_prop in H as [Hp Hps]. destruct (IH Hps) as [IH1 IH2].
  apply andb_prop in Hp as [Hknown Hb]. apply bool_decide_eq_true in Hknown.
  simpl.
  repeat (apply elem_of_cons in Hknown as [Hs|Hknown];
          [rewrite Hs in *; simpl in *; destruct (billed p); try discriminate Hb;
           simpl; split; lia|]).
  inversion Hknown.
Qed.

(** X25. The counters of the vendor views add up.  If every phone has one
    of the four statuses Received, In Repair, Ready and Billed and has the
    status Billed exactly when it is billed (so it is in the empty store and
    in the sample data), this holds after every sequence of calls the pages
    can make (a status is changed only through the selector of the phone):
    the four counters of a vendor add up to the number of its phones, the
    counter of Billed is the number of billed phones, and no check box is both
    disabled and ticked. *)
Theorem status_counters_add_up (cs : list command) (st st' : app) (r : record) :
  Forall (fun r => statusesShown r = true) (cachedRecords st) ->
  viewRun cs st = Some st' -> r ∈ cachedRecords st' ->
  length (r_phones r)
  = (countStatus "Received" r + countStatus "In Repair" r + countStatus "Ready" r
     + countStatus "Billed" r)%nat /\
  countStatus "Billed" r = length (List.filter billed (r_phones r)) /\
  forall p, p ∈ r_phones r ->
    (status p = "Billed" <-> billed p = true) /\
    (checkboxDisabled p = true -> checkboxChecked p = false).
Proof.
  intros Hinv Hrun Hr.
  assert (H : Forall (fun r => statusesShown r = true) (cachedRecords st')).
  { apply (viewRun_invariant (fun records => Forall (fun r => statusesShown r = true) records)
             storeStep_keeps_statusesShown cs st st' Hinv Hrun). }
  rewrite Forall_forall in H. specialize (H r Hr). unfold statusesShown in H.
  destruct (counters_add_up _ H) as [H1 H2].
  split; [exact H1|]. split; [exact H2|].
  intros p Hp. rewrite forallb_forall in H.
  specialize (H p ltac:(apply list_elem_of_In; exact Hp)).
  apply andb_prop in H as [_ Hb].
  assert (Hiff : status p = "Billed" <-> billed p = true).
  { destruct (decide (status p = "Billed")) as [Hs|Hs].
    - rewrite (bool_decide_eq_true_2 _ Hs) in Hb. destruct (billed p); [tauto|discriminate].
    - rewrite (bool_decide_eq_false_2 _ Hs) in Hb.
      destruct (billed p); [discriminate|]. split; [contradiction|discriminate]. }
  split; [exact Hiff|].
  unfold checkboxDisabled, checkboxChecked. intros Hd.
  apply bool_decide_eq_true in Hd. apply Hiff in Hd. rewrite Hd. apply andb_false_r.
Qed.

Lemma status_counters_add_up_witness :
  Forall (fun r => statusesShown r = true) (cachedRecords (Sample.appOf sampleData)) /\
  viewRun [Act (SetStatus "VND001-P004" "Ready"); Act (SetStatus "VND001-P001" "Received")]
          (Sample.appOf sampleData) = None /\
  exists st',
    viewRun [Act (SetStatus "VND001-P004" "Ready"); Act (AddPhone "VND001" Sample.phoneForm)]
            (Sample.appOf sampleData) = Some st' /\
    forall r, r ∈ cachedRecords st' ->
      length (r_phones r)
      = (countStatus "Received" r + countStatus "In Repair" r + countStatus "Ready" r
         + countStatus "Billed" r)%nat.
Proof.
  assert (H0 : Forall (fun r => statusesShown r = true)
                      (cachedRecords (Sample.appOf sampleData))) by (repeat constructor).
  split; [exact H0|]. split; [reflexivity|].
  eexists. split; [reflexivity|]. intros r Hr.
  eapply (status_counters_add_up
            [Act (SetStatus "VND001-P004" "Ready"); Act (AddPhone "VND001" Sample.phoneForm)]
            (Sample.appOf sampleData) _ r H0 eq_refl Hr).
Defined.
